(** * vcharacter-sales: the sales game engine, embedded and verified

    A shallow embedding of the deterministic core of the sales game
    ([src/lib/sales/engine.ts], [src/lib/sales/negotiation.ts],
    [src/lib/sales/clients.ts], [src/lib/dice.ts], [src/lib/config.ts]).

    Conventions of the embedding.

    - A JavaScript [number] that only ever holds an integer (money, stat
      modifiers, die results, patience, resistance, budgets) is a [Z].
    - Products with the decimal literals [0.15], [0.05] and [0.1] are
      evaluated in IEEE binary64, as the engine does, through the
      Standard Library's [SpecFloat]: the rounding of those products is
      visible through [Math.floor].
    - The quotient [money / startingMoney] of [calculateTier] is the
      exact rational.  It is only compared with 1.0, 2.0 and 3.0, and
      for integers below 2^50 the correctly rounded quotient lies on
      the same side of these three numbers as the exact one.
    - 32-bit integer operations ([<<], [&], [>>>]) are written out with
      their wrap-around on [Z].
    - A function that can [throw] returns an [outcome]; [Date.now()] is
      an explicit argument [now].
    - Strings are Standard Library strings, one character per UTF-16 code
      unit (the engine's strings are ASCII: hexadecimal seeds, labels and
      English descriptions).
    - The free-text [narrative] results and the locale-dependent rendering
      [Number.prototype.toLocaleString] are presentation: narratives are
      left out, and [toLocaleString] is a parameter of the one function
      whose modifier description embeds it. *)

From Stdlib Require Import ZArith QArith Qround Qminmax List String Ascii Bool Lia.
From Stdlib Require Import SpecFloat DecimalString.
Import ListNotations.

Local Open Scope string_scope.
Local Open Scope Z_scope.

(* ================================================================== *)
(** * JavaScript numbers *)
(* ================================================================== *)

Module JS.

(** ** IEEE binary64 *)

Definition prec : Z := 53.
Definition emax : Z := 1024.

Definition float := spec_float.

Definition ofZ (z : Z) : float := binary_normalize prec emax z 0 false.
Definition fadd : float -> float -> float := SFadd prec emax.
Definition fmul : float -> float -> float := SFmul prec emax.
Definition fdiv : float -> float -> float := SFdiv prec emax.
Definition fltb : float -> float -> bool := SFltb.

(** A decimal literal [n/d] of the source text denotes the binary64
    number nearest to it, which is what the correctly rounded quotient
    of the two integers is. *)
Definition lit (n d : Z) : float := fdiv (ofZ n) (ofZ d).

(** [Math.min] on two numbers that are not NaN. *)
Definition fmin (x y : float) : float := if fltb y x then y else x.
(** [Math.max] on two numbers that are not NaN. *)
Definition fmax (x y : float) : float := if fltb x y then y else x.

(** [Math.floor], read back as an integer (0 on NaN and infinities,
    which the engine never floors). *)
Definition floor (x : float) : Z :=
  match x with
  | S754_finite s m e =>
      let v := if s then Z.neg m else Z.pos m in
      match e with
      | Zneg p => v / 2 ^ Z.pos p
      | _ => v * 2 ^ e
      end
  | _ => 0
  end.

(** ** 32-bit integers *)

Definition two32 : Z := 2 ^ 32.
Definition two31 : Z := 2 ^ 31.

(** ToInt32: the signed 32-bit integer congruent to [z]. *)
Definition toInt32 (z : Z) : Z := (z + two31) mod two32 - two31.
(** ToUint32: the unsigned 32-bit integer congruent to [z]. *)
Definition toUint32 (z : Z) : Z := z mod two32.

(** [a << n] *)
Definition shl (a n : Z) : Z := toInt32 (Z.shiftl (toInt32 a) (n mod 32)).
(** [a & b] *)
Definition and (a b : Z) : Z := toInt32 (Z.land (toInt32 a) (toInt32 b)).
(** [a >>> 0] *)
Definition ushr0 (a : Z) : Z := toUint32 a.

(** ** Strings *)

(** [s.charCodeAt(i)] for each [i], in order. *)
Fixpoint charCodes (s : string) : list Z :=
  match s with
  | EmptyString => []
  | String c r => Z.of_N (N_of_ascii c) :: charCodes r
  end.

Definition lowerAscii (c : ascii) : ascii :=
  let n := N_of_ascii c in
  if ((65 <=? n) && (n <=? 90))%N then ascii_of_N (n + 32) else c.

(** [s.toLowerCase()] *)
Fixpoint toLowerCase (s : string) : string :=
  match s with
  | EmptyString => EmptyString
  | String c r => String (lowerAscii c) (toLowerCase r)
  end.

(** [s.includes(sub)] *)
Fixpoint includes (s sub : string) : bool :=
  if String.prefix sub s then true
  else match s with
       | EmptyString => false
       | String _ r => includes r sub
       end.

(** The result of a call that may [throw]. *)
Inductive outcome (A : Type) : Type :=
| Returned (a : A)
| Thrown (message : string).
Arguments Returned {A} a.
Arguments Thrown {A} message.

End JS.

Import JS.

(* ================================================================== *)
(** * Data model ([src/lib/types.ts], [src/lib/sales/types.ts]) *)
(* ================================================================== *)

Inductive Element := Fire | Water | Earth | Air | Wood | Metal.

Inductive SpiritAnimal :=
| Wolf | Bear | Eagle | Dragon | Octopus | Owl
| Tiger | Deer | Spider | Whale | Elephant | Frog.

Inductive Sex := Male | Female.

Inductive StatName := str | dex | con | int | wis | cha.

(** A single stat roll (4d6). *)
Record StatRoll := {
  dice : list Z;
  total : Z;
  modifier : Z
}.

Record CharacterStats := {
  stat_str : StatRoll;
  stat_dex : StatRoll;
  stat_con : StatRoll;
  stat_int : StatRoll;
  stat_wis : StatRoll;
  stat_cha : StatRoll
}.

(** [stats[name]] *)
Definition stat (s : CharacterStats) (n : StatName) : StatRoll :=
  match n with
  | str => stat_str s
  | dex => stat_dex s
  | con => stat_con s
  | int => stat_int s
  | wis => stat_wis s
  | cha => stat_cha s
  end.

Record CharacterTraits := {
  element : Element;
  spiritAnimal : SpiritAnimal;
  sex : Sex
}.

Record StoredCharacter := {
  name : string;
  stats : CharacterStats;
  traits : CharacterTraits;
  rollBlockHeight : Z
}.

Inductive Phase :=
| assignment | first_trip | first_client | crossroads | quarter_event
| vp_meeting | whale_prep | whale | quarter_end.

Inductive Territory := tech | retail | finance.
Inductive TravelChoice := fly | train | drive.
Inductive CrossroadsChoice := grind | climb | hunt.
Inductive VPChoice := safe | stretch | allin.
Inductive WhaleInvestment := research | gift | dinner | wingit.
Inductive NegotiationAction := pitch | listen | concede | ability.
Inductive BodyLanguage :=
| arms_crossed | skeptical | neutral | interested | engaged.
Inductive Tier := fired | under_review | employed | promotion | legendary.
Module CheckResult.
Inductive t := success | fail.
End CheckResult.
Inductive ModifierType := buff | debuff.

Record Client := {
  client_name : string;
  territory : Territory;
  patience : Z;
  maxPatience : Z;
  budget : Z;
  resistance : Z;
  dealValue : Z;
  active : bool
}.

Record ActiveModifier := {
  description : string;
  type : ModifierType;
  value : Z;
  source : string;
  phasesRemaining : Z
}.

(** The fields of a recorded roll and of a round result that the engine
    reads. *)
Record GameRoll := {
  label : string;
  blockHeight : Z;
  dieSize : Z;
  result : Z
}.

Record NegotiationRoundResult := {
  round : Z;
  playerAction : NegotiationAction;
  bodyLanguage : option BodyLanguage;
  moneyGained : Z;
  patienceAfter : Z;
  resistanceAfter : Z;
  dealValueAfter : Z
}.

Record SalesGameState := {
  character : StoredCharacter;
  currentPhase : Phase;
  startingMoney : Z;
  budgetScale : JS.float;
  money : Z;
  st_territory : option Territory;
  vpChoice : option VPChoice;
  legendaryUnlocked : bool;
  spiritAbilityUsed : bool;
  modifiers : list ActiveModifier;
  choices : list string;
  rolls : list GameRoll;
  travelChoice : option TravelChoice;
  travelBonus : option Z;
  journeyEvent : option string;
  driveTrouble : option string;
  firstClient : option Client;
  firstClientRounds : option (list NegotiationRoundResult);
  crossroadsChoice : option CrossroadsChoice;
  crossroadsResult : option CheckResult.t;
  quarterEvent : option string;
  whaleInvestment : option WhaleInvestment;
  luckyItem : option string;
  whaleClient : option Client;
  whaleRounds : option (list NegotiationRoundResult);
  tier : option Tier;
  startedAt : Z;
  endedAt : option Z
}.

(** ** Object spread: [{ ...state, field: v }] *)

Section Spread.
Variable s : SalesGameState.

Definition with_currentPhase (v : Phase) : SalesGameState :=
  Build_SalesGameState (character s) v (startingMoney s) (budgetScale s)
    (money s) (st_territory s) (vpChoice s) (legendaryUnlocked s)
    (spiritAbilityUsed s) (modifiers s) (choices s) (rolls s)
    (travelChoice s) (travelBonus s) (journeyEvent s) (driveTrouble s)
    (firstClient s) (firstClientRounds s) (crossroadsChoice s)
    (crossroadsResult s) (quarterEvent s) (whaleInvestment s) (luckyItem s)
    (whaleClient s) (whaleRounds s) (tier s) (startedAt s) (endedAt s).

Definition with_money (v : Z) : SalesGameState :=
  Build_SalesGameState (character s) (currentPhase s) (startingMoney s)
    (budgetScale s) v (st_territory s) (vpChoice s) (legendaryUnlocked s)
    (spiritAbilityUsed s) (modifiers s) (choices s) (rolls s)
    (travelChoice s) (travelBonus s) (journeyEvent s) (driveTrouble s)
    (firstClient s) (firstClientRounds s) (crossroadsChoice s)
    (crossroadsResult s) (quarterEvent s) (whaleInvestment s) (luckyItem s)
    (whaleClient s) (whaleRounds s) (tier s) (startedAt s) (endedAt s).

Definition with_territory (v : option Territory) : SalesGameState :=
  Build_SalesGameState (character s) (currentPhase s) (startingMoney s)
    (budgetScale s) (money s) v (vpChoice s) (legendaryUnlocked s)
    (spiritAbilityUsed s) (modifiers s) (choices s) (rolls s)
    (travelChoice s) (travelBonus s) (journeyEvent s) (driveTrouble s)
    (firstClient s) (firstClientRounds s) (crossroadsChoice s)
    (crossroadsResult s) (quarterEvent s) (whaleInvestment s) (luckyItem s)
    (whaleClient s) (whaleRounds s) (tier s) (startedAt s) (endedAt s).

Definition with_vpChoice (v : option VPChoice) : SalesGameState :=
  Build_SalesGameState (character s) (currentPhase s) (startingMoney s)
    (budgetScale s) (money s) (st_territory s) v (legendaryUnlocked s)
    (spiritAbilityUsed s) (modifiers s) (choices s) (rolls s)
    (travelChoice s) (travelBonus s) (journeyEvent s) (driveTrouble s)
    (firstClient s) (firstClientRounds s) (crossroadsChoice s)
    (crossroadsResult s) (quarterEvent s) (whaleInvestment s) (luckyItem s)
    (whaleClient s) (whaleRounds s) (tier s) (startedAt s) (endedAt s).

Definition with_legendaryUnlocked (v : bool) : SalesGameState :=
  Build_SalesGameState (character s) (currentPhase s) (startingMoney s)
    (budgetScale s) (money s) (st_territory s) (vpChoice s) v
    (spiritAbilityUsed s) (modifiers s) (choices s) (rolls s)
    (travelChoice s) (travelBonus s) (journeyEvent s) (driveTrouble s)
    (firstClient s) (firstClientRounds s) (crossroadsChoice s)
    (crossroadsResult s) (quarterEvent s) (whaleInvestment s) (luckyItem s)
    (whaleClient s) (whaleRounds s) (tier s) (startedAt s) (endedAt s).

Definition with_spiritAbilityUsed (v : bool) : SalesGameState :=
  Build_SalesGameState (character s) (currentPhase s) (startingMoney s)
    (budgetScale s) (money s) (st_territory s) (vpChoice s)
    (legendaryUnlocked s) v (modifiers s) (choices s) (rolls s)
    (travelChoice s) (travelBonus s) (journeyEvent s) (driveTrouble s)
    (firstClient s) (firstClientRounds s) (crossroadsChoice s)
    (crossroadsResult s) (quarterEvent s) (whaleInvestment s) (luckyItem s)
    (whaleClient s) (whaleRounds s) (tier s) (startedAt s) (endedAt s).

Definition with_modifiers (v : list ActiveModifier) : SalesGameState :=
  Build_SalesGameState (character s) (currentPhase s) (startingMoney s)
    (budgetScale s) (money s) (st_territory s) (vpChoice s)
    (legendaryUnlocked s) (spiritAbilityUsed s) v (choices s) (rolls s)
    (travelChoice s) (travelBonus s) (journeyEvent s) (driveTrouble s)
    (firstClient s) (firstClientRounds s) (crossroadsChoice s)
    (crossroadsResult s) (quarterEvent s) (whaleInvestment s) (luckyItem s)
    (whaleClient s) (whaleRounds s) (tier s) (startedAt s) (endedAt s).

Definition with_choices (v : list string) : SalesGameState :=
  Build_SalesGameState (character s) (currentPhase s) (startingMoney s)
    (budgetScale s) (money s) (st_territory s) (vpChoice s)
    (legendaryUnlocked s) (spiritAbilityUsed s) (modifiers s) v (rolls s)
    (travelChoice s) (travelBonus s) (journeyEvent s) (driveTrouble s)
    (firstClient s) (firstClientRounds s) (crossroadsChoice s)
    (crossroadsResult s) (quarterEvent s) (whaleInvestment s) (luckyItem s)
    (whaleClient s) (whaleRounds s) (tier s) (startedAt s) (endedAt s).

Definition with_rolls (v : list GameRoll) : SalesGameState :=
  Build_SalesGameState (character s) (currentPhase s) (startingMoney s)
    (budgetScale s) (money s) (st_territory s) (vpChoice s)
    (legendaryUnlocked s) (spiritAbilityUsed s) (modifiers s) (choices s) v
    (travelChoice s) (travelBonus s) (journeyEvent s) (driveTrouble s)
    (firstClient s) (firstClientRounds s) (crossroadsChoice s)
    (crossroadsResult s) (quarterEvent s) (whaleInvestment s) (luckyItem s)
    (whaleClient s) (whaleRounds s) (tier s) (startedAt s) (endedAt s).

Definition with_travel (c : TravelChoice) (b : Z) : SalesGameState :=
  Build_SalesGameState (character s) (currentPhase s) (startingMoney s)
    (budgetScale s) (money s) (st_territory s) (vpChoice s)
    (legendaryUnlocked s) (spiritAbilityUsed s) (modifiers s) (choices s)
    (rolls s) (Some c) (Some b) (journeyEvent s) (driveTrouble s)
    (firstClient s) (firstClientRounds s) (crossroadsChoice s)
    (crossroadsResult s) (quarterEvent s) (whaleInvestment s) (luckyItem s)
    (whaleClient s) (whaleRounds s) (tier s) (startedAt s) (endedAt s).

Definition with_journeyEvent (v : string) : SalesGameState :=
  Build_SalesGameState (character s) (currentPhase s) (startingMoney s)
    (budgetScale s) (money s) (st_territory s) (vpChoice s)
    (legendaryUnlocked s) (spiritAbilityUsed s) (modifiers s) (choices s)
    (rolls s) (travelChoice s) (travelBonus s) (Some v) (driveTrouble s)
    (firstClient s) (firstClientRounds s) (crossroadsChoice s)
    (crossroadsResult s) (quarterEvent s) (whaleInvestment s) (luckyItem s)
    (whaleClient s) (whaleRounds s) (tier s) (startedAt s) (endedAt s).

Definition with_driveTrouble (v : string) : SalesGameState :=
  Build_SalesGameState (character s) (currentPhase s) (startingMoney s)
    (budgetScale s) (money s) (st_territory s) (vpChoice s)
    (legendaryUnlocked s) (spiritAbilityUsed s) (modifiers s) (choices s)
    (rolls s) (travelChoice s) (travelBonus s) (journeyEvent s) (Some v)
    (firstClient s) (firstClientRounds s) (crossroadsChoice s)
    (crossroadsResult s) (quarterEvent s) (whaleInvestment s) (luckyItem s)
    (whaleClient s) (whaleRounds s) (tier s) (startedAt s) (endedAt s).

Definition with_firstClient (c : Client) (r : list NegotiationRoundResult)
  : SalesGameState :=
  Build_SalesGameState (character s) (currentPhase s) (startingMoney s)
    (budgetScale s) (money s) (st_territory s) (vpChoice s)
    (legendaryUnlocked s) (spiritAbilityUsed s) (modifiers s) (choices s)
    (rolls s) (travelChoice s) (travelBonus s) (journeyEvent s)
    (driveTrouble s) (Some c) (Some r) (crossroadsChoice s)
    (crossroadsResult s) (quarterEvent s) (whaleInvestment s) (luckyItem s)
    (whaleClient s) (whaleRounds s) (tier s) (startedAt s) (endedAt s).

Definition with_crossroads (c : CrossroadsChoice) (r : CheckResult.t)
  : SalesGameState :=
  Build_SalesGameState (character s) (currentPhase s) (startingMoney s)
    (budgetScale s) (money s) (st_territory s) (vpChoice s)
    (legendaryUnlocked s) (spiritAbilityUsed s) (modifiers s) (choices s)
    (rolls s) (travelChoice s) (travelBonus s) (journeyEvent s)
    (driveTrouble s) (firstClient s) (firstClientRounds s) (Some c)
    (Some r) (quarterEvent s) (whaleInvestment s) (luckyItem s)
    (whaleClient s) (whaleRounds s) (tier s) (startedAt s) (endedAt s).

Definition with_quarterEvent (v : string) : SalesGameState :=
  Build_SalesGameState (character s) (currentPhase s) (startingMoney s)
    (budgetScale s) (money s) (st_territory s) (vpChoice s)
    (legendaryUnlocked s) (spiritAbilityUsed s) (modifiers s) (choices s)
    (rolls s) (travelChoice s) (travelBonus s) (journeyEvent s)
    (driveTrouble s) (firstClient s) (firstClientRounds s)
    (crossroadsChoice s) (crossroadsResult s) (Some v) (whaleInvestment s)
    (luckyItem s) (whaleClient s) (whaleRounds s) (tier s) (startedAt s)
    (endedAt s).

Definition with_whaleInvestment (v : WhaleInvestment) : SalesGameState :=
  Build_SalesGameState (character s) (currentPhase s) (startingMoney s)
    (budgetScale s) (money s) (st_territory s) (vpChoice s)
    (legendaryUnlocked s) (spiritAbilityUsed s) (modifiers s) (choices s)
    (rolls s) (travelChoice s) (travelBonus s) (journeyEvent s)
    (driveTrouble s) (firstClient s) (firstClientRounds s)
    (crossroadsChoice s) (crossroadsResult s) (quarterEvent s) (Some v)
    (luckyItem s) (whaleClient s) (whaleRounds s) (tier s) (startedAt s)
    (endedAt s).

Definition with_luckyItem (v : string) : SalesGameState :=
  Build_SalesGameState (character s) (currentPhase s) (startingMoney s)
    (budgetScale s) (money s) (st_territory s) (vpChoice s)
    (legendaryUnlocked s) (spiritAbilityUsed s) (modifiers s) (choices s)
    (rolls s) (travelChoice s) (travelBonus s) (journeyEvent s)
    (driveTrouble s) (firstClient s) (firstClientRounds s)
    (crossroadsChoice s) (crossroadsResult s) (quarterEvent s)
    (whaleInvestment s) (Some v) (whaleClient s) (whaleRounds s) (tier s)
    (startedAt s) (endedAt s).

Definition with_whaleClient (c : Client) (r : list NegotiationRoundResult)
  : SalesGameState :=
  Build_SalesGameState (character s) (currentPhase s) (startingMoney s)
    (budgetScale s) (money s) (st_territory s) (vpChoice s)
    (legendaryUnlocked s) (spiritAbilityUsed s) (modifiers s) (choices s)
    (rolls s) (travelChoice s) (travelBonus s) (journeyEvent s)
    (driveTrouble s) (firstClient s) (firstClientRounds s)
    (crossroadsChoice s) (crossroadsResult s) (quarterEvent s)
    (whaleInvestment s) (luckyItem s) (Some c) (Some r) (tier s)
    (startedAt s) (endedAt s).

Definition with_tier (v : Tier) : SalesGameState :=
  Build_SalesGameState (character s) (currentPhase s) (startingMoney s)
    (budgetScale s) (money s) (st_territory s) (vpChoice s)
    (legendaryUnlocked s) (spiritAbilityUsed s) (modifiers s) (choices s)
    (rolls s) (travelChoice s) (travelBonus s) (journeyEvent s)
    (driveTrouble s) (firstClient s) (firstClientRounds s)
    (crossroadsChoice s) (crossroadsResult s) (quarterEvent s)
    (whaleInvestment s) (luckyItem s) (whaleClient s) (whaleRounds s)
    (Some v) (startedAt s) (endedAt s).

Definition with_endedAt (v : Z) : SalesGameState :=
  Build_SalesGameState (character s) (currentPhase s) (startingMoney s)
    (budgetScale s) (money s) (st_territory s) (vpChoice s)
    (legendaryUnlocked s) (spiritAbilityUsed s) (modifiers s) (choices s)
    (rolls s) (travelChoice s) (travelBonus s) (journeyEvent s)
    (driveTrouble s) (firstClient s) (firstClientRounds s)
    (crossroadsChoice s) (crossroadsResult s) (quarterEvent s)
    (whaleInvestment s) (luckyItem s) (whaleClient s) (whaleRounds s)
    (tier s) (startedAt s) (Some v).

End Spread.

Section ClientSpread.
Variable c : Client.

Definition with_budget (v : Z) : Client :=
  Build_Client (client_name c) (territory c) (patience c) (maxPatience c) v
    (resistance c) (dealValue c) (active c).

Definition with_resistance (v : Z) : Client :=
  Build_Client (client_name c) (territory c) (patience c) (maxPatience c)
    (budget c) v (dealValue c) (active c).

Definition with_patience (v : Z) : Client :=
  Build_Client (client_name c) (territory c) v (maxPatience c) (budget c)
    (resistance c) (dealValue c) (active c).

Definition with_maxPatience (v : Z) : Client :=
  Build_Client (client_name c) (territory c) (patience c) v (budget c)
    (resistance c) (dealValue c) (active c).

Definition with_dealValue (v : Z) : Client :=
  Build_Client (client_name c) (territory c) (patience c) (maxPatience c)
    (budget c) (resistance c) v (active c).

Definition with_active (v : bool) : Client :=
  Build_Client (client_name c) (territory c) (patience c) (maxPatience c)
    (budget c) (resistance c) (dealValue c) v.

End ClientSpread.

(* ================================================================== *)
(** * Configuration ([src/lib/config.ts]) *)
(* ================================================================== *)

Record VPConfig := {
  legendaryGated : bool;
  whaleMultiplier : JS.float;
  failurePenalty : Z
}.

Module SALES_CONFIG.
Definition baseMoney : Z := 10000.
Definition chaMultiplier : Z := 2000.
Definition intMultiplier : Z := 1000.
Definition wisMultiplier : Z := 500.
Definition minimumMoney : Z := 3000.
Definition budgetScaleFloor : JS.float := lit 5 10.
Definition promotionThreshold : Q := 2.
Definition legendaryThreshold : Q := 3.
Definition vpChoices (c : VPChoice) : VPConfig :=
  match c with
  | safe => {| legendaryGated := true; whaleMultiplier := lit 10 10;
               failurePenalty := 0 |}
  | stretch => {| legendaryGated := false; whaleMultiplier := lit 125 100;
                  failurePenalty := 0 |}
  | allin => {| legendaryGated := false; whaleMultiplier := lit 15 10;
                failurePenalty := 3000 |}
  end.
End SALES_CONFIG.

(* ================================================================== *)
(** * Dice ([src/lib/dice.ts]) *)
(* ================================================================== *)

(** The body of the [for] loop of [deriveDice], for one code unit. *)
Definition hashStep (hash char : Z) : Z :=
  let hash := (JS.shl hash 5 - hash) + char in
  JS.and hash hash.

(** The loop over [combined], from the running value [hash]. *)
Definition hashLoop (combined : string) (hash : Z) : Z :=
  fold_left hashStep (charCodes combined) hash.

Definition deriveDice (seed blockHash label : string) (dieSize : Z) : Z :=
  let combined := seed ++ blockHash ++ label in
  let hash := hashLoop combined 0 in
  let positive := JS.ushr0 hash in
  Z.rem positive dieSize + 1.

(** [calculateModifier]: [floor((total - 13) / 2)]. *)
Definition calculateModifier (total : Z) : Z := (total - 13) / 2.

(* ================================================================== *)
(** * Clients ([src/lib/sales/clients.ts]) *)
(* ================================================================== *)

Definition getTerritoryFavoredStat (t : Territory) : StatName :=
  match t with
  | tech => int
  | retail => cha
  | finance => wis
  end.

(* ================================================================== *)
(** * Engine ([src/lib/sales/engine.ts]) *)
(* ================================================================== *)

Definition statMod (c : StoredCharacter) (n : StatName) : Z :=
  modifier (stat (stats c) n).

Definition calculateStartingMoney (c : StoredCharacter) : Z :=
  let baseMoney := SALES_CONFIG.baseMoney in
  let chaBonus := statMod c cha * SALES_CONFIG.chaMultiplier in
  let intBonus := statMod c int * SALES_CONFIG.intMultiplier in
  let wisBonus := statMod c wis * SALES_CONFIG.wisMultiplier in
  let total := baseMoney + chaBonus + intBonus + wisBonus in
  Z.max total SALES_CONFIG.minimumMoney.

(** CON "Resilience": CON mod * $100 reduces losses (negative CON
    increases losses). *)
Definition getConAdjustment (c : StoredCharacter) : Z :=
  statMod c con * 100.

Definition createSalesGameState (now : Z) (c : StoredCharacter)
  : SalesGameState :=
  let startingMoney := calculateStartingMoney c in
  let budgetScale :=
    JS.fmax SALES_CONFIG.budgetScaleFloor
      (JS.fdiv (ofZ startingMoney) (ofZ SALES_CONFIG.baseMoney)) in
  {| character := c; currentPhase := assignment;
     startingMoney := startingMoney; budgetScale := budgetScale;
     money := startingMoney; st_territory := None; vpChoice := None;
     legendaryUnlocked := false; spiritAbilityUsed := false;
     modifiers := []; choices := []; rolls := [];
     travelChoice := None; travelBonus := None; journeyEvent := None;
     driveTrouble := None; firstClient := None; firstClientRounds := None;
     crossroadsChoice := None; crossroadsResult := None;
     quarterEvent := None; whaleInvestment := None; luckyItem := None;
     whaleClient := None; whaleRounds := None; tier := None;
     startedAt := now; endedAt := None |}.

(** ** Phase transitions *)

Definition PHASE_FLOW (p : Phase) : option Phase :=
  match p with
  | assignment => Some first_trip
  | first_trip => Some first_client
  | first_client => Some crossroads
  | crossroads => Some quarter_event
  | quarter_event => Some vp_meeting
  | vp_meeting => Some whale_prep
  | whale_prep => Some whale
  | whale => Some quarter_end
  | quarter_end => None
  end.

Definition tickOne (m : ActiveModifier) : ActiveModifier :=
  {| description := description m; type := type m; value := value m;
     source := source m; phasesRemaining := phasesRemaining m - 1 |}.

Definition tickModifiers (ms : list ActiveModifier) : list ActiveModifier :=
  filter (fun m => 0 <? phasesRemaining m) (map tickOne ms).

Definition Element_eqb (a b : Element) : bool :=
  match a, b with
  | Fire, Fire | Water, Water | Earth, Earth
  | Air, Air | Wood, Wood | Metal, Metal => true
  | _, _ => false
  end.

(** [advancePhase] has no [throw]: both branches return a state. *)
Definition advancePhase (now : Z) (state : SalesGameState)
  : outcome SalesGameState :=
  match PHASE_FLOW (currentPhase state) with
  | None =>
      (* Game is over *)
      Returned (with_endedAt state now)
  | Some nextPhase =>
      let newModifiers := tickModifiers (modifiers state) in
      let newMoney :=
        if Element_eqb (element (traits (character state))) Wood
        then money state + 100 else money state in
      Returned
        (with_money
           (with_modifiers (with_currentPhase state nextPhase) newModifiers)
           newMoney)
  end.

(** ** Event tables *)

(** The optional [buff] field of a table entry: absent, [true], or a
    number. *)
Inductive EventBuff := NoBuff | BuffTrue | BuffNumber (n : Z).

Definition truthy (b : EventBuff) : bool :=
  match b with
  | NoBuff => false
  | BuffTrue => true
  | BuffNumber n => negb (n =? 0)
  end.

Record GameEvent := {
  ev_roll : Z;
  ev_name : string;
  effect : string;
  moneyChange : Z;
  ev_buff : EventBuff
}.

Definition findEvent (table : list GameEvent) (roll : Z) (default : GameEvent)
  : GameEvent :=
  match find (fun e => ev_roll e =? roll) table with
  | Some e => e
  | None => default
  end.

Definition mkEvent (r : Z) (n e : string) (m : Z) (b : EventBuff) : GameEvent :=
  {| ev_roll := r; ev_name := n; effect := e; moneyChange := m; ev_buff := b |}.

Definition JOURNEY_EVENTS : list GameEvent :=
  [ mkEvent 1 "delays" "Minor delays, no impact." 0 NoBuff;
    mkEvent 2 "contacts" "Made good contacts! +$300" 300 NoBuff;
    mkEvent 3 "intel" "Picked up market intel. +1 to next pitch." 0 BuffTrue;
    mkEvent 4 "luggage" "Lost luggage hassle. -$100" (-100) NoBuff;
    mkEvent 5 "leads" "Got some leads! +$500" 500 NoBuff;
    mkEvent 6 "smooth" "Smooth journey, arrived refreshed." 0 NoBuff ].

Definition DRIVE_TROUBLE_EVENTS : list GameEvent :=
  [ mkEvent 1 "breakdown" "Breakdown! -$400 in repairs." (-400) NoBuff;
    mkEvent 2 "traffic" "Heavy traffic, arrived late." 0 NoBuff;
    mkEvent 3 "fine" "Got a speeding ticket. -$150" (-150) NoBuff;
    mkEvent 4 "shortcut" "Found a shortcut! +$100 saved." 100 NoBuff;
    mkEvent 5 "scenic" "Nice drive, clear head. +1 to first pitch." 0 BuffTrue;
    mkEvent 6 "podcasts" "Great podcasts learned. +2 to first pitch." 0
      (BuffNumber 2) ].

Definition QUARTER_EVENTS : list GameEvent :=
  [ mkEvent 1 "crash" "Market crash! -$1,500" (-1500) NoBuff;
    mkEvent 2 "competitor" "Competitor undercut! -$1,000" (-1000) NoBuff;
    mkEvent 3 "recall" "Product recall affects sales. -$500" (-500) NoBuff;
    mkEvent 4 "quiet" "Quiet quarter, business as usual." 0 NoBuff;
    mkEvent 5 "press" "Good press coverage! +$800" 800 NoBuff;
    mkEvent 6 "referral" "Got a great referral! +$500" 500 NoBuff ].

Definition LUCKY_ITEMS : list GameEvent :=
  [ mkEvent 1 "watch" "Found your lucky watch! +$200 confidence." 200 NoBuff;
    mkEvent 2 "spill" "Coffee spill! Dry cleaning -$50." (-50) NoBuff;
    mkEvent 3 "clover" "Found a four-leaf clover. Good omen!" 0 BuffTrue;
    mkEvent 4 "usb" "USB with competitor intel! +1 to pitches." 0 BuffTrue;
    mkEvent 5 "parking" "Got front-row parking. Arrived fresh!" 0 NoBuff;
    mkEvent 6 "bird" "Bird on shoulder. Is that good luck? +$100" 100 NoBuff ].

Definition nthEvent (table : list GameEvent) (i : nat) : GameEvent :=
  nth i table (mkEvent 0 EmptyString EmptyString 0 NoBuff).

(** The two money steps every event applier runs, in the order of the
    source: the Earth reduction, then CON resilience. *)
Definition earthStep (c : StoredCharacter) (moneyChange : Z) : Z :=
  if (moneyChange <? 0) && Element_eqb (element (traits c)) Earth
  then Z.max (moneyChange + 200) 0   (* Math.max(moneyChange + 200, 0) *)
  else moneyChange.

Definition conStep (c : StoredCharacter) (moneyChange : Z) : Z :=
  if moneyChange <? 0
  then Z.min 0 (moneyChange + getConAdjustment c)
  else moneyChange.

Definition mkModifier (d : string) (t : ModifierType) (v : Z) (s : string)
  (p : Z) : ActiveModifier :=
  {| description := d; type := t; value := v; source := s;
     phasesRemaining := p |}.

Definition applyJourneyEvent (state : SalesGameState) (roll : Z)
  : SalesGameState :=
  let event := findEvent JOURNEY_EVENTS roll (nthEvent JOURNEY_EVENTS 0) in
  let moneyChange := earthStep (character state) (moneyChange event) in
  let moneyChange := conStep (character state) moneyChange in
  let modifiers :=
    if truthy (ev_buff event)
    then (modifiers state ++
          [mkModifier "Market Intel: +1 to next pitch" buff 1 "journey" 2])%list
    else modifiers state in
  with_modifiers
    (with_journeyEvent (with_money state (money state + moneyChange))
       (ev_name event))
    modifiers.

(** [`${n}`] for an integer [n]. *)
Definition showZ (n : Z) : string :=
  DecimalString.NilZero.string_of_int (Z.to_int n).

Definition applyDriveTrouble (state : SalesGameState) (roll : Z)
  : SalesGameState :=
  let event :=
    findEvent DRIVE_TROUBLE_EVENTS roll (nthEvent DRIVE_TROUBLE_EVENTS 0) in
  let moneyChange := earthStep (character state) (moneyChange event) in
  let moneyChange := conStep (character state) moneyChange in
  let modifiers :=
    if truthy (ev_buff event)
    then
      let buffValue :=
        match ev_buff event with BuffNumber n => n | _ => 1 end in
      (modifiers state ++
       [mkModifier
          ("Drive Bonus: +" ++ showZ buffValue ++ " to first pitch")%string
          buff buffValue "drive" 2])%list
    else modifiers state in
  with_modifiers
    (with_driveTrouble (with_money state (money state + moneyChange))
       (ev_name event))
    modifiers.

Definition applyQuarterEvent (state : SalesGameState) (roll : Z)
  : SalesGameState :=
  let event := findEvent QUARTER_EVENTS roll (nthEvent QUARTER_EVENTS 3) in
  let moneyChange := earthStep (character state) (moneyChange event) in
  let moneyChange := conStep (character state) moneyChange in
  with_quarterEvent (with_money state (money state + moneyChange))
    (ev_name event).

Definition applyLuckyItem (state : SalesGameState) (roll : Z)
  : SalesGameState :=
  let item := findEvent LUCKY_ITEMS roll (nthEvent LUCKY_ITEMS 4) in
  let moneyChange := earthStep (character state) (moneyChange item) in
  let moneyChange := conStep (character state) moneyChange in
  let modifiers :=
    if truthy (ev_buff item)
    then
      (modifiers state ++
       [mkModifier
          ("Lucky Item (" ++ ev_name item ++ "): +1 to pitches")%string
          buff 1 "lucky" 99])%list
    else modifiers state in
  with_modifiers
    (with_luckyItem (with_money state (money state + moneyChange))
       (ev_name item))
    modifiers.

(** ** Crossroads *)

Record CrossroadsOption := {
  dc : Z;
  successMoney : Z;
  failMoney : Z;
  cr_stat : StatName;
  whaleBonus : option Z;
  whalePenalty : option Z
}.

Definition CROSSROADS_OPTIONS (c : CrossroadsChoice) : CrossroadsOption :=
  match c with
  | grind => {| dc := 10; successMoney := 1500; failMoney := 800;
                cr_stat := cha; whaleBonus := None; whalePenalty := None |}
  | climb => {| dc := 14; successMoney := 2500; failMoney := 200;
                cr_stat := int; whaleBonus := None; whalePenalty := None |}
  | hunt => {| dc := 16; successMoney := 0; failMoney := 0;
               cr_stat := wis; whaleBonus := Some 4;
               whalePenalty := Some (-2) |}
  end.

Definition showCrossroads (c : CrossroadsChoice) : string :=
  match c with grind => "grind" | climb => "climb" | hunt => "hunt" end.

Definition applyCrossroadsChoice (state : SalesGameState)
  (choice : CrossroadsChoice) (roll : Z) : SalesGameState :=
  let option := CROSSROADS_OPTIONS choice in
  let modifier := statMod (character state) (cr_stat option) in
  let total := roll + modifier in
  let success := dc option <=? total in
  let moneyChange := if success then successMoney option else failMoney option in
  let modifiers :=
    match choice with
    | hunt =>
        if success
        then (modifiers state ++
              [mkModifier "Hunt Success: +4 to Whale negotiations" buff 4
                 "hunt" 99])%list
        else (modifiers state ++
              [mkModifier "Hunt Failure: -2 to Whale negotiations" debuff (-2)
                 "hunt" 99])%list
    | _ => modifiers state
    end in
  with_choices
    (with_modifiers
       (with_crossroads (with_money state (money state + moneyChange)) choice
          (if success then CheckResult.success else CheckResult.fail))
       modifiers)
    (choices state ++
     [("crossroads:" ++ showCrossroads choice ++ ":" ++
       (if success then "success" else "fail"))%string])%list.

(** ** VP meeting *)

Definition showVP (c : VPChoice) : string :=
  match c with safe => "safe" | stretch => "stretch" | allin => "allin" end.

Definition applyVPChoice (state : SalesGameState) (choice : VPChoice)
  : SalesGameState :=
  let vpConfig := SALES_CONFIG.vpChoices choice in
  with_choices
    (with_legendaryUnlocked (with_vpChoice state (Some choice))
       (negb (legendaryGated vpConfig)))
    (choices state ++ [("vp:" ++ showVP choice)%string])%list.

(** ** Quarter end: tier calculation *)

Definition Qltb (x y : Q) : bool := negb (Qle_bool y x).

Definition calculateTier (now : Z) (state : SalesGameState) : SalesGameState :=
  let ratio : Q := (inject_Z (money state) / inject_Z (startingMoney state))%Q in
  let tier :=
    if money state <=? 0 then fired
    else if Qltb ratio 1 then under_review
    else if Qltb ratio SALES_CONFIG.promotionThreshold then employed
    else if Qltb ratio SALES_CONFIG.legendaryThreshold
            || negb (legendaryUnlocked state) then promotion
    else legendary in
  with_endedAt (with_tier state tier) now.

(** ** Spirit abilities *)

Definition showSpirit (a : SpiritAnimal) : string :=
  match a with
  | Wolf => "Wolf" | Bear => "Bear" | Eagle => "Eagle" | Dragon => "Dragon"
  | Octopus => "Octopus" | Owl => "Owl" | Tiger => "Tiger" | Deer => "Deer"
  | Spider => "Spider" | Whale => "Whale" | Elephant => "Elephant"
  | Frog => "Frog"
  end.

(** What [useSpiritAbility] returns, without the narrative. *)
Record AbilityResult := {
  ar_state : SalesGameState;
  ar_moneyGained : option Z
}.

(** [a || []] *)
Definition orEmpty {A : Type} (l : option (list A)) : list A :=
  match l with Some x => x | None => [] end.

Section SpiritAbility.
(** [n.toLocaleString()], which depends on the host's locale. *)
Variable toLocaleString : Z -> string.

(** [newState.modifiers = [...newState.modifiers, m]] *)
Definition pushModifier (newState : SalesGameState) (m : ActiveModifier)
  : SalesGameState :=
  with_modifiers newState (modifiers newState ++ [m])%list.

(** The [switch (spirit)]: the updated [newState] and [moneyGained]. *)
Definition spiritSwitch (state newState : SalesGameState)
  : SalesGameState * Z :=
  let spirit := spiritAnimal (traits (character state)) in
  let wisMod := statMod (character state) wis in
  match spirit with
  | Wolf =>
      let wolfBase := 2000 in
      let wolfEnhanced := Z.max 0 (wolfBase + wisMod * 500) in
      (newState, wolfEnhanced)
  | Bear =>
      (pushModifier newState
         (mkModifier "Bear Presence: Client cannot object this round"
            buff 99 "spirit" 1), 0)
  | Eagle =>
      (pushModifier newState
         (mkModifier "Eagle Eye: Auto-succeed next check"
            buff 99 "spirit" 1), 0)
  | Dragon =>
      let dragonBase := 5000 in
      let dragonEnhanced := Z.max 0 (dragonBase + wisMod * 500) in
      (newState, dragonEnhanced)
  | Octopus =>
      (pushModifier newState
         (mkModifier "Octopus Escape: Exit any negotiation without loss"
            buff 0 "spirit" 99), 0)
  | Owl =>
      let owlBase := 1500 in
      let owlEnhanced := Z.max 0 (owlBase + wisMod * 500) in
      (newState, owlEnhanced)
  | Tiger =>
      let tigerBase := 3000 in
      let tigerEnhanced := Z.max 0 (tigerBase + wisMod * 500) in
      (pushModifier newState
         (mkModifier
            ("Tiger Strike: +$" ++ toLocaleString tigerEnhanced ++
             " on next deal")%string
            buff tigerEnhanced "spirit" 99), 0)
  | Deer =>
      (pushModifier newState
         (mkModifier "Deer Grace: Close current deal at 50%"
            buff 50 "spirit" 1), 0)
  | Spider =>
      (pushModifier newState
         (mkModifier "Spider Web: Deal value protected this round"
            buff 0 "spirit" 1), 0)
  | Whale =>
      let whaleBase := 4000 in
      let whaleEnhanced := Z.max 0 (whaleBase + wisMod * 500) in
      (newState, whaleEnhanced)
  | Elephant =>
      let successfulRounds :=
        Z.of_nat
          (List.length
             (filter (fun r => 0 <? moneyGained r)
                (orEmpty (firstClientRounds state) ++
                 orEmpty (whaleRounds state))%list)) in
      let elephantPerSuccess := Z.max 0 (1000 + wisMod * 200) in
      (newState, successfulRounds * elephantPerSuccess)
  | Frog =>
      let frogBase := 800 in
      let frogEnhanced := Z.max 0 (frogBase + wisMod * 100) in
      (pushModifier newState
         (mkModifier
            ("Frog Fortune: +$" ++ toLocaleString frogEnhanced ++
             " per round for 3 rounds")%string
            buff frogEnhanced "spirit" 3), 0)
  end.

Definition useSpiritAbility (state : SalesGameState)
  : outcome AbilityResult :=
  if spiritAbilityUsed state then Thrown "Spirit ability already used"
  else
    let spirit := spiritAnimal (traits (character state)) in
    let newState := with_spiritAbilityUsed state true in
    let '(newState, moneyGained) := spiritSwitch state newState in
    let newState := with_money newState (money newState + moneyGained) in
    let newState :=
      with_choices newState
        (choices newState ++ [("spirit:" ++ showSpirit spirit)%string])%list in
    Returned
      {| ar_state := newState;
         ar_moneyGained :=
           if 0 <? moneyGained then Some moneyGained else None |}.

End SpiritAbility.

(** ** Helpers *)

Definition removeMoney (state : SalesGameState) (amount : Z)
  : SalesGameState :=
  let actualLoss := amount in
  (* Earth: -$200 from setbacks *)
  let actualLoss :=
    if Element_eqb (element (traits (character state))) Earth
    then Z.max 0 (amount - 200) else actualLoss in
  (* CON resilience (loss never becomes gain) *)
  let actualLoss :=
    if 0 <? actualLoss
    then Z.max 0 (actualLoss - getConAdjustment (character state))
    else actualLoss in
  with_money state (money state - actualLoss).

Definition addModifier (state : SalesGameState) (m : ActiveModifier)
  : SalesGameState :=
  with_modifiers state (modifiers state ++ [m])%list.

(* ================================================================== *)
(** * Negotiation ([src/lib/sales/negotiation.ts]) *)
(* ================================================================== *)

Definition interpretBodyLanguage (roll : Z) : BodyLanguage :=
  if roll =? 1 then arms_crossed
  else if roll =? 2 then skeptical
  else if (roll =? 3) || (roll =? 4) then neutral
  else if roll =? 5 then interested
  else engaged.

Definition applyBodyLanguage (client : Client) (bodyLanguage : BodyLanguage)
  : Client :=
  let '(newPatience, newResistance, dealBonus) :=
    match bodyLanguage with
    | arms_crossed =>
        (Z.max 0 (patience client - 2), resistance client + 1, 0)
    | skeptical => (patience client, resistance client + 2, 0)
    | neutral => (patience client, resistance client, 0)
    | interested => (patience client, Z.max 5 (resistance client - 1), 0)
    | engaged =>
        (patience client, Z.max 5 (resistance client - 2),
         JS.floor (fmul (ofZ (dealValue client)) (lit 1 10)))
    end in
  {| client_name := client_name client;
     territory := territory client;
     patience := newPatience;
     maxPatience := maxPatience client;
     budget := budget client;
     resistance := newResistance;
     dealValue := dealValue client + dealBonus;
     active := 0 <? newPatience |}.

Definition shiftBodyLanguageRoll (rawRoll dexMod wisMod negotiationRound : Z)
  : Z :=
  let shift := dexMod / 2 in
  let shift := if 2 <=? negotiationRound then shift + wisMod / 2 else shift in
  Z.max 1 (Z.min 6 (rawRoll + shift)).

Definition ModifierType_eqb (a b : ModifierType) : bool :=
  match a, b with
  | buff, buff | debuff, debuff => true
  | _, _ => false
  end.

(** The test of the loop of [getPitchModifier]. *)
Definition isPitchBuff (m : ActiveModifier) : bool :=
  ModifierType_eqb (type m) buff &&
  (String.eqb (source m) "travel" ||
   String.eqb (source m) "listen" ||
   includes (toLowerCase (description m)) "pitch").

(** The loop of [getPitchModifier] over the active modifiers. *)
Definition addPitchBuffs (modifiers : list ActiveModifier) (mod_ : Z) : Z :=
  fold_left
    (fun mod_ modifier =>
       if isPitchBuff modifier then mod_ + value modifier else mod_)
    modifiers mod_.

Definition getPitchModifier (character : StoredCharacter)
  (territory : Territory) (modifiers : list ActiveModifier)
  (negotiationRound : Z) : Z :=
  (* Base modifier is CHA *)
  let mod_ := statMod character cha in
  let favoredStat := getTerritoryFavoredStat territory in
  let favoredMod := statMod character favoredStat in
  let mod_ := if mod_ <? favoredMod then favoredMod else mod_ in
  let mod_ :=
    if 2 <=? negotiationRound then mod_ + statMod character int else mod_ in
  addPitchBuffs modifiers mod_.

(** The test of the loop of [calculatePitchValue]. *)
Definition isDealBuff (m : ActiveModifier) : bool :=
  ModifierType_eqb (type m) buff &&
  (String.eqb (source m) "element" ||
   includes (toLowerCase (description m)) "deal").

(** The loop of [calculatePitchValue] over the active modifiers. *)
Definition addDealBuffs (modifiers : list ActiveModifier) (start : Z) : Z :=
  fold_left
    (fun acc modifier =>
       if isDealBuff modifier then acc + value modifier else acc)
    modifiers start.

Definition calculatePitchValue (client : Client) (rollTotal : Z)
  (modifiers : list ActiveModifier) (strModifier : Z) : Z :=
  let margin := rollTotal - resistance client in
  let baseValue := JS.floor (fmul (ofZ (budget client)) (lit 15 100)) in
  let marginBonus := fmin (fmul (ofZ margin) (lit 5 100)) (lit 25 100) in
  let value := JS.floor (fmul (ofZ baseValue) (fadd (ofZ 1) marginBonus)) in
  let value := value + strModifier * 100 in
  let value := addDealBuffs modifiers value in
  Z.max value 100.

(** What [resolvePitch] returns, without the narrative. *)
Record PitchResult := {
  pr_client : Client;
  pr_moneyGained : Z;
  pr_bodyLanguage : BodyLanguage
}.

Definition resolvePitch (state : SalesGameState) (client : Client)
  (pitchRoll bodyLanguageRoll negotiationRound : Z) : PitchResult :=
  let modifier :=
    getPitchModifier (character state) (territory client) (modifiers state)
      negotiationRound in
  let total := pitchRoll + modifier in
  let success := resistance client <=? total in
  let strMod := statMod (character state) str in
  let dexMod := statMod (character state) dex in
  let wisMod := statMod (character state) wis in
  let shiftedBodyRoll :=
    shiftBodyLanguageRoll bodyLanguageRoll dexMod wisMod negotiationRound in
  let bodyLanguage := interpretBodyLanguage shiftedBodyRoll in
  let updatedClient := applyBodyLanguage client bodyLanguage in
  let '(updatedClient, moneyGained) :=
    if success then
      let moneyGained :=
        calculatePitchValue client total (modifiers state) strMod in
      (with_patience
         (with_dealValue updatedClient (dealValue updatedClient + moneyGained))
         (Z.max 0 (patience updatedClient - 1)),
       moneyGained)
    else
      (with_patience updatedClient (Z.max 0 (patience updatedClient - 1)), 0)
  in
  (* Check if client leaves *)
  let updatedClient :=
    if patience updatedClient <=? 0 then with_active updatedClient false
    else updatedClient in
  {| pr_client := updatedClient;
     pr_moneyGained := moneyGained;
     pr_bodyLanguage := bodyLanguage |}.

(** What [resolveListen] returns, without the narrative. *)
Record ListenResult := {
  lr_client : Client;
  lr_modifier : ActiveModifier;
  lr_bodyLanguage : BodyLanguage
}.

Definition resolveListen (state : SalesGameState) (client : Client)
  (bodyLanguageRoll negotiationRound : Z) : ListenResult :=
  let dexMod := statMod (character state) dex in
  let wisMod := statMod (character state) wis in
  let shiftedBodyRoll :=
    shiftBodyLanguageRoll bodyLanguageRoll dexMod wisMod negotiationRound in
  let bodyLanguage := interpretBodyLanguage shiftedBodyRoll in
  let updatedClient := applyBodyLanguage client bodyLanguage in
  let modifier :=
    mkModifier "Listen Bonus: +2 to next pitch" buff 2 "listen" 1 in
  {| lr_client := updatedClient;
     lr_modifier := modifier;
     lr_bodyLanguage := bodyLanguage |}.

(** What [resolveConcede] returns, without the narrative. *)
Record ConcedeResult := {
  cr_client : Client;
  cr_moneyGained : Z
}.

Definition resolveConcede (client : Client) : ConcedeResult :=
  let concedeValue := JS.floor (fmul (ofZ (dealValue client)) (lit 8 10)) in
  {| cr_client := with_active client false;
     cr_moneyGained := concedeValue |}.

(* ================================================================== *)
(** * Client templates ([src/lib/sales/clients.ts]) *)
(* ================================================================== *)

(** [Omit<Client, 'dealValue' | 'active'>] *)
Record ClientTemplate := {
  t_name : string;
  t_territory : Territory;
  t_patience : Z;
  t_maxPatience : Z;
  t_budget : Z;
  t_resistance : Z
}.

Definition mkTemplate (n : string) (t : Territory) (p mp b r : Z)
  : ClientTemplate :=
  {| t_name := n; t_territory := t; t_patience := p; t_maxPatience := mp;
     t_budget := b; t_resistance := r |}.

Definition FIRST_CLIENTS (t : Territory) : list ClientTemplate :=
  match t with
  | tech =>
      [ mkTemplate "StartupBot Inc." tech 5 5 3000 12;
        mkTemplate "CodeCraft Solutions" tech 6 6 2500 11;
        mkTemplate "DataFlow Systems" tech 4 4 3500 13 ]
  | retail =>
      [ mkTemplate "Main Street Goods" retail 6 6 2500 11;
        mkTemplate "Corner Shop Network" retail 5 5 2800 12;
        mkTemplate "Family Mart Chain" retail 7 7 2200 10 ]
  | finance =>
      [ mkTemplate "Regional Credit Union" finance 4 4 3200 13;
        mkTemplate "Prudent Advisors LLC" finance 5 5 3000 12;
        mkTemplate "Capital Partners Group" finance 5 5 3500 14 ]
  end.

Definition WHALE_CLIENTS (t : Territory) : list ClientTemplate :=
  match t with
  | tech =>
      [ mkTemplate "MegaCorp Technologies" tech 7 7 6000 14;
        mkTemplate "Quantum Systems International" tech 6 6 7000 15;
        mkTemplate "CloudNine Enterprises" tech 8 8 5500 13 ]
  | retail =>
      [ mkTemplate "National Retail Holdings" retail 8 8 5500 13;
        mkTemplate "BigBox Superstores" retail 7 7 6500 14;
        mkTemplate "Premium Brands Collective" retail 6 6 7500 15 ]
  | finance =>
      [ mkTemplate "First National Bank" finance 6 6 7000 15;
        mkTemplate "Apex Investment Group" finance 7 7 8000 16;
        mkTemplate "Sterling Financial Services" finance 5 5 6500 14 ]
  end.

(** [templates[index]] for an integer [index]: [undefined] outside the
    array, in particular at a negative index. *)
Definition templateAt (templates : list ClientTemplate) (index : Z)
  : option ClientTemplate :=
  if index <? 0 then None else nth_error templates (Z.to_nat index).

(** [{ ...template, dealValue: 0, active: true }] *)
Definition clientOfTemplate (template : ClientTemplate) : Client :=
  {| client_name := t_name template;
     territory := t_territory template;
     patience := t_patience template;
     maxPatience := t_maxPatience template;
     budget := t_budget template;
     resistance := t_resistance template;
     dealValue := 0;
     active := true |}.

(** [createFirstClient].  The result is [None] when [templates[index]] is
    [undefined] (a roll below 1 gives a negative index): the object the
    source then builds has a deal value and an active flag but no name,
    budget, patience or resistance, and is no [Client]. *)
Definition createFirstClient (territory : Territory) (rollResult : Z)
  : option Client :=
  let templates := FIRST_CLIENTS territory in
  let index := Z.rem (rollResult - 1) (Z.of_nat (List.length templates)) in
  match templateAt templates index with
  | Some template => Some (clientOfTemplate template)
  | None => None
  end.

(** [createWhaleClient], with [None] as for [createFirstClient]. *)
Definition createWhaleClient (territory : Territory) (rollResult : Z)
  : option Client :=
  let templates := WHALE_CLIENTS territory in
  let index := Z.rem (rollResult - 1) (Z.of_nat (List.length templates)) in
  match templateAt templates index with
  | Some template => Some (clientOfTemplate template)
  | None => None
  end.

(* ================================================================== *)
(** * Further engine operations ([src/lib/sales/engine.ts]) *)
(* ================================================================== *)

Definition isSome {A : Type} (o : option A) : bool :=
  match o with Some _ => true | None => false end.

(** [state.tier !== undefined || state.endedAt !== undefined] *)
Definition isGameOver (state : SalesGameState) : bool :=
  isSome (tier state) || isSome (endedAt state).

Definition showTerritory (t : Territory) : string :=
  match t with tech => "tech" | retail => "retail" | finance => "finance" end.

Definition assignTerritory (state : SalesGameState) (roll : Z)
  : SalesGameState :=
  let territory :=
    if roll <=? 2 then tech
    else if roll <=? 4 then retail
    else finance in
  with_choices (with_territory state (Some territory))
    (choices state ++ [("territory:" ++ showTerritory territory)%string])%list.

Record TravelOption := {
  cost : Z;
  pitchBonus : Z
}.

Definition TRAVEL_OPTIONS (c : TravelChoice) : TravelOption :=
  match c with
  | fly => {| cost := 800; pitchBonus := 2 |}
  | train => {| cost := 200; pitchBonus := 0 |}
  | drive => {| cost := 50; pitchBonus := 0 |}
  end.

Definition showTravel (c : TravelChoice) : string :=
  match c with fly => "fly" | train => "train" | drive => "drive" end.

Definition applyTravelChoice (state : SalesGameState) (choice : TravelChoice)
  : SalesGameState :=
  let option := TRAVEL_OPTIONS choice in
  let newMoney := money state - cost option in
  let modifiers :=
    match choice with
    | fly =>
        (modifiers state ++
         [mkModifier "Well Rested: +2 to first negotiation" buff 2 "travel" 2])%list
    | _ => modifiers state
    end in
  with_choices
    (with_modifiers
       (with_travel (with_money state newMoney) choice (pitchBonus option))
       modifiers)
    (choices state ++ [("travel:" ++ showTravel choice)%string])%list.

(** [initFirstClient].  [Thrown] when no territory is assigned;
    [Returned None] when [createFirstClient] finds no template. *)
Definition initFirstClient (state : SalesGameState) (clientRoll : Z)
  : outcome (option SalesGameState) :=
  match st_territory state with
  | None => Thrown "Territory must be assigned before first client"
  | Some territory =>
      Returned
        match createFirstClient territory clientRoll with
        | None => None
        | Some client =>
            let client :=
              with_budget client
                (JS.floor (fmul (ofZ (budget client)) (budgetScale state))) in
            Some (with_firstClient state client [])
        end
  end.

Definition completeFirstClient (state : SalesGameState)
  : outcome SalesGameState :=
  match firstClient state with
  | None => Thrown "No first client to complete"
  | Some firstClient =>
      let e := element (traits (character state)) in
      let bonus := 0 in
      (* Fire: +$500 on closed deals *)
      let bonus :=
        if Element_eqb e Fire && (0 <? dealValue firstClient)
        then bonus + 500 else bonus in
      (* Metal: +$200 on every deal *)
      let bonus :=
        if Element_eqb e Metal && (0 <? dealValue firstClient)
        then bonus + 200 else bonus in
      (* Air: +$300 on first deal *)
      let bonus :=
        if Element_eqb e Air && (0 <? dealValue firstClient)
        then bonus + 300 else bonus in
      let totalEarned := dealValue firstClient + bonus in
      Returned (with_money state (money state + totalEarned))
  end.

Record WhaleInvestmentOption := {
  wi_cost : Z;
  wi_effect : string;
  listenBonus : option Z;
  allBonus : option Z;
  patienceBonus : option Z;
  resistanceReduction : option Z
}.

Definition WHALE_INVESTMENTS (i : WhaleInvestment) : WhaleInvestmentOption :=
  match i with
  | research =>
      {| wi_cost := 400; wi_effect := "+2 to Listen actions";
         listenBonus := Some 2; allBonus := None; patienceBonus := None;
         resistanceReduction := None |}
  | gift =>
      {| wi_cost := 600; wi_effect := "+1 all checks, +2 patience";
         listenBonus := None; allBonus := Some 1; patienceBonus := Some 2;
         resistanceReduction := None |}
  | dinner =>
      {| wi_cost := 800; wi_effect := "-2 resistance";
         listenBonus := None; allBonus := None; patienceBonus := None;
         resistanceReduction := Some 2 |}
  | wingit =>
      {| wi_cost := 0; wi_effect := "No bonus, but kept the cash.";
         listenBonus := None; allBonus := Some 0; patienceBonus := None;
         resistanceReduction := None |}
  end.

Definition showInvestment (i : WhaleInvestment) : string :=
  match i with
  | research => "research" | gift => "gift" | dinner => "dinner"
  | wingit => "wingit"
  end.

Definition applyWhaleInvestment (state : SalesGameState)
  (investment : WhaleInvestment) : SalesGameState :=
  let option := WHALE_INVESTMENTS investment in
  let modifiers :=
    match investment with
    | research =>
        (modifiers state ++
         [mkModifier "Research: +2 to Listen actions" buff 2 "research" 99])%list
    | gift =>
        (modifiers state ++
         [mkModifier "Gift: +1 to all checks" buff 1 "gift" 99])%list
    | dinner =>
        (modifiers state ++
         [mkModifier "Dinner: -2 whale resistance" buff 2 "dinner" 99])%list
    | wingit => modifiers state
    end in
  with_choices
    (with_modifiers
       (with_whaleInvestment (with_money state (money state - wi_cost option))
          investment)
       modifiers)
    (choices state ++
     [("whaleinvest:" ++ showInvestment investment)%string])%list.

(** [initWhaleClient], with [Thrown] and [Returned None] as for
    [initFirstClient]. *)
Definition initWhaleClient (state : SalesGameState) (clientRoll : Z)
  : outcome (option SalesGameState) :=
  match st_territory state with
  | None => Thrown "Territory must be assigned before whale client"
  | Some territory =>
      Returned
        match createWhaleClient territory clientRoll with
        | None => None
        | Some client =>
            let client :=
              with_budget client
                (JS.floor (fmul (ofZ (budget client)) (budgetScale state))) in
            (* Apply dinner investment effect *)
            let client :=
              match whaleInvestment state with
              | Some dinner =>
                  with_resistance client (Z.max 8 (resistance client - 2))
              | _ => client
              end in
            (* Apply gift investment effect *)
            let client :=
              match whaleInvestment state with
              | Some gift =>
                  with_maxPatience (with_patience client (patience client + 2))
                    (maxPatience client + 2)
              | _ => client
              end in
            Some (with_whaleClient state client [])
        end
  end.

Definition VPChoice_eqb (a b : VPChoice) : bool :=
  match a, b with
  | safe, safe | stretch, stretch | allin, allin => true
  | _, _ => false
  end.

Definition completeWhale (state : SalesGameState) : outcome SalesGameState :=
  match whaleClient state, vpChoice state with
  | Some whaleClient, Some vpChoice =>
      let vpConfig := SALES_CONFIG.vpChoices vpChoice in
      let whaleValue := dealValue whaleClient in
      (* Apply VP multiplier *)
      let whaleValue :=
        JS.floor (fmul (ofZ whaleValue) (whaleMultiplier vpConfig)) in
      let e := element (traits (character state)) in
      let bonus := 0 in
      (* Fire: +$500 on closed deals *)
      let bonus :=
        if Element_eqb e Fire && (0 <? whaleValue) then bonus + 500
        else bonus in
      (* Metal: +$200 on every deal *)
      let bonus :=
        if Element_eqb e Metal && (0 <? whaleValue) then bonus + 200
        else bonus in
      let totalEarned := whaleValue + bonus in
      (* Check for all-in failure *)
      let penalty :=
        if VPChoice_eqb vpChoice allin && (whaleValue =? 0) then
          let penalty := failurePenalty vpConfig in
          if 0 <? penalty
          then Z.max 0 (penalty - getConAdjustment (character state))
          else penalty
        else 0 in
      Returned (with_money state (money state + totalEarned - penalty))
  | _, _ => Thrown "Whale client and VP choice required"
  end.

Definition isStorableTier (tier : option Tier) : bool :=
  match tier with
  | Some promotion | Some legendary => true
  | _ => false
  end.

Definition recordRoll (state : SalesGameState) (roll : GameRoll)
  : SalesGameState :=
  with_rolls state (rolls state ++ [roll])%list.

Definition addMoney (state : SalesGameState) (amount : Z) (isDeal : bool)
  : SalesGameState :=
  let e := element (traits (character state)) in
  let bonus := 0 in
  let bonus :=
    if isDeal then
      let bonus := if Element_eqb e Fire then bonus + 500 else bonus in
      if Element_eqb e Metal then bonus + 200 else bonus
    else bonus in
  with_money state (money state + amount + bonus).

(** The eight seed and hash strings handed to
    [generateAchievementProof]. *)
Record BlockData := {
  block1Seed : string; block1Hash : string;
  block2Seed : string; block2Hash : string;
  block3Seed : string; block3Hash : string;
  block4Seed : string; block4Hash : string
}.

Record SalesAchievementProofData := {
  characterName : string;
  characterRollBlockHeight : Z;
  proof_startingMoney : Z;
  finalMoney : Z;
  proof_tier : Tier;
  blockData : BlockData;
  territoryRoll : GameRoll;
  firstClientActions : list NegotiationAction;
  whaleActions : list NegotiationAction;
  proof_choices : list string;
  completedAtBlock : Z;
  timestamp : Z
}.

(** [generateAchievementProof]; [None] is [null]. *)
Definition generateAchievementProof (now : Z) (state : SalesGameState)
  (blockData : BlockData) : option SalesAchievementProofData :=
  match tier state with
  | None => None
  | Some t =>
      if negb (isStorableTier (Some t)) then None
      else
        match find (fun r => String.eqb (label r) "territory") (rolls state)
        with
        | None => None
        | Some territoryRoll =>
            Some
              {| characterName := name (character state);
                 characterRollBlockHeight := rollBlockHeight (character state);
                 proof_startingMoney := startingMoney state;
                 finalMoney := money state;
                 proof_tier := t;
                 blockData := blockData;
                 territoryRoll := territoryRoll;
                 firstClientActions :=
                   map playerAction (orEmpty (firstClientRounds state));
                 whaleActions := map playerAction (orEmpty (whaleRounds state));
                 proof_choices := choices state;
                 completedAtBlock := blockHeight territoryRoll + 4;
                 timestamp := now |}
        end
  end.

(* ================================================================== *)
(** * Rounds and outcomes ([src/lib/sales/negotiation.ts]) *)
(* ================================================================== *)

Inductive NegotiationOutcome := ongoing | closed | lost.

Definition getNegotiationOutcome (client : Client) : NegotiationOutcome :=
  if negb (active client) then
    if 0 <? dealValue client then closed else lost
  else ongoing.

Definition closeNegotiation (client : Client) : Z := dealValue client.



(* ================================================================== *)
(** * Sample inputs *)
(* ================================================================== *)

Module Sample.

Definition roll (m : Z) : StatRoll :=
  {| dice := [3; 3; 3; 2 * m + 4]; total := 2 * m + 13; modifier := m |}.

(** A character with the given six modifiers. *)
Definition hero (s d c i w h : Z) (e : Element) (a : SpiritAnimal)
  : StoredCharacter :=
  {| name := "Ada";
     stats := {| stat_str := roll s; stat_dex := roll d; stat_con := roll c;
                 stat_int := roll i; stat_wis := roll w; stat_cha := roll h |};
     traits := {| element := e; spiritAnimal := a; sex := Female |};
     rollBlockHeight := 120000 |}.

(** The first tech client, [StartupBot Inc.]. *)
Definition startupBot : Client :=
  {| client_name := "StartupBot Inc."; territory := tech; patience := 5;
     maxPatience := 5; budget := 3000; resistance := 12; dealValue := 0;
     active := true |}.

(** The second tech client, [CodeCraft Solutions], as [initFirstClient]
    scales it for a character at the budget-scale floor 0.5. *)
Definition codeCraftHalved : Client :=
  {| client_name := "CodeCraft Solutions"; territory := tech; patience := 6;
     maxPatience := 6; budget := 1250; resistance := 11; dealValue := 0;
     active := true |}.

Definition plain : SalesGameState :=
  createSalesGameState 0 (hero 0 0 0 0 0 0 Fire Wolf).
Definition frail : SalesGameState :=
  createSalesGameState 0 (hero 0 0 (-2) 0 0 0 Fire Wolf).
Definition earthy : SalesGameState :=
  createSalesGameState 0 (hero 0 0 0 0 0 0 Earth Owl).
Definition finished : SalesGameState :=
  with_currentPhase plain quarter_end.

Definition usLocale (n : Z) : string := showZ n.

End Sample.

(* ================================================================== *)
(** * Reference formulas, in the words of the specification *)
(* ================================================================== *)

(** The tier as the specification words it: [ratio = money/startingMoney];
    [money <= 0] gives Fired; [ratio < 1.0] UnderReview; [ratio < 2.0]
    Employed; [ratio < 3.0] or legendary not unlocked Promotion; else
    Legendary. *)
Definition tierByRatio (money startingMoney : Z) (legendaryUnlocked : bool)
  : Tier :=
  let ratio : Q := (inject_Z money / inject_Z startingMoney)%Q in
  if money <=? 0 then fired
  else if Qltb ratio 1 then under_review
  else if Qltb ratio 2 then employed
  else if Qltb ratio 3 || negb legendaryUnlocked then promotion
  else legendary.

(** The pitch value as the specification words it:
    [floor(budget*0.15 * (1 + min(0.25, 0.05*margin))) + STR_mod*100], plus
    the deal buffs, clamped below at 100. *)
Definition pitchValueClaimed (budget margin strMod dealBuffs : Z) : Z :=
  let bonus : Q := Qmin (25 # 100) ((5 # 100) * inject_Z margin) in
  Z.max 100
    (Qfloor (inject_Z budget * (15 # 100) * (1 + bonus))%Q
     + strMod * 100 + dealBuffs).

(** The patience a body-language outcome takes away. *)
Definition bodyDrain (b : BodyLanguage) : Z :=
  match b with arms_crossed => 2 | _ => 0 end.

(** The sum of the values of the deal buffs among the active modifiers. *)
Definition dealBuffTotal (modifiers : list ActiveModifier) : Z :=
  fold_right Z.add 0 (map value (filter isDealBuff modifiers)).

(** The sum of the values of the pitch buffs among the active modifiers. *)
Definition pitchBuffTotal (modifiers : list ActiveModifier) : Z :=
  fold_right Z.add 0 (map value (filter isPitchBuff modifiers)).

(** The margin-scaled base value in exact integer arithmetic:
    [floor(baseValue * (1 + min(0.25, 0.05*margin)))]. *)
Definition exactScaled (baseValue margin : Z) : Z :=
  baseValue * (100 + 5 * Z.min margin 5) / 100.

(** ** Exhaustive checks of the binary64 products *)

(** [lo; lo+1; ...], [n] integers. *)
Fixpoint upto (n : nat) (lo : Z) : list Z :=
  match n with
  | O => []
  | S k => lo :: upto k (lo + 1)
  end.

(** The integers from [lo] to [hi]. *)
Definition range (lo hi : Z) : list Z := upto (Z.to_nat (hi - lo + 1)) lo.

(** [Math.floor(budget * 0.15)] is the exact [floor(15*budget/100)]. *)
Definition baseValueOk (budget : Z) : bool :=
  JS.floor (fmul (ofZ budget) (lit 15 100)) =? 15 * budget / 100.

(** [Math.min(margin * 0.05, 0.25)] *)
Definition marginBonusOf (margin : Z) : JS.float :=
  fmin (fmul (ofZ margin) (lit 5 100)) (lit 25 100).

(** [Math.floor(baseValue * (1 + marginBonus))] is the exact value, or at
    margin 3 possibly one less. *)
Definition scaledOk (margin baseValue : Z) : bool :=
  let v := JS.floor (fmul (ofZ baseValue) (fadd (ofZ 1) (marginBonusOf margin))) in
  let e := exactScaled baseValue margin in
  if margin =? 3 then (e - 1 <=? v) && (v <=? e) else v =? e.

(** From margin 5 on, the bonus is the cap. *)
Definition capOk (margin : Z) : bool :=
  match marginBonusOf margin, marginBonusOf 5 with
  | S754_finite s m e, S754_finite s' m' e' =>
      Bool.eqb s s' && (Z.pos m =? Z.pos m') && (e =? e')
  | _, _ => false
  end.

(** ** Signs and further exhaustive checks of binary64 products *)

(** A number that is zero, positive or plus infinity. *)
Definition nonnegFloat (x : JS.float) : bool :=
  match x with
  | S754_zero false | S754_infinity false | S754_finite false _ _ => true
  | _ => false
  end.

(** [Math.floor(dealValue * 0.8)] is the exact [floor(4*dealValue/5)]. *)
Definition concedeOk (dealValue : Z) : bool :=
  JS.floor (fmul (ofZ dealValue) (lit 8 10)) =? 4 * dealValue / 5.

(** [Math.max(budgetScaleFloor, startingMoney / baseMoney)] *)
Definition scaleOf (startingMoney : Z) : JS.float :=
  JS.fmax SALES_CONFIG.budgetScaleFloor
    (JS.fdiv (ofZ startingMoney) (ofZ SALES_CONFIG.baseMoney)).

(** The scaled budget of a template at starting money [3000 + 500*k]: the
    exact [floor(budget * max(5000, startingMoney) / 10000)] or one less,
    and within [lo, hi]. *)
Definition scaledBudgetOk (lo hi k : Z) (template : ClientTemplate) : bool :=
  let sm := 3000 + 500 * k in
  let b := JS.floor (fmul (ofZ (t_budget template)) (scaleOf sm)) in
  let e := t_budget template * Z.max 5000 sm / 10000 in
  (e - 1 <=? b) && (b <=? e) && (lo <=? b) && (b <=? hi).

Definition territories : list Territory := [tech; retail; finance].


(** [n] successive calls of [advancePhase]. *)
Fixpoint advanceTimes (n : nat) (now : Z) (state : SalesGameState)
  : outcome SalesGameState :=
  match n with
  | O => Returned state
  | S k =>
      match advancePhase now state with
      | Returned state' => advanceTimes k now state'
      | Thrown message => Thrown message
      end
  end.

(** The bonus an element adds to a closed first deal. *)
Definition firstDealBonus (e : Element) : Z :=
  match e with Fire => 500 | Metal => 200 | Air => 300 | _ => 0 end.

(** The bonus an element adds to a closed whale deal. *)
Definition whaleDealBonus (e : Element) : Z :=
  match e with Fire => 500 | Metal => 200 | _ => 0 end.

(** ** Further reference definitions for runs and pitches *)

(** One pitch of a run: the state, the pitch roll, the body-language roll
    and the round number may differ from pitch to pitch. *)
Definition pitchOnce (c : Client) (s : SalesGameState * Z * Z * Z) : Client :=
  let '(st, pr, br, n) := s in pr_client (resolvePitch st c pr br n).

(** The value of a pitch before the STR bonus, the deal buffs and the
    clamp: [Math.floor(baseValue * (1 + marginBonus))]. *)
Definition pitchCore (client : Client) (rollTotal : Z) : Z :=
  let baseValue := JS.floor (fmul (ofZ (budget client)) (lit 15 100)) in
  JS.floor
    (fmul (ofZ baseValue)
       (fadd (ofZ 1) (marginBonusOf (rollTotal - resistance client)))).

(** The position of a phase in the nine-phase sequence. *)
Definition phaseIndex (p : Phase) : nat :=
  match p with
  | assignment => 0 | first_trip => 1 | first_client => 2 | crossroads => 3
  | quarter_event => 4 | vp_meeting => 5 | whale_prep => 6 | whale => 7
  | quarter_end => 8
  end.

(** Two states of the same game: same character, starting money and
    budget scale. *)
Definition sameGame (a b : SalesGameState) : Prop :=
  character a = character b /\ startingMoney a = startingMoney b /\
  budgetScale a = budgetScale b.

(* ================================================================== *)
(** * Money steps: shared facts *)
(* ================================================================== *)

Lemma Element_eqb_eq (a b : Element) : Element_eqb a b = true <-> a = b.
Proof. destruct a, b; simpl; split; congruence. Qed.

(** Each event applier adds to [money] the table entry's change after the
    Earth step and then the CON step. *)
Lemma applyJourneyEvent_money st r :
  money (applyJourneyEvent st r) =
  money st +
  conStep (character st)
    (earthStep (character st)
       (moneyChange (findEvent JOURNEY_EVENTS r (nthEvent JOURNEY_EVENTS 0)))).
Proof. reflexivity. Qed.

Lemma applyDriveTrouble_money st r :
  money (applyDriveTrouble st r) =
  money st +
  conStep (character st)
    (earthStep (character st)
       (moneyChange
          (findEvent DRIVE_TROUBLE_EVENTS r (nthEvent DRIVE_TROUBLE_EVENTS 0)))).
Proof. reflexivity. Qed.

Lemma applyQuarterEvent_money st r :
  money (applyQuarterEvent st r) =
  money st +
  conStep (character st)
    (earthStep (character st)
       (moneyChange (findEvent QUARTER_EVENTS r (nthEvent QUARTER_EVENTS 3)))).
Proof. reflexivity. Qed.

Lemma applyLuckyItem_money st r :
  money (applyLuckyItem st r) =
  money st +
  conStep (character st)
    (earthStep (character st)
       (moneyChange (findEvent LUCKY_ITEMS r (nthEvent LUCKY_ITEMS 4)))).
Proof. reflexivity. Qed.

(** The CON step on a loss [L]: what is subtracted afterwards. *)
Lemma conStep_loss c L :
  0 <= L ->
  - conStep c (- L) = if 0 <? L then Z.max 0 (L - getConAdjustment c) else 0.
Proof.
  intros HL. unfold conStep.
  destruct (Z.ltb_spec (- L) 0) as [Hn | Hn];
    destruct (Z.ltb_spec 0 L) as [Hp | Hp]; try lia.
Qed.

Lemma conStep_nonpos c d : d <= 0 -> conStep c d <= 0.
Proof.
  intros Hd. unfold conStep. destruct (Z.ltb_spec d 0); lia.
Qed.

Lemma earthStep_earth c d :
  element (traits c) = Earth -> d < 0 -> earthStep c d = Z.max (d + 200) 0.
Proof.
  intros He Hd. unfold earthStep. rewrite He. simpl.
  destruct (Z.ltb_spec d 0); [reflexivity | lia].
Qed.

Lemma earthStep_other c d :
  element (traits c) <> Earth -> earthStep c d = d.
Proof.
  intros He. unfold earthStep.
  destruct (Element_eqb (element (traits c)) Earth) eqn:E.
  - apply Element_eqb_eq in E. contradiction.
  - rewrite andb_false_r. reflexivity.
Qed.

(** What [removeMoney] subtracts. *)
Lemma removeMoney_loss st L :
  money st - money (removeMoney st L) =
  let L' := if Element_eqb (element (traits (character st))) Earth
            then Z.max 0 (L - 200) else L in
  if 0 <? L' then Z.max 0 (L' - getConAdjustment (character st)) else L'.
Proof.
  unfold removeMoney. cbn [money with_money]. cbv zeta.
  destruct (Element_eqb (element (traits (character st))) Earth);
    match goal with |- context [0 <? ?x] => destruct (0 <? x) end; lia.
Qed.

(* ================================================================== *)
(** * C1: CON resilience *)
(* ================================================================== *)

(** C1, as stated, fails: a character with CON modifier -2 (and an
    element other than Earth) who loses $500 through [removeMoney] pays
    $700, not [max(0, 500 - max(0, -200)) = 500]. *)
Lemma C1_negative_con_enlarges_loss :
  money Sample.frail - money (removeMoney Sample.frail 500) = 700 /\
  money Sample.frail - money (removeMoney Sample.frail 500) <>
  Z.max 0 (500 - Z.max 0 (statMod (character Sample.frail) con * 100)).
Proof. split; [reflexivity | discriminate]. Qed.

(** C1, amended: let [L >= 0] be the loss that enters the CON rule (in
    [removeMoney], the amount after the Earth reduction; in an event
    applier, the magnitude of the negative change after the Earth step).
    The loss subtracted is [max(0, L - CON_mod*100)] when [L > 0] and 0
    when [L = 0].  It is never negative.  When [CON_mod >= 0] it equals
    [max(0, L - max(0, CON_mod*100))] and is at most [L]; when
    [CON_mod < 0] a positive loss grows to [L + |CON_mod|*100]. *)
Theorem C1_con_resilience :
  forall (st : SalesGameState) (L : Z),
    0 <= L ->
    let adj := statMod (character st) con * 100 in
    let L' := if Element_eqb (element (traits (character st))) Earth
              then Z.max 0 (L - 200) else L in
    let paid := money st - money (removeMoney st L) in
    let event := - conStep (character st) (- L) in
    paid = (if 0 <? L' then Z.max 0 (L' - adj) else 0) /\
    event = (if 0 <? L then Z.max 0 (L - adj) else 0) /\
    0 <= paid /\ 0 <= event /\
    (0 <= adj ->
       paid = Z.max 0 (L' - Z.max 0 adj) /\ paid <= L /\
       event = Z.max 0 (L - Z.max 0 adj) /\ event <= L) /\
    (adj < 0 -> (0 < L' -> paid = L' - adj) /\ (0 < L -> event = L - adj)).
Proof.
  intros st L HL adj L' paid event.
  assert (Hpaid : paid = if 0 <? L' then Z.max 0 (L' - adj) else 0).
  { unfold paid. rewrite removeMoney_loss. fold L'. cbv zeta.
    unfold getConAdjustment. fold adj.
    destruct (Z.ltb_spec 0 L'); [reflexivity |].
    subst L'. destruct (Element_eqb _ _); lia. }
  assert (Hevent : event = if 0 <? L then Z.max 0 (L - adj) else 0).
  { unfold event. rewrite conStep_loss by assumption. reflexivity. }
  assert (HL' : 0 <= L' <= L).
  { subst L'. destruct (Element_eqb _ _); lia. }
  rewrite Hpaid, Hevent.
  destruct (Z.ltb_spec 0 L'); destruct (Z.ltb_spec 0 L);
    repeat split; intros; lia.
Qed.

Lemma C1_witness :
  let st := Sample.frail in
  let L := 500 in
  money st - money (removeMoney st L) = 700 /\
  - conStep (character st) (- L) = 700.
Proof.
  intros st L.
  destruct (C1_con_resilience st L ltac:(unfold L; lia))
    as (Hp & He & _ & _ & _ & Hneg).
  destruct (Hneg ltac:(vm_compute; reflexivity)) as (H1 & H2).
  split.
  - rewrite (H1 ltac:(vm_compute; reflexivity)). reflexivity.
  - rewrite (H2 ltac:(vm_compute; reflexivity)). reflexivity.
Defined.

(* ================================================================== *)
(** * C2: the Earth reduction in the event appliers *)
(* ================================================================== *)

Lemma conStep_nonneg c d : 0 <= d -> conStep c d = d.
Proof.
  intros Hd. unfold conStep. destruct (Z.ltb_spec d 0); [lia | reflexivity].
Qed.

(** For an Earth character the two money steps of an event applier never
    yield a loss. *)
Lemma earth_steps_nonneg c d :
  element (traits c) = Earth -> 0 <= conStep c (earthStep c d).
Proof.
  intros He. destruct (Z.lt_ge_cases d 0) as [Hd | Hd].
  - rewrite earthStep_earth by assumption.
    rewrite conStep_nonneg by lia. lia.
  - unfold earthStep. destruct (Z.ltb_spec d 0); [lia |].
    simpl. rewrite conStep_nonneg by lia. lia.
Qed.

(** C2, on the code: the event appliers compute
    [Math.max(moneyChange + 200, 0)] for an Earth character.  Whatever the
    roll, none of the four appliers lowers the money of an Earth
    character; the $1500 market crash costs nothing, and the $100 luggage
    loss turns into a $100 gain.  The sibling [removeMoney] does take
    $1300 for a $1500 loss (at CON modifier 0). *)
Theorem C2_earth_setback_inverted :
  forall (st : SalesGameState) (roll : Z),
    element (traits (character st)) = Earth ->
    money st <= money (applyJourneyEvent st roll) /\
    money st <= money (applyDriveTrouble st roll) /\
    money st <= money (applyQuarterEvent st roll) /\
    money st <= money (applyLuckyItem st roll) /\
    money (applyQuarterEvent st 1) = money st /\
    money (applyJourneyEvent st 4) = money st + 100 /\
    (statMod (character st) con = 0 ->
     money (removeMoney st 1500) = money st - 1300).
Proof.
  intros st roll He.
  rewrite applyJourneyEvent_money, applyDriveTrouble_money,
    applyQuarterEvent_money, applyLuckyItem_money.
  repeat split;
    try (match goal with
         | |- _ <= _ + conStep ?c (earthStep ?c ?d) =>
             pose proof (earth_steps_nonneg c d He); lia
         end).
  - rewrite applyQuarterEvent_money.
    change (moneyChange (findEvent QUARTER_EVENTS 1 (nthEvent QUARTER_EVENTS 3)))
      with (-1500).
    rewrite earthStep_earth by (assumption || lia).
    change (Z.max (-1500 + 200) 0) with 0.
    rewrite conStep_nonneg by lia. lia.
  - rewrite applyJourneyEvent_money.
    change (moneyChange (findEvent JOURNEY_EVENTS 4 (nthEvent JOURNEY_EVENTS 0)))
      with (-100).
    rewrite earthStep_earth by (assumption || lia).
    change (Z.max (-100 + 200) 0) with 100.
    rewrite conStep_nonneg by lia. reflexivity.
  - intros Hcon.
    pose proof (removeMoney_loss st 1500) as H. cbv zeta in H.
    rewrite He in H. simpl Element_eqb in H. cbv iota in H.
    change (Z.max 0 (1500 - 200)) with 1300 in H.
    change (0 <? 1300) with true in H. cbv iota in H.
    unfold getConAdjustment in H. rewrite Hcon in H.
    change (Z.max 0 (1300 - 0 * 100)) with 1300 in H. lia.
Qed.

Lemma C2_witness :
  money (applyQuarterEvent Sample.earthy 1) = 10000 /\
  money (applyJourneyEvent Sample.earthy 4) = 10100 /\
  money (removeMoney Sample.earthy 1500) = 8700.
Proof.
  destruct (C2_earth_setback_inverted Sample.earthy 1 eq_refl)
    as (_ & _ & _ & _ & Hq & Hj & Hr).
  split; [exact Hq | split; [exact Hj | exact (Hr eq_refl)]].
Defined.

(* ================================================================== *)
(** * C3: the tier *)
(* ================================================================== *)

Lemma Qltb_ratio (m s k : Z) :
  0 < s -> Qltb (inject_Z m / inject_Z s) (inject_Z k) = (m <? k * s).
Proof.
  intros Hs. unfold Qltb.
  assert (Hq : (0 < inject_Z s)%Q) by (unfold Qlt; simpl; lia).
  destruct (Z.ltb_spec m (k * s)) as [H | H].
  - apply negb_true_iff. apply not_true_iff_false. intros Hle.
    apply Qle_bool_iff in Hle.
    apply (Qmult_le_compat_r _ _ (inject_Z s)) in Hle; [| apply Qlt_le_weak, Hq].
    unfold Qdiv in Hle. rewrite <- Qmult_assoc in Hle.
    rewrite (Qmult_comm (/ inject_Z s)) in Hle.
    rewrite Qmult_inv_r in Hle by (intros E; rewrite E in Hq; discriminate).
    rewrite Qmult_1_r in Hle. rewrite <- inject_Z_mult in Hle.
    rewrite <- Zle_Qle in Hle. lia.
  - apply negb_false_iff. apply Qle_bool_iff.
    apply Qle_shift_div_l; [exact Hq |].
    rewrite <- inject_Z_mult. rewrite <- Zle_Qle. lia.
Qed.

(** With a positive starting money, the tier of the specification's
    wording is decided by comparing [money] with the multiples of
    [startingMoney]. *)
Lemma tierByRatio_cases (m s : Z) (u : bool) :
  0 < s ->
  tierByRatio m s u =
  if m <=? 0 then fired
  else if m <? s then under_review
  else if m <? 2 * s then employed
  else if (m <? 3 * s) || negb u then promotion
  else legendary.
Proof.
  intros Hs. unfold tierByRatio. cbv zeta.
  change 1%Q with (inject_Z 1). change 2%Q with (inject_Z 2).
  change 3%Q with (inject_Z 3).
  rewrite !Qltb_ratio by assumption.
  rewrite Z.mul_1_l. reflexivity.
Qed.

(** C3: [calculateTier] stores exactly the tier of the specification's
    wording; for a positive starting money that is: Fired iff
    [money <= 0], UnderReview iff [0 < money < startingMoney], Employed
    iff [startingMoney <= money < 2*startingMoney], Promotion iff
    [2*startingMoney <= money] and ([money < 3*startingMoney] or legendary
    locked), Legendary otherwise.  At [money = 2*startingMoney] the tier
    is Promotion; at [money = 3*startingMoney] it is Legendary when
    unlocked and Promotion when not. *)
Theorem C3_calculateTier_exact :
  forall (now : Z) (st : SalesGameState),
    0 < startingMoney st ->
    let m := money st in
    let s := startingMoney st in
    let u := legendaryUnlocked st in
    let t := tier (calculateTier now st) in
    t = Some (tierByRatio m s u) /\
    (t = Some fired <-> m <= 0) /\
    (t = Some under_review <-> 0 < m < s) /\
    (t = Some employed <-> s <= m < 2 * s) /\
    (t = Some promotion <-> 2 * s <= m /\ (m < 3 * s \/ u = false)) /\
    (t = Some legendary <-> 3 * s <= m /\ u = true) /\
    (m = 2 * s -> t = Some promotion) /\
    (m = 3 * s -> u = true -> t = Some legendary) /\
    (m = 3 * s -> u = false -> t = Some promotion).
Proof.
  intros now st Hs m s u t.
  assert (Ht : t = Some (tierByRatio m s u)) by reflexivity.
  rewrite Ht. rewrite tierByRatio_cases by assumption.
  destruct (Z.leb_spec m 0); destruct (Z.ltb_spec m s);
    destruct (Z.ltb_spec m (2 * s)); destruct (Z.ltb_spec m (3 * s));
    destruct u; cbv [orb negb];
    repeat split; intros;
    repeat match goal with
           | H : _ /\ _ |- _ => destruct H
           | H : _ \/ _ |- _ => destruct H
           end;
    first [ reflexivity | discriminate | lia | exfalso; lia
          | left; lia | right; reflexivity ].
Qed.

Lemma C3_witness :
  tier (calculateTier 9 (with_money Sample.plain 20000)) = Some promotion /\
  (money (with_money Sample.plain 20000) = 2 * 10000 ->
   tier (calculateTier 9 (with_money Sample.plain 20000)) = Some promotion).
Proof.
  destruct (C3_calculateTier_exact 9 (with_money Sample.plain 20000)
              ltac:(vm_compute; reflexivity))
    as (_ & _ & _ & _ & _ & _ & H2 & _).
  split; [apply H2; reflexivity | exact H2].
Defined.

(* ================================================================== *)
(** * C4: patience *)
(* ================================================================== *)

Lemma applyBodyLanguage_patience c b :
  patience (applyBodyLanguage c b) =
  match b with
  | arms_crossed => Z.max 0 (patience c - 2)
  | _ => patience c
  end.
Proof. destruct b; reflexivity. Qed.

Lemma applyBodyLanguage_active c b :
  active (applyBodyLanguage c b) = (0 <? patience (applyBodyLanguage c b)).
Proof. destruct b; reflexivity. Qed.

Lemma resolvePitch_bodyLanguage st c pr br n :
  pr_bodyLanguage (resolvePitch st c pr br n) =
  interpretBodyLanguage
    (shiftBodyLanguageRoll br (statMod (character st) dex)
       (statMod (character st) wis) n).
Proof.
  unfold resolvePitch. cbv zeta.
  destruct (resistance c <=? _); reflexivity.
Qed.

Lemma resolvePitch_patience st c pr br n :
  patience (pr_client (resolvePitch st c pr br n)) =
  Z.max 0
    (patience (applyBodyLanguage c (pr_bodyLanguage (resolvePitch st c pr br n)))
     - 1).
Proof.
  rewrite resolvePitch_bodyLanguage.
  unfold resolvePitch. cbv zeta.
  destruct (resistance c <=? _); cbv iota beta;
    match goal with
    | |- context [if ?t then _ else _] => destruct t
    end; reflexivity.
Qed.

Lemma resolvePitch_active st c pr br n :
  active (pr_client (resolvePitch st c pr br n)) =
  (0 <? patience (pr_client (resolvePitch st c pr br n))).
Proof.
  unfold resolvePitch. cbv zeta.
  set (b := interpretBodyLanguage _).
  pose proof (applyBodyLanguage_active c b) as Ha.
  destruct (resistance c <=? _); cbv iota beta;
    match goal with
    | |- context [if ?t then _ else _] => destruct t eqn:E
    end; cbn [pr_client active patience with_active with_patience with_dealValue] in *.
  - apply Z.leb_le in E. symmetry. apply Z.ltb_ge. exact E.
  - apply Z.leb_gt in E. rewrite Ha.
    destruct (Z.ltb_spec 0 (patience (applyBodyLanguage c b)));
      destruct (Z.ltb_spec 0 (Z.max 0 (patience (applyBodyLanguage c b) - 1)));
      try reflexivity; lia.
  - apply Z.leb_le in E. symmetry. apply Z.ltb_ge. exact E.
  - apply Z.leb_gt in E. rewrite Ha.
    destruct (Z.ltb_spec 0 (patience (applyBodyLanguage c b)));
      destruct (Z.ltb_spec 0 (Z.max 0 (patience (applyBodyLanguage c b) - 1)));
      try reflexivity; lia.
Qed.

(** C4, as stated, fails for listen: listening to a client of patience 5
    under a neutral body-language roll leaves the patience at 5. *)
Lemma C4_listen_keeps_patience :
  patience (lr_client (resolveListen Sample.plain Sample.startupBot 3 1)) = 5 /\
  ~ patience (lr_client (resolveListen Sample.plain Sample.startupBot 3 1))
    <= patience Sample.startupBot - 1.
Proof. split; [reflexivity | vm_compute; intros H; apply H; reflexivity]. Qed.

(** C4, amended: for a client of patience [p >= 0], with [drain] = 2 when
    the (shifted) body-language outcome is Arms-Crossed and 0 otherwise, a
    pitch leaves patience [max(0, p - 1 - drain)] (one less, two more
    under Arms-Crossed, floored at 0) and a listen leaves
    [max(0, p - drain)] (listening itself costs no patience).  Patience
    never increases; a pitch on a client with [p >= 1] lowers it by at
    least 1; and after either action the client is active exactly when
    its patience is positive. *)
Theorem C4_patience :
  forall (st : SalesGameState) (c : Client) (pitchRoll bodyRoll n : Z),
    0 <= patience c ->
    let b := interpretBodyLanguage
               (shiftBodyLanguageRoll bodyRoll (statMod (character st) dex)
                  (statMod (character st) wis) n) in
    let p := resolvePitch st c pitchRoll bodyRoll n in
    let l := resolveListen st c bodyRoll n in
    pr_bodyLanguage p = b /\ lr_bodyLanguage l = b /\
    patience (pr_client p) = Z.max 0 (patience c - 1 - bodyDrain b) /\
    patience (lr_client l) = Z.max 0 (patience c - bodyDrain b) /\
    patience (pr_client p) <= patience c /\
    patience (lr_client l) <= patience c /\
    (1 <= patience c -> patience (pr_client p) <= patience c - 1) /\
    active (pr_client p) = (0 <? patience (pr_client p)) /\
    active (lr_client l) = (0 <? patience (lr_client l)).
Proof.
  intros st c pitchRoll bodyRoll n Hp b p l.
  assert (Hb : pr_bodyLanguage p = b) by apply resolvePitch_bodyLanguage.
  assert (Hpp : patience (pr_client p) = Z.max 0 (patience c - 1 - bodyDrain b)).
  { unfold p. rewrite resolvePitch_patience. fold p. rewrite Hb.
    rewrite applyBodyLanguage_patience. destruct b; simpl bodyDrain; lia. }
  assert (Hlp : patience (lr_client l) = Z.max 0 (patience c - bodyDrain b)).
  { change (lr_client l) with (applyBodyLanguage c b).
    rewrite applyBodyLanguage_patience. destruct b; simpl bodyDrain; lia. }
  assert (Hd : 0 <= bodyDrain b) by (destruct b; simpl; lia).
  repeat split.
  - exact Hb.
  - exact Hpp.
  - exact Hlp.
  - lia.
  - lia.
  - lia.
  - apply resolvePitch_active.
  - change (lr_client l) with (applyBodyLanguage c b).
    apply applyBodyLanguage_active.
Qed.

Lemma C4_witness :
  patience (pr_client (resolvePitch Sample.plain Sample.startupBot 20 1 1)) = 2 /\
  patience (lr_client (resolveListen Sample.plain Sample.startupBot 1 1)) = 3.
Proof.
  destruct (C4_patience Sample.plain Sample.startupBot 20 1 1
              ltac:(vm_compute; discriminate))
    as (_ & _ & Hp & Hl & _).
  split; [exact Hp | exact Hl].
Defined.

(* ================================================================== *)
(** * C5: the hunt modifier and the pitch modifier *)
(* ================================================================== *)

Lemma addPitchBuffs_app ms ms' z :
  addPitchBuffs (ms ++ ms') z = addPitchBuffs ms' (addPitchBuffs ms z).
Proof. unfold addPitchBuffs. apply fold_left_app. Qed.

Lemma getPitchModifier_app ch t ms ms' n :
  getPitchModifier ch t (ms ++ ms') n =
  addPitchBuffs ms' (getPitchModifier ch t ms n).
Proof. unfold getPitchModifier. cbv zeta. apply addPitchBuffs_app. Qed.

(** C5, on the code: a hunt at the Crossroads pays no money and appends
    the long-lived hunt modifier (+4 buff on success, -2 debuff on
    failure), but [getPitchModifier] counts only buffs whose source is
    [travel] or [listen] or whose description mentions "pitch": in every
    territory and every round the pitch modifier after the hunt equals
    the pitch modifier before it. *)
Theorem C5_hunt_modifier_ignored :
  forall (st : SalesGameState) (roll : Z) (t : Territory) (n : Z),
    let st' := applyCrossroadsChoice st hunt roll in
    let won := 16 <=? roll + statMod (character st) wis in
    money st' = money st /\
    modifiers st' =
      (modifiers st ++
       [if won
        then mkModifier "Hunt Success: +4 to Whale negotiations" buff 4
               "hunt" 99
        else mkModifier "Hunt Failure: -2 to Whale negotiations" debuff (-2)
               "hunt" 99])%list /\
    getPitchModifier (character st') t (modifiers st') n =
    getPitchModifier (character st) t (modifiers st) n.
Proof.
  intros st roll t n st' won.
  assert (Hm : modifiers st' =
    (modifiers st ++
     [if won
      then mkModifier "Hunt Success: +4 to Whale negotiations" buff 4 "hunt" 99
      else mkModifier "Hunt Failure: -2 to Whale negotiations" debuff (-2)
             "hunt" 99])%list).
  { unfold st', applyCrossroadsChoice. cbv zeta.
    cbn [modifiers with_choices with_modifiers CROSSROADS_OPTIONS dc cr_stat].
    fold won. destruct won; reflexivity. }
  split; [| split].
  - unfold st', applyCrossroadsChoice. cbv zeta.
    cbn [money with_choices with_modifiers with_crossroads with_money
         CROSSROADS_OPTIONS dc cr_stat successMoney failMoney].
    destruct (16 <=? _); lia.
  - exact Hm.
  - rewrite Hm. change (character st') with (character st).
    rewrite getPitchModifier_app.
    destruct won; reflexivity.
Qed.

(* ================================================================== *)
(** * C6: the value of a successful pitch *)
(* ================================================================== *)

Lemma upto_In n : forall lo z, lo <= z < lo + Z.of_nat n -> In z (upto n lo).
Proof.
  induction n as [| n IH]; intros lo z Hz.
  - simpl in Hz. lia.
  - cbn [upto]. destruct (Z.eq_dec z lo) as [-> | Hne].
    + left. reflexivity.
    + right. apply IH. lia.
Qed.

Lemma checked_range (f : Z -> bool) lo hi :
  forallb f (range lo hi) = true ->
  forall z, lo <= z <= hi -> f z = true.
Proof.
  intros H z Hz. rewrite forallb_forall in H. apply H.
  unfold range. apply upto_In. rewrite Z2Nat.id by lia. lia.
Qed.

Lemma baseValue_checked : forallb baseValueOk (range 0 22000) = true.
Proof. vm_compute. reflexivity. Qed.

Lemma scaled_checked :
  forallb (fun m => forallb (scaledOk m) (range 0 3300)) (range 0 5) = true.
Proof. vm_compute. reflexivity. Qed.

Lemma cap_checked : forallb capOk (range 5 100) = true.
Proof. vm_compute. reflexivity. Qed.

(** [Math.floor(budget * 0.15)] in binary64 is [floor(15*budget/100)]. *)
Lemma baseValue_exact b :
  0 <= b <= 22000 -> JS.floor (fmul (ofZ b) (lit 15 100)) = 15 * b / 100.
Proof.
  intros Hb. apply Z.eqb_eq.
  apply (checked_range baseValueOk 0 22000 baseValue_checked). lia.
Qed.

Lemma marginBonus_cap m :
  5 <= m <= 100 -> marginBonusOf m = marginBonusOf 5.
Proof.
  intros Hm.
  pose proof (checked_range capOk 5 100 cap_checked m ltac:(lia)) as H.
  unfold capOk in H.
  destruct (marginBonusOf m) as [| | | s p e]; try discriminate.
  destruct (marginBonusOf 5) as [| | | s' p' e']; try discriminate.
  apply andb_true_iff in H. destruct H as [H He].
  apply andb_true_iff in H. destruct H as [Hs Hp].
  apply Bool.eqb_prop in Hs. apply Z.eqb_eq in Hp. apply Z.eqb_eq in He.
  injection Hp as Hp. subst. reflexivity.
Qed.

Lemma scaledOk_small m bv :
  0 <= m <= 5 -> 0 <= bv <= 3300 -> scaledOk m bv = true.
Proof.
  intros Hm Hbv.
  pose proof (checked_range _ 0 5 scaled_checked m ltac:(lia)) as H.
  cbv beta in H.
  apply (checked_range _ 0 3300 H). lia.
Qed.

Lemma scaledOk_all m bv :
  0 <= m <= 100 -> 0 <= bv <= 3300 -> scaledOk m bv = true.
Proof.
  intros Hm Hbv. destruct (Z_le_gt_dec m 5) as [Hle | Hgt].
  - apply scaledOk_small; lia.
  - pose proof (scaledOk_small 5 bv ltac:(lia) Hbv) as H5.
    unfold scaledOk, exactScaled in *.
    rewrite (marginBonus_cap m) by lia.
    replace (Z.min m 5) with (Z.min 5 5) by lia.
    destruct (Z.eqb_spec m 3); [lia |].
    exact H5.
Qed.

Lemma addDealBuffs_total ms : forall z,
  addDealBuffs ms z = z + dealBuffTotal ms.
Proof.
  unfold addDealBuffs, dealBuffTotal.
  induction ms as [| m ms IH]; intros z; cbn [fold_left filter].
  - simpl. lia.
  - rewrite IH. destruct (isDealBuff m); cbn [map fold_right]; lia.
Qed.

(** C6, as stated, fails: the claimed formula does not floor the base
    value before scaling it.  For [CodeCraft Solutions] at budget 1250 and
    resistance 11, a roll total of 16 (margin 5) is worth
    [floor(floor(187.5) * 1.25) = 233] in the engine, and
    [floor(187.5 * 1.25) = 234] by the claimed formula. *)
Lemma C6_base_value_floored_first :
  calculatePitchValue Sample.codeCraftHalved 16 [] 0 = 233 /\
  pitchValueClaimed (budget Sample.codeCraftHalved)
    (16 - resistance Sample.codeCraftHalved) 0 (dealBuffTotal []) = 234 /\
  calculatePitchValue Sample.codeCraftHalved 16 [] 0 <>
  pitchValueClaimed (budget Sample.codeCraftHalved)
    (16 - resistance Sample.codeCraftHalved) 0 (dealBuffTotal []).
Proof.
  split; [vm_compute; reflexivity |].
  split; [vm_compute; reflexivity | vm_compute; discriminate].
Qed.

(** C6, amended: for a client budget in [0, 22000] (the largest scaled
    budget of the game) and a margin [total - resistance] in [0, 100], the
    value of the pitch is
    [max(100, scaled + STR_mod*100 + deal buffs)], where the base value is
    floored first, [baseValue = floor(budget*0.15) = floor(15*budget/100)],
    and [scaled = floor(baseValue * (1 + min(0.25, 0.05*margin)))] is
    computed in binary64: it is the exact
    [floor(baseValue*(100 + 5*min(margin,5))/100)], except that at margin 3
    it may be one less.  With budget 3000, resistance 12, roll total 15 and
    STR modifier +3 the value is 817. *)
Theorem C6_pitch_value :
  forall (c : Client) (total : Z) (ms : list ActiveModifier) (strMod : Z),
    0 <= budget c <= 22000 ->
    0 <= total - resistance c <= 100 ->
    let margin := total - resistance c in
    let baseValue := 15 * budget c / 100 in
    (exists scaled : Z,
       calculatePitchValue c total ms strMod =
         Z.max (scaled + strMod * 100 + dealBuffTotal ms) 100 /\
       exactScaled baseValue margin - 1 <= scaled <= exactScaled baseValue margin /\
       (margin <> 3 -> scaled = exactScaled baseValue margin)) /\
    100 <= calculatePitchValue c total ms strMod /\
    (budget c = 3000 -> resistance c = 12 -> total = 15 -> strMod = 3 ->
     calculatePitchValue c total [] strMod = 817).
Proof.
  intros c total ms strMod Hb Hm margin baseValue.
  assert (Hbv : 0 <= baseValue <= 3300).
  { unfold baseValue. split.
    - apply Z.div_pos; lia.
    - apply Z.div_le_upper_bound; lia. }
  split; [| split].
  - exists (JS.floor (fmul (ofZ baseValue) (fadd (ofZ 1) (marginBonusOf margin)))).
    split; [| split].
    + unfold calculatePitchValue. cbv zeta.
      rewrite baseValue_exact by assumption.
      rewrite addDealBuffs_total. reflexivity.
    + pose proof (scaledOk_all margin baseValue Hm Hbv) as H.
      unfold scaledOk in H. cbv zeta in H.
      destruct (margin =? 3).
      * apply andb_true_iff in H. destruct H as [H1 H2].
        apply Z.leb_le in H1. apply Z.leb_le in H2. lia.
      * apply Z.eqb_eq in H. lia.
    + intros Hne. pose proof (scaledOk_all margin baseValue Hm Hbv) as H.
      unfold scaledOk in H. cbv zeta in H.
      destruct (Z.eqb_spec margin 3); [contradiction |].
      apply Z.eqb_eq in H. exact H.
  - unfold calculatePitchValue. cbv zeta. lia.
  - intros Hbud Hres Htot Hstr. unfold calculatePitchValue. cbv zeta.
    rewrite Hbud, Hres, Htot, Hstr. vm_compute. reflexivity.
Qed.

Lemma C6_witness :
  calculatePitchValue Sample.startupBot 15 [] 3 = 817 /\
  100 <= calculatePitchValue Sample.startupBot 15 [] 3.
Proof.
  destruct (C6_pitch_value Sample.startupBot 15 [] 3
              ltac:(vm_compute; split; discriminate)
              ltac:(vm_compute; split; discriminate))
    as (_ & Hmin & Hval).
  split; [exact (Hval eq_refl eq_refl eq_refl eq_refl) | exact Hmin].
Defined.

(* ================================================================== *)
(** * C7: advancing past the terminal phase *)
(* ================================================================== *)

(** C7, as stated, fails: in the terminal phase [advancePhase] returns a
    state; it raises nothing. *)
Lemma C7_advance_past_terminal_returns :
  currentPhase Sample.finished = quarter_end /\
  advancePhase 9 Sample.finished = Returned (with_endedAt Sample.finished 9) /\
  (forall message, advancePhase 9 Sample.finished <> Thrown message).
Proof.
  split; [reflexivity |]. split; [reflexivity |].
  intros message H. discriminate H.
Qed.

(** C7, amended: [advancePhase] never raises.  On a state whose phase is
    [quarter_end] it returns that state with only [endedAt] set to the
    current time: the phase stays [quarter_end], and money and modifiers
    are untouched. *)
Theorem C7_advancePhase_terminal :
  forall (now : Z) (st : SalesGameState),
    (exists st', advancePhase now st = Returned st') /\
    (currentPhase st = quarter_end ->
     advancePhase now st = Returned (with_endedAt st now) /\
     currentPhase (with_endedAt st now) = quarter_end /\
     money (with_endedAt st now) = money st /\
     modifiers (with_endedAt st now) = modifiers st /\
     endedAt (with_endedAt st now) = Some now).
Proof.
  intros now st. split.
  - unfold advancePhase. destruct (PHASE_FLOW (currentPhase st)); eauto.
  - intros Hq. unfold advancePhase. rewrite Hq. cbn [PHASE_FLOW].
    repeat split. exact Hq.
Qed.

Lemma C7_witness :
  advancePhase 9 Sample.finished = Returned (with_endedAt Sample.finished 9).
Proof.
  destruct (C7_advancePhase_terminal 9 Sample.finished) as (_ & H).
  exact (proj1 (H eq_refl)).
Defined.

(* ================================================================== *)
(** * C8 and C10: the spirit ability *)
(* ================================================================== *)

Section SpiritFacts.
Variable toLocaleString : Z -> string.

(** What the [switch] does to [newState], and the sign of the award. *)
Lemma spiritSwitch_spec st ns :
  let r := spiritSwitch toLocaleString st ns in
  0 <= snd r /\
  money (fst r) = money ns /\
  spiritAbilityUsed (fst r) = spiritAbilityUsed ns /\
  choices (fst r) = choices ns /\
  (modifiers (fst r) = modifiers ns \/
   exists m, modifiers (fst r) = (modifiers ns ++ [m])%list /\
             0 <= value m /\ snd r = 0).
Proof.
  unfold spiritSwitch. cbv zeta.
  destruct (spiritAnimal (traits (character st)));
    cbn [fst snd pushModifier money spiritAbilityUsed choices modifiers
         with_modifiers];
    repeat split; try lia;
    try (left; reflexivity);
    try (right; eexists; split; [reflexivity | cbn [value mkModifier]; lia]).
  apply Z.mul_nonneg_nonneg; lia.
Qed.

(** An unused ability can be invoked, and the call returns. *)
Lemma useSpiritAbility_fresh st :
  spiritAbilityUsed st = false ->
  let r := spiritSwitch toLocaleString st (with_spiritAbilityUsed st true) in
  useSpiritAbility toLocaleString st =
  Returned
    {| ar_state :=
         with_choices
           (with_money (fst r) (money (fst r) + snd r))
           (choices (with_money (fst r) (money (fst r) + snd r)) ++
            [("spirit:" ++
              showSpirit (spiritAnimal (traits (character st))))%string])%list;
       ar_moneyGained := if 0 <? snd r then Some (snd r) else None |}.
Proof.
  intros Hu r. unfold useSpiritAbility. rewrite Hu. cbv zeta.
  fold r. destruct r as [ns g]. reflexivity.
Qed.

End SpiritFacts.

(** C8: invoking the spirit ability on a state whose flag is set raises
    an error; on a state whose flag is clear the call returns a state
    whose flag is set, so a second invocation on the returned state
    raises. *)
Theorem C8_spirit_ability_once :
  forall (toLocaleString : Z -> string) (st : SalesGameState),
    (spiritAbilityUsed st = true ->
     useSpiritAbility toLocaleString st =
     Thrown "Spirit ability already used") /\
    (spiritAbilityUsed st = false ->
     exists r,
       useSpiritAbility toLocaleString st = Returned r /\
       spiritAbilityUsed (ar_state r) = true /\
       useSpiritAbility toLocaleString (ar_state r) =
       Thrown "Spirit ability already used").
Proof.
  intros tls st. split.
  - intros Hu. unfold useSpiritAbility. rewrite Hu. reflexivity.
  - intros Hu. eexists. split; [apply useSpiritAbility_fresh, Hu |].
    cbv zeta.
    destruct (spiritSwitch_spec tls st (with_spiritAbilityUsed st true))
      as (_ & _ & Hflag & _).
    cbv zeta in Hflag.
    assert (Hset : spiritAbilityUsed
                     (fst (spiritSwitch tls st (with_spiritAbilityUsed st true)))
                   = true) by (rewrite Hflag; reflexivity).
    split.
    + cbn [ar_state spiritAbilityUsed with_choices with_money]. exact Hset.
    + unfold useSpiritAbility at 1.
      cbn [ar_state spiritAbilityUsed with_choices with_money].
      rewrite Hset. reflexivity.
Qed.

Lemma C8_witness :
  exists r,
    useSpiritAbility Sample.usLocale Sample.plain = Returned r /\
    spiritAbilityUsed (ar_state r) = true /\
    useSpiritAbility Sample.usLocale (ar_state r) =
    Thrown "Spirit ability already used".
Proof.
  destruct (C8_spirit_ability_once Sample.usLocale Sample.plain) as (_ & H).
  exact (H eq_refl).
Defined.

(** C10: an invocation of the spirit ability on a fresh state returns, and
    never decreases money: the award added is [>= 0] for every spirit
    animal and every WIS modifier, the reported [moneyGained] is the award
    when it is positive (and absent otherwise), and a modifier the
    ability appends (Tiger, Frog and the tactical spirits) has a value
    [>= 0]. *)
Theorem C10_spirit_ability_never_costs :
  forall (toLocaleString : Z -> string) (st : SalesGameState),
    spiritAbilityUsed st = false ->
    exists r,
      useSpiritAbility toLocaleString st = Returned r /\
      money st <= money (ar_state r) /\
      (forall g, ar_moneyGained r = Some g ->
                 0 < g /\ money (ar_state r) = money st + g) /\
      (ar_moneyGained r = None -> money (ar_state r) = money st) /\
      (modifiers (ar_state r) = modifiers st \/
       exists m, modifiers (ar_state r) = (modifiers st ++ [m])%list /\
                 0 <= value m).
Proof.
  intros tls st Hu. eexists. split; [apply useSpiritAbility_fresh, Hu |].
  cbv zeta.
  destruct (spiritSwitch_spec tls st (with_spiritAbilityUsed st true))
    as (Hg & Hm & _ & _ & Hmods).
  cbv zeta in Hg, Hm, Hmods.
  set (r := spiritSwitch tls st (with_spiritAbilityUsed st true)) in *.
  cbn [ar_state ar_moneyGained money modifiers with_choices with_money].
  change (money (with_spiritAbilityUsed st true)) with (money st) in Hm.
  change (modifiers (with_spiritAbilityUsed st true)) with (modifiers st)
    in Hmods.
  rewrite Hm. repeat split.
  - lia.
  - destruct (Z.ltb_spec 0 (snd r)); [| discriminate]. congruence.
  - destruct (Z.ltb_spec 0 (snd r)); [| discriminate]. congruence.
  - intros Hnone. destruct (Z.ltb_spec 0 (snd r)); [discriminate | lia].
  - destruct Hmods as [H | (m & H & Hv & _)]; [left; exact H |].
    right. exists m. split; assumption.
Qed.

Lemma C10_witness :
  exists r,
    useSpiritAbility Sample.usLocale
      (createSalesGameState 0 (Sample.hero 0 0 0 0 (-5) 0 Fire Owl)) =
    Returned r /\
    money (createSalesGameState 0 (Sample.hero 0 0 0 0 (-5) 0 Fire Owl))
    <= money (ar_state r).
Proof.
  destruct (C10_spirit_ability_never_costs Sample.usLocale
              (createSalesGameState 0 (Sample.hero 0 0 0 0 (-5) 0 Fire Owl))
              eq_refl)
    as (r & Hr & Hm & _).
  exists r. split; [exact Hr | exact Hm].
Defined.

(* ================================================================== *)
(** * C9: the dice derivation *)
(* ================================================================== *)

Lemma toInt32_range z : - two31 <= toInt32 z < two31.
Proof.
  unfold toInt32.
  pose proof (Z.mod_pos_bound (z + two31) two32 ltac:(reflexivity)) as H.
  change two32 with (2 * two31) in *. lia.
Qed.

Lemma toUint32_range z : 0 <= toUint32 z < two32.
Proof. unfold toUint32. apply Z.mod_pos_bound. reflexivity. Qed.

(** The running hash is a signed 32-bit integer after every character. *)
Lemma hashStep_int32 h ch : - two31 <= hashStep h ch < two31.
Proof. exact (toInt32_range _). Qed.

Lemma fold_left_preserves {A B : Type} (f : A -> B -> A) (P : A -> Prop) :
  (forall a b, P (f a b)) ->
  forall (l : list B) (a : A), P a -> P (fold_left f l a).
Proof.
  intros Hf l. induction l as [| b l IH]; intros a Ha.
  - exact Ha.
  - cbn [fold_left]. apply IH, Hf.
Qed.

Lemma hashLoop_int32 s h :
  - two31 <= h < two31 -> - two31 <= hashLoop s h < two31.
Proof.
  exact (fold_left_preserves hashStep (fun x => - two31 <= x < two31)
           hashStep_int32 (charCodes s) h).
Qed.

(** C9: [deriveDice] is a function of its four inputs (equal inputs give
    equal results), and for a die size [>= 1] its result lies in
    [1, dieSize]. *)
Theorem C9_deriveDice_deterministic_in_range :
  forall (seed blockHash label : string) (dieSize : Z),
    1 <= dieSize ->
    1 <= deriveDice seed blockHash label dieSize <= dieSize /\
    (forall (seed' blockHash' label' : string) (dieSize' : Z),
       seed = seed' -> blockHash = blockHash' -> label = label' ->
       dieSize = dieSize' ->
       deriveDice seed blockHash label dieSize =
       deriveDice seed' blockHash' label' dieSize').
Proof.
  intros seed blockHash label dieSize Hd. split.
  - unfold deriveDice. cbv zeta. unfold ushr0.
    pose proof (toUint32_range (hashLoop (seed ++ blockHash ++ label) 0)) as Hu.
    pose proof (Z.rem_bound_pos _ dieSize (proj1 Hu) ltac:(lia)) as Hr.
    lia.
  - intros seed' blockHash' label' dieSize' -> -> -> ->. reflexivity.
Qed.

Lemma C9_witness :
  1 <= deriveDice "ab12" "00ff" "territory" 6 <= 6 /\
  deriveDice "ab12" "00ff" "territory" 6 = 5.
Proof.
  split.
  - apply (C9_deriveDice_deterministic_in_range "ab12" "00ff" "territory" 6).
    vm_compute. discriminate.
  - vm_compute. reflexivity.
Defined.

(* ================================================================== *)
(** * Stat modifiers and starting money *)
(* ================================================================== *)

(** X1: for a 4d6 total (4 to 24) the stat modifier lies in [-5, 5]; it is
    nondecreasing in the total, grows by exactly 1 for every 2 points,
    and is 0 exactly at totals 13 and 14. *)
Theorem X1_calculateModifier_range :
  forall t : Z,
    4 <= t <= 24 ->
    -5 <= calculateModifier t <= 5 /\
    (forall t', t <= t' -> calculateModifier t <= calculateModifier t') /\
    calculateModifier (t + 2) = calculateModifier t + 1 /\
    (calculateModifier t = 0 <-> 13 <= t <= 14).
Proof.
  intros t Ht. unfold calculateModifier.
  pose proof (Z.div_mod (t - 13) 2 ltac:(lia)) as Hd.
  pose proof (Z.mod_pos_bound (t - 13) 2 ltac:(lia)) as Hm.
  split; [lia |]. split; [| split].
  - intros t' Hle. apply Z.div_le_mono; lia.
  - replace (t + 2 - 13) with ((t - 13) + 1 * 2) by lia.
    rewrite Z.div_add by lia. reflexivity.
  - split; intros H; lia.
Qed.

Lemma X1_witness :
  -5 <= calculateModifier 4 <= 5 /\ calculateModifier 24 = 5.
Proof.
  split.
  - apply (X1_calculateModifier_range 4). lia.
  - reflexivity.
Defined.

Lemma startingMoney_steps c :
  -5 <= statMod c cha <= 5 -> -5 <= statMod c int <= 5 ->
  -5 <= statMod c wis <= 5 ->
  exists k, 0 <= k <= 49 /\ calculateStartingMoney c = 3000 + 500 * k.
Proof.
  intros Hc Hi Hw. unfold calculateStartingMoney. cbv zeta.
  unfold SALES_CONFIG.baseMoney, SALES_CONFIG.chaMultiplier,
    SALES_CONFIG.intMultiplier, SALES_CONFIG.wisMultiplier,
    SALES_CONFIG.minimumMoney.
  exists (Z.max 0 (14 + 4 * statMod c cha + 2 * statMod c int + statMod c wis)).
  lia.
Qed.



(* ================================================================== *)
(** * The modifier ledger *)
(* ================================================================== *)

(** X3: one tick keeps exactly the modifiers that had at least 2 phases
    remaining, each with one phase less and otherwise unchanged, in their
    original order; a modifier with 1 phase (or fewer) remaining is
    dropped, and the ledger never grows. *)
Theorem X3_tickModifiers :
  forall (ms : list ActiveModifier),
    tickModifiers ms =
      map tickOne (filter (fun m => 2 <=? phasesRemaining m) ms) /\
    (forall m', In m' (tickModifiers ms) <->
                exists m, In m ms /\ 2 <= phasesRemaining m /\ m' = tickOne m) /\
    (forall m', In m' (tickModifiers ms) -> 1 <= phasesRemaining m') /\
    (List.length (tickModifiers ms) <= List.length ms)%nat.
Proof.
  intros ms.
  assert (Heq : tickModifiers ms =
                map tickOne (filter (fun m => 2 <=? phasesRemaining m) ms)).
  { unfold tickModifiers. induction ms as [| m ms IH]; [reflexivity |].
    cbn [map filter]. rewrite IH.
    cbn [phasesRemaining tickOne].
    destruct (Z.ltb_spec 0 (phasesRemaining m - 1));
      destruct (Z.leb_spec 2 (phasesRemaining m)); try lia; reflexivity. }
  split; [exact Heq |].
  assert (Hin : forall m', In m' (tickModifiers ms) <->
            exists m, In m ms /\ 2 <= phasesRemaining m /\ m' = tickOne m).
  { intros m'. rewrite Heq, in_map_iff. split.
    - intros (m & Hm & Hf). apply filter_In in Hf. destruct Hf as [Hf1 Hf2].
      exists m. apply Z.leb_le in Hf2. auto.
    - intros (m & Hm & Hp & ->). exists m. split; [reflexivity |].
      apply filter_In. split; [assumption | apply Z.leb_le; assumption]. }
  split; [exact Hin |]. split.
  - intros m' H. apply Hin in H. destruct H as (m & _ & Hp & ->).
    cbn [tickOne phasesRemaining]. lia.
  - rewrite Heq, length_map. apply filter_length_le.
Qed.

(* ================================================================== *)
(** * The pitch modifier *)
(* ================================================================== *)

Lemma addPitchBuffs_total ms : forall z,
  addPitchBuffs ms z = z + pitchBuffTotal ms.
Proof.
  unfold addPitchBuffs, pitchBuffTotal.
  induction ms as [| m ms IH]; intros z; cbn [fold_left filter].
  - simpl. lia.
  - rewrite IH. destruct (isPitchBuff m); cbn [map fold_right]; lia.
Qed.

(** X4: the pitch modifier is [max(CHA, favored stat)], plus INT from
    round 2 on, plus the values of the active pitch buffs (buffs from
    travel or listen, or described with the word pitch); the favored stat
    is INT in tech, CHA in retail and WIS in finance.  Debuffs never
    count. *)
Theorem X4_pitch_modifier_formula :
  forall (c : StoredCharacter) (t : Territory) (ms : list ActiveModifier)
         (n : Z),
    let favored := match t with
                   | tech => statMod c int
                   | retail => statMod c cha
                   | finance => statMod c wis
                   end in
    getPitchModifier c t ms n =
      Z.max (statMod c cha) favored
      + (if 2 <=? n then statMod c int else 0)
      + pitchBuffTotal ms /\
    (forall m, type m = debuff ->
       getPitchModifier c t (ms ++ [m]) n = getPitchModifier c t ms n).
Proof.
  intros c t ms n favored. split.
  - unfold getPitchModifier. cbv zeta. rewrite addPitchBuffs_total.
    assert (Hf : statMod c (getTerritoryFavoredStat t) = favored)
      by (destruct t; reflexivity).
    rewrite Hf.
    destruct (Z.ltb_spec (statMod c cha) favored);
      destruct (2 <=? n); lia.
  - intros m Hm. rewrite getPitchModifier_app.
    unfold addPitchBuffs. cbn [fold_left]. unfold isPitchBuff.
    rewrite Hm. reflexivity.
Qed.

Lemma X3_witness :
  1 <= phasesRemaining
         (tickOne (mkModifier "Well Rested: +2 to first negotiation" buff 2
                     "travel" 2)).
Proof.
  destruct (X3_tickModifiers
              [mkModifier "Well Rested: +2 to first negotiation" buff 2
                 "travel" 2;
               mkModifier "Listen Bonus: +2 to next pitch" buff 2 "listen" 1])
    as (_ & _ & H & _).
  apply H. left. reflexivity.
Defined.

Lemma X4_witness :
  getPitchModifier (Sample.hero 0 0 0 0 0 0 Fire Wolf) tech
    ([] ++ [mkModifier "Hunt Failure: -2 to Whale negotiations" debuff (-2)
              "hunt" 99]) 1 =
  getPitchModifier (Sample.hero 0 0 0 0 0 0 Fire Wolf) tech [] 1.
Proof.
  destruct (X4_pitch_modifier_formula (Sample.hero 0 0 0 0 0 0 Fire Wolf)
              tech [] 1) as (_ & H).
  apply H. reflexivity.
Defined.

(* ================================================================== *)
(** * Signs of binary64 products *)
(* ================================================================== *)

Lemma binary_round_aux_nonneg m e l :
  nonnegFloat (binary_round_aux prec emax false m e l) = true \/
  binary_round_aux prec emax false m e l = S754_nan.
Proof.
  unfold binary_round_aux.
  destruct (shr_fexp prec emax m e l) as [mrs' e'].
  destruct (shr_fexp prec emax _ e' loc_Exact) as [mrs'' e''].
  destruct (shr_m mrs'') as [| p | p].
  - left. reflexivity.
  - destruct (e'' <=? emax - prec); left; reflexivity.
  - right. reflexivity.
Qed.

Lemma ofZ_nonneg d :
  0 <= d -> nonnegFloat (ofZ d) = true \/ ofZ d = S754_nan.
Proof.
  intros Hd. unfold ofZ, binary_normalize.
  destruct d as [| p | p]; [left; reflexivity | | lia].
  unfold binary_round.
  destruct (shl_align p 0 _) as [mz ez].
  apply binary_round_aux_nonneg.
Qed.

Lemma floor_nonneg x :
  nonnegFloat x = true \/ x = S754_nan -> 0 <= JS.floor x.
Proof.
  intros [H | ->]; [| unfold JS.floor; lia].
  destruct x as [s | s | | s m e]; unfold JS.floor; try lia.
  destruct s; [discriminate |].
  destruct e as [| p | p].
  - lia.
  - apply Z.mul_nonneg_nonneg; [lia | apply Z.pow_nonneg; lia].
  - apply Z.div_pos; [lia | apply Z.pow_pos_nonneg; lia].
Qed.

Lemma fmul_nonneg x y :
  nonnegFloat x = true \/ x = S754_nan ->
  nonnegFloat y = true -> 
  match y with S754_infinity _ => False | _ => True end ->
  nonnegFloat (fmul x y) = true \/ fmul x y = S754_nan.
Proof.
  intros [Hx | ->] Hy Hfin.
  - destruct x as [sx | sx | | sx mx ex]; try discriminate;
      destruct y as [sy | sy | | sy my ey]; try discriminate; try contradiction;
      destruct sx; try discriminate; destruct sy; try discriminate;
      try (left; reflexivity); try (right; reflexivity).
    apply binary_round_aux_nonneg.
  - right. destruct y; reflexivity.
Qed.

(** [Math.floor(d * c)] is not negative when [d >= 0] and [c] is a
    positive constant. *)
Lemma floor_fmul_nonneg d y :
  0 <= d -> nonnegFloat y = true ->
  match y with S754_infinity _ => False | _ => True end ->
  0 <= JS.floor (fmul (ofZ d) y).
Proof.
  intros Hd Hy Hfin. apply floor_nonneg, fmul_nonneg; try assumption.
  apply ofZ_nonneg, Hd.
Qed.

(* ================================================================== *)
(** * The client through a round *)
(* ================================================================== *)

Lemma tenth_nonneg : nonnegFloat (lit 1 10) = true.
Proof. vm_compute. reflexivity. Qed.

Lemma applyBodyLanguage_fields c b :
  client_name (applyBodyLanguage c b) = client_name c /\
  territory (applyBodyLanguage c b) = territory c /\
  maxPatience (applyBodyLanguage c b) = maxPatience c /\
  budget (applyBodyLanguage c b) = budget c.
Proof. destruct b; repeat split. Qed.

Lemma applyBodyLanguage_resistance c b :
  resistance (applyBodyLanguage c b) =
  match b with
  | arms_crossed => resistance c + 1
  | skeptical => resistance c + 2
  | neutral => resistance c
  | interested => Z.max 5 (resistance c - 1)
  | engaged => Z.max 5 (resistance c - 2)
  end.
Proof. destruct b; reflexivity. Qed.

Lemma applyBodyLanguage_dealValue c b :
  0 <= dealValue c ->
  dealValue c <= dealValue (applyBodyLanguage c b) /\
  (b <> engaged -> dealValue (applyBodyLanguage c b) = dealValue c).
Proof.
  intros Hd.
  assert (H10 : 0 <= JS.floor (fmul (ofZ (dealValue c)) (lit 1 10))).
  { apply floor_fmul_nonneg; [assumption | apply tenth_nonneg |].
    vm_compute. exact I. }
  destruct b; cbn [applyBodyLanguage dealValue]; split;
    try lia; try reflexivity; intros; try congruence; lia.
Qed.

(** The pieces of a pitch result, read off [resolvePitch]. *)
Lemma resolvePitch_parts st c pr br n :
  let b := interpretBodyLanguage
             (shiftBodyLanguageRoll br (statMod (character st) dex)
                (statMod (character st) wis) n) in
  let u := applyBodyLanguage c b in
  let total := pr + getPitchModifier (character st) (territory c)
                      (modifiers st) n in
  let gain := if resistance c <=? total
              then calculatePitchValue c total (modifiers st)
                     (statMod (character st) str)
              else 0 in
  let r := resolvePitch st c pr br n in
  pr_moneyGained r = gain /\
  dealValue (pr_client r) = dealValue u + gain /\
  resistance (pr_client r) = resistance u /\
  client_name (pr_client r) = client_name c /\
  territory (pr_client r) = territory c /\
  maxPatience (pr_client r) = maxPatience c /\
  budget (pr_client r) = budget c.
Proof.
  intros b u total gain r.
  destruct (applyBodyLanguage_fields c b) as (Hn & Ht & Hm & Hb).
  fold u in Hn, Ht, Hm, Hb.
  unfold r, resolvePitch. cbv zeta. fold b. fold u. fold total.
  unfold gain.
  destruct (resistance c <=? total); cbv iota beta;
    match goal with
    | |- context [if ?t then _ else _] => destruct t
    end;
    cbn [pr_client pr_moneyGained dealValue resistance client_name territory
         maxPatience budget with_active with_patience with_dealValue];
    repeat split; try assumption; try lia.
Qed.

Lemma calculatePitchValue_min c total ms s :
  100 <= calculatePitchValue c total ms s.
Proof. unfold calculatePitchValue. cbv zeta. lia. Qed.

(** X5: a pitch or a listen on a client with deal value [>= 0] never
    lowers the deal value.  A successful pitch (total [>=] resistance)
    gains at least 100 and adds the gain to the deal value; a failed pitch
    gains 0.  Resistance falls by at most 2 per round, rises to at most
    [max(5, resistance + 2)] and, once at least 5, never falls below 5.  Name, territory, budget and maximum patience
    are never changed. *)
Theorem X5_client_through_round :
  forall (st : SalesGameState) (c : Client) (pitchRoll bodyRoll n : Z),
    0 <= dealValue c ->
    let total := pitchRoll + getPitchModifier (character st) (territory c)
                               (modifiers st) n in
    let p := resolvePitch st c pitchRoll bodyRoll n in
    let l := resolveListen st c bodyRoll n in
    (resistance c <= total -> 100 <= pr_moneyGained p) /\
    (total < resistance c -> pr_moneyGained p = 0) /\
    dealValue c + pr_moneyGained p <= dealValue (pr_client p) /\
    dealValue c <= dealValue (lr_client l) /\
    resistance c - 2 <= resistance (pr_client p)
      <= Z.max 5 (resistance c + 2) /\
    resistance (lr_client l) = resistance (pr_client p) /\
    (5 <= resistance c -> 5 <= resistance (pr_client p)) /\
    (client_name (pr_client p), territory (pr_client p),
     budget (pr_client p), maxPatience (pr_client p)) =
    (client_name c, territory c, budget c, maxPatience c) /\
    (client_name (lr_client l), territory (lr_client l),
     budget (lr_client l), maxPatience (lr_client l)) =
    (client_name c, territory c, budget c, maxPatience c).
Proof.
  intros st c pitchRoll bodyRoll n Hd total p l.
  destruct (resolvePitch_parts st c pitchRoll bodyRoll n)
    as (Hg & Hdv & Hr & Hn & Ht & Hm & Hb).
  cbv zeta in Hg, Hdv, Hr. fold total in Hg, Hdv. fold p in Hg, Hdv, Hr, Hn, Ht, Hm, Hb.
  set (b := interpretBodyLanguage
              (shiftBodyLanguageRoll bodyRoll (statMod (character st) dex)
                 (statMod (character st) wis) n)) in *.
  destruct (applyBodyLanguage_dealValue c b Hd) as (Hdu & _).
  pose proof (applyBodyLanguage_resistance c b) as Hru.
  pose proof (calculatePitchValue_min c total (modifiers st)
                (statMod (character st) str)) as Hmin.
  change (lr_client l) with (applyBodyLanguage c b).
  destruct (applyBodyLanguage_fields c b) as (Hn' & Ht' & Hm' & Hb').
  clearbody p b total.
  assert (Hgain : 0 <= pr_moneyGained p).
  { rewrite Hg. destruct (resistance c <=? total); lia. }
  repeat split.
  - intros Hs. rewrite Hg. apply Z.leb_le in Hs. rewrite Hs. exact Hmin.
  - intros Hf. rewrite Hg. apply Z.leb_gt in Hf. rewrite Hf. reflexivity.
  - rewrite <- Hg in Hdv. rewrite Hdv. lia.
  - exact Hdu.
  - rewrite Hr, Hru. destruct b; lia.
  - rewrite Hr, Hru. destruct b; lia.
  - rewrite Hr. reflexivity.
  - intros H5. rewrite Hr, Hru. destruct b; lia.
  - rewrite Hn, Ht, Hm, Hb. reflexivity.
  - rewrite Hn', Ht', Hm', Hb'. reflexivity.
Qed.

Lemma X5_witness :
  100 <= pr_moneyGained (resolvePitch Sample.plain Sample.startupBot 20 6 1) /\
  pr_moneyGained (resolvePitch Sample.plain Sample.startupBot 2 6 1) = 0.
Proof.
  destruct (X5_client_through_round Sample.plain Sample.startupBot 20 6 1
              ltac:(vm_compute; discriminate)) as (H & _).
  destruct (X5_client_through_round Sample.plain Sample.startupBot 2 6 1
              ltac:(vm_compute; discriminate)) as (_ & H' & _).
  split.
  - apply H. vm_compute. discriminate.
  - apply H'. vm_compute. reflexivity.
Defined.

(* ================================================================== *)
(** * A run of pitches *)
(* ================================================================== *)

Lemma pitchOnce_patience c s :
  0 <= patience c ->
  0 <= patience (pitchOnce c s) <= Z.max 0 (patience c - 1) /\
  active (pitchOnce c s) = (0 <? patience (pitchOnce c s)).
Proof.
  intros Hp. destruct s as [[[st pr] br] n]. unfold pitchOnce. split.
  - rewrite resolvePitch_patience, applyBodyLanguage_patience.
    destruct (pr_bodyLanguage _); lia.
  - apply resolvePitch_active.
Qed.

Lemma pitchRun_patience steps : forall c,
  0 <= patience c ->
  0 <= patience (fold_left pitchOnce steps c)
    <= Z.max 0 (patience c - Z.of_nat (List.length steps)).
Proof.
  induction steps as [| s steps IH]; intros c Hp.
  - cbn [fold_left List.length]. lia.
  - cbn [fold_left].
    destruct (pitchOnce_patience c s Hp) as [H1 _].
    specialize (IH (pitchOnce c s) (proj1 H1)).
    rewrite length_cons. lia.
Qed.

Lemma pitchRun_active steps : forall c,
  0 <= patience c -> steps <> [] ->
  active (fold_left pitchOnce steps c) =
  (0 <? patience (fold_left pitchOnce steps c)).
Proof.
  induction steps as [| s steps IH]; intros c Hp Hne; [contradiction |].
  cbn [fold_left].
  destruct (pitchOnce_patience c s Hp) as [H1 H2].
  destruct steps as [| s' steps].
  - exact H2.
  - apply IH; [lia | discriminate].
Qed.

(** X6: however the rolls fall, [k] pitches in a row take a client of
    patience [p >= 0] to a patience between 0 and [max(0, p - k)]; so
    after [p] pitches (at least one) the client has patience 0 and is
    inactive. *)
Theorem X6_pitches_exhaust_patience :
  forall (steps : list (SalesGameState * Z * Z * Z)) (c : Client),
    0 <= patience c ->
    let k := Z.of_nat (List.length steps) in
    let c' := fold_left pitchOnce steps c in
    0 <= patience c' <= Z.max 0 (patience c - k) /\
    (steps <> [] -> patience c <= k ->
     patience c' = 0 /\ active c' = false /\
     getNegotiationOutcome c' = if 0 <? dealValue c' then closed else lost).
Proof.
  intros steps c Hp k c'.
  pose proof (pitchRun_patience steps c Hp) as Hr. fold k c' in Hr.
  split; [exact Hr |].
  intros Hne Hk.
  assert (H0 : patience c' = 0) by lia.
  assert (Ha : active c' = false).
  { unfold c'. rewrite pitchRun_active by assumption. fold c'.
    rewrite H0. reflexivity. }
  split; [exact H0 |]. split; [exact Ha |].
  unfold getNegotiationOutcome. rewrite Ha. reflexivity.
Qed.

Lemma X6_witness :
  0 <= patience
         (fold_left pitchOnce
            [(Sample.plain, 20, 3, 1); (Sample.plain, 1, 3, 2);
             (Sample.plain, 1, 1, 3)] Sample.startupBot) <= 2.
Proof.
  exact (proj1 (X6_pitches_exhaust_patience
                  [(Sample.plain, 20, 3, 1); (Sample.plain, 1, 3, 2);
                   (Sample.plain, 1, 1, 3)] Sample.startupBot
                  ltac:(vm_compute; discriminate))).
Defined.

(* ================================================================== *)
(** * Conceding and outcomes *)
(* ================================================================== *)

Lemma concede_checked : forallb concedeOk (range 0 20000) = true.
Proof. vm_compute. reflexivity. Qed.

(** X7: conceding on a deal value between 0 and 20000 reports
    [floor(4*dealValue/5)] as the money gained, deactivates the client
    and leaves every other field, the deal value included, untouched.  The
    outcome is then closed when the deal value is positive and lost when
    it is 0; and [completeFirstClient] on a state holding the conceded
    client pays the full deal value (plus the element bonus), not the
    reported 80%. *)
Theorem X7_concede :
  forall (st : SalesGameState) (c : Client),
    0 <= dealValue c <= 20000 ->
    let r := resolveConcede c in
    cr_moneyGained r = 4 * dealValue c / 5 /\
    0 <= cr_moneyGained r <= dealValue c /\
    cr_client r = with_active c false /\
    dealValue (cr_client r) = dealValue c /\
    getNegotiationOutcome (cr_client r) =
      (if 0 <? dealValue c then closed else lost) /\
    (firstClient st = Some (cr_client r) ->
     exists st',
       completeFirstClient st = Returned st' /\
       money st' =
         money st + dealValue c
         + (if 0 <? dealValue c
            then firstDealBonus (element (traits (character st))) else 0)).
Proof.
  intros st c Hd r.
  assert (Hg : cr_moneyGained r = 4 * dealValue c / 5).
  { apply Z.eqb_eq.
    apply (checked_range concedeOk 0 20000 concede_checked). exact Hd. }
  split; [exact Hg |].
  split.
  { rewrite Hg. split.
    - apply Z.div_pos; lia.
    - apply Z.div_le_upper_bound; lia. }
  split; [reflexivity |]. split; [reflexivity |]. split.
  - unfold getNegotiationOutcome. reflexivity.
  - intros Hfc. unfold completeFirstClient. rewrite Hfc.
    eexists. split; [reflexivity |].
    cbn [money with_money cr_client r resolveConcede dealValue with_active].
    destruct (element (traits (character st)));
      destruct (0 <? dealValue c); cbn; lia.
Qed.

Lemma X7_witness :
  cr_moneyGained (resolveConcede (with_dealValue Sample.startupBot 1000)) = 800.
Proof.
  destruct (X7_concede Sample.plain (with_dealValue Sample.startupBot 1000)
              ltac:(vm_compute; split; discriminate)) as (H & _).
  exact H.
Defined.

(** X8: after a pitch or a listen the outcome is ongoing exactly when
    patience is left; otherwise it is closed with a positive deal value
    and lost with none.  The active flag is recomputed from patience alone:
    a listen resolved on a client that was conceded (inactive) with
    patience 3 or more makes it active again. *)
Theorem X8_outcome_after_action :
  forall (st : SalesGameState) (c : Client) (pitchRoll bodyRoll n : Z),
    0 <= patience c ->
    let p := pr_client (resolvePitch st c pitchRoll bodyRoll n) in
    let l := lr_client (resolveListen st c bodyRoll n) in
    getNegotiationOutcome p =
      (if 0 <? patience p then ongoing
       else if 0 <? dealValue p then closed else lost) /\
    getNegotiationOutcome l =
      (if 0 <? patience l then ongoing
       else if 0 <? dealValue l then closed else lost) /\
    (3 <= patience c ->
     getNegotiationOutcome
       (lr_client (resolveListen st (cr_client (resolveConcede c)) bodyRoll n))
     = ongoing).
Proof.
  intros st c pitchRoll bodyRoll n Hp p l.
  split; [| split].
  - unfold getNegotiationOutcome, p. rewrite resolvePitch_active.
    destruct (0 <? patience _); reflexivity.
  - unfold getNegotiationOutcome, l.
    change (lr_client (resolveListen st c bodyRoll n))
      with (applyBodyLanguage c
              (interpretBodyLanguage
                 (shiftBodyLanguageRoll bodyRoll (statMod (character st) dex)
                    (statMod (character st) wis) n))).
    rewrite applyBodyLanguage_active.
    destruct (0 <? patience _); reflexivity.
  - intros H3. unfold getNegotiationOutcome.
    change (lr_client
              (resolveListen st (cr_client (resolveConcede c)) bodyRoll n))
      with (applyBodyLanguage (with_active c false)
              (interpretBodyLanguage
                 (shiftBodyLanguageRoll bodyRoll (statMod (character st) dex)
                    (statMod (character st) wis) n))).
    rewrite applyBodyLanguage_active, applyBodyLanguage_patience.
    cbn [patience with_active].
    destruct (interpretBodyLanguage _);
      match goal with
      | |- context [0 <? ?x] => destruct (Z.ltb_spec 0 x)
      end; try reflexivity; lia.
Qed.

Lemma X8_witness :
  getNegotiationOutcome
    (lr_client
       (resolveListen Sample.plain
          (cr_client (resolveConcede Sample.startupBot)) 1 1)) = ongoing.
Proof.
  destruct (X8_outcome_after_action Sample.plain Sample.startupBot 1 1 1
              ltac:(vm_compute; discriminate)) as (_ & _ & H).
  apply H. vm_compute. discriminate.
Defined.

(* ================================================================== *)
(** * Resolving a round *)
(* ================================================================== *)



(* ================================================================== *)
(** * Phase events *)
(* ================================================================== *)

Lemma find_all_false {A : Type} (f : A -> bool) (l : list A) :
  (forall x, In x l -> f x = false) -> find f l = None.
Proof.
  induction l as [| a l IH]; intros H; [reflexivity |].
  cbn [find]. rewrite (H a (or_introl eq_refl)).
  apply IH. intros x Hx. apply H. right. exact Hx.
Qed.

Lemma findEvent_outside table roll default :
  (forall e, In e table -> 1 <= ev_roll e <= 6) ->
  roll < 1 \/ 6 < roll ->
  findEvent table roll default = default.
Proof.
  intros Ht Hr. unfold findEvent.
  rewrite find_all_false; [reflexivity |].
  intros e He. specialize (Ht e He). apply Z.eqb_neq. lia.
Qed.

Lemma findEvent_In table roll default :
  In default table -> In (findEvent table roll default) table.
Proof.
  intros Hd. unfold findEvent.
  destruct (find _ table) as [e |] eqn:E; [| exact Hd].
  apply find_some in E. tauto.
Qed.

Lemma d6_table_rolls table :
  table = JOURNEY_EVENTS \/ table = DRIVE_TROUBLE_EVENTS \/
  table = QUARTER_EVENTS \/ table = LUCKY_ITEMS ->
  forall e, In e table -> 1 <= ev_roll e <= 6.
Proof.
  intros [-> | [-> | [-> | ->]]] e He; cbn in He;
    repeat (destruct He as [<- | He]; [cbn; lia |]); contradiction.
Qed.

(** The two money steps on a table entry's change [d], bounded. *)
Lemma steps_bounds c d lo hi :
  lo <= d <= hi -> lo <= 0 -> (d < 0 -> d + 200 <= hi) ->
  0 <= hi ->
  lo - Z.max 0 (- getConAdjustment c) <= conStep c (earthStep c d) <= hi.
Proof.
  intros Hd Hlo Hgap Hhi. unfold conStep, earthStep.
  destruct (Z.ltb_spec d 0) as [Hn | Hn];
    destruct (Element_eqb (element (traits c)) Earth); cbn [andb];
    repeat match goal with
           | |- context [?x <? 0] => destruct (Z.ltb_spec x 0)
           end; lia.
Qed.

(** X10: with [adj = CON_mod*100], a journey event changes money by
    between [-100 - max(0,-adj)] and [+500], a drive event by between
    [-400 - max(0,-adj)] and [+100], a quarter event by between
    [-1500 - max(0,-adj)] and [+800], and a lucky item by between
    [-50 - max(0,-adj)] and [+200], for every roll and every element.  A
    roll outside 1..6 falls back to a fixed entry: [delays] (journey),
    [breakdown] (drive, the $400 loss), [quiet] (quarter) and [parking]
    (lucky item). *)
Theorem X10_event_bounds_and_fallback :
  forall (st : SalesGameState) (roll : Z),
    let extra := Z.max 0 (- (statMod (character st) con * 100)) in
    (money st - 100 - extra <= money (applyJourneyEvent st roll)
       <= money st + 500) /\
    (money st - 400 - extra <= money (applyDriveTrouble st roll)
       <= money st + 100) /\
    (money st - 1500 - extra <= money (applyQuarterEvent st roll)
       <= money st + 800) /\
    (money st - 50 - extra <= money (applyLuckyItem st roll)
       <= money st + 200) /\
    (roll < 1 \/ 6 < roll ->
     journeyEvent (applyJourneyEvent st roll) = Some "delays" /\
     applyJourneyEvent st roll = with_journeyEvent st "delays" /\
     driveTrouble (applyDriveTrouble st roll) = Some "breakdown" /\
     applyDriveTrouble st roll = applyDriveTrouble st 1 /\
     applyQuarterEvent st roll = with_quarterEvent st "quiet" /\
     applyLuckyItem st roll = with_luckyItem st "parking").
Proof.
  intros st roll extra.
  assert (Hb : forall table d lo hi,
             In d table ->
             (forall e, In e table ->
                lo <= moneyChange e <= hi /\
                (moneyChange e < 0 -> moneyChange e + 200 <= hi)) ->
             lo <= 0 -> 0 <= hi ->
             lo - extra
             <= conStep (character st)
                  (earthStep (character st)
                     (moneyChange (findEvent table roll d)))
             <= hi).
  { intros table d lo hi Hd Hall Hlo Hhi.
    destruct (Hall _ (findEvent_In table roll d Hd)) as [H1 H2].
    apply steps_bounds; assumption. }
  split; [| split; [| split; [| split]]].
  - rewrite applyJourneyEvent_money.
    pose proof (Hb JOURNEY_EVENTS (nthEvent JOURNEY_EVENTS 0) (-100) 500
                  ltac:(cbn; tauto)) as H.
    specialize (H ltac:(intros e He; cbn in He;
      repeat (destruct He as [<- | He]; [cbn; lia |]); contradiction)
      ltac:(lia) ltac:(lia)). lia.
  - rewrite applyDriveTrouble_money.
    pose proof (Hb DRIVE_TROUBLE_EVENTS (nthEvent DRIVE_TROUBLE_EVENTS 0)
                  (-400) 100 ltac:(cbn; tauto)) as H.
    specialize (H ltac:(intros e He; cbn in He;
      repeat (destruct He as [<- | He]; [cbn; lia |]); contradiction)
      ltac:(lia) ltac:(lia)). lia.
  - rewrite applyQuarterEvent_money.
    pose proof (Hb QUARTER_EVENTS (nthEvent QUARTER_EVENTS 3) (-1500) 800
                  ltac:(cbn; tauto)) as H.
    specialize (H ltac:(intros e He; cbn in He;
      repeat (destruct He as [<- | He]; [cbn; lia |]); contradiction)
      ltac:(lia) ltac:(lia)). lia.
  - rewrite applyLuckyItem_money.
    pose proof (Hb LUCKY_ITEMS (nthEvent LUCKY_ITEMS 4) (-50) 200
                  ltac:(cbn; tauto)) as H.
    specialize (H ltac:(intros e He; cbn in He;
      repeat (destruct He as [<- | He]; [cbn; lia |]); contradiction)
      ltac:(lia) ltac:(lia)). lia.
  - intros Hout.
    assert (Hj : findEvent JOURNEY_EVENTS roll (nthEvent JOURNEY_EVENTS 0)
                 = nthEvent JOURNEY_EVENTS 0)
      by (apply findEvent_outside; [apply d6_table_rolls; tauto | exact Hout]).
    assert (Hd : findEvent DRIVE_TROUBLE_EVENTS roll
                   (nthEvent DRIVE_TROUBLE_EVENTS 0)
                 = nthEvent DRIVE_TROUBLE_EVENTS 0)
      by (apply findEvent_outside; [apply d6_table_rolls; tauto | exact Hout]).
    assert (Hq : findEvent QUARTER_EVENTS roll (nthEvent QUARTER_EVENTS 3)
                 = nthEvent QUARTER_EVENTS 3)
      by (apply findEvent_outside; [apply d6_table_rolls; tauto | exact Hout]).
    assert (Hl : findEvent LUCKY_ITEMS roll (nthEvent LUCKY_ITEMS 4)
                 = nthEvent LUCKY_ITEMS 4)
      by (apply findEvent_outside; [apply d6_table_rolls; tauto | exact Hout]).
    unfold applyJourneyEvent, applyDriveTrouble, applyQuarterEvent,
      applyLuckyItem. cbv zeta.
    rewrite Hj, Hd, Hq, Hl.
    repeat split.
    + destruct st; cbn. unfold earthStep, conStep. cbn.
      rewrite Z.add_0_r. reflexivity.
    + destruct st; cbn. unfold earthStep, conStep. cbn.
      rewrite Z.add_0_r. reflexivity.
    + destruct st; cbn. unfold earthStep, conStep. cbn.
      rewrite Z.add_0_r. reflexivity.
Qed.

Lemma X10_witness :
  driveTrouble (applyDriveTrouble Sample.plain 7) = Some "breakdown" /\
  money (applyDriveTrouble Sample.plain 7) = 9600.
Proof.
  destruct (X10_event_bounds_and_fallback Sample.plain 7) as (_ & _ & _ & _ & H).
  destruct (H ltac:(right; reflexivity)) as (_ & _ & Hd & _).
  split; [exact Hd | reflexivity].
Defined.

(* ================================================================== *)
(** * Which modifiers reach the pitch *)
(* ================================================================== *)

Ltac split_roll roll :=
  repeat match goal with
         | |- context [?k =? roll] =>
             destruct (Z.eqb_spec k roll); [subst roll |]
         end.

Lemma applyJourneyEvent_modifiers st roll :
  modifiers (applyJourneyEvent st roll) =
  if roll =? 3
  then (modifiers st ++
        [mkModifier "Market Intel: +1 to next pitch" buff 1 "journey" 2])%list
  else modifiers st.
Proof.
  unfold applyJourneyEvent, findEvent, JOURNEY_EVENTS. cbv zeta.
  cbn [find mkEvent ev_roll modifiers with_modifiers].
  split_roll roll; try reflexivity.
  destruct (Z.eqb_spec roll 3); [lia | reflexivity].
Qed.

Lemma applyDriveTrouble_modifiers st roll :
  modifiers (applyDriveTrouble st roll) =
  if roll =? 5
  then (modifiers st ++
        [mkModifier "Drive Bonus: +1 to first pitch" buff 1 "drive" 2])%list
  else if roll =? 6
  then (modifiers st ++
        [mkModifier "Drive Bonus: +2 to first pitch" buff 2 "drive" 2])%list
  else modifiers st.
Proof.
  unfold applyDriveTrouble, findEvent, DRIVE_TROUBLE_EVENTS. cbv zeta.
  cbn [find mkEvent ev_roll modifiers with_modifiers].
  split_roll roll; try reflexivity.
  destruct (Z.eqb_spec roll 5); [lia |].
  destruct (Z.eqb_spec roll 6); [lia | reflexivity].
Qed.

Lemma applyLuckyItem_modifiers st roll :
  modifiers (applyLuckyItem st roll) =
  if roll =? 3
  then (modifiers st ++
        [mkModifier "Lucky Item (clover): +1 to pitches" buff 1 "lucky" 99])%list
  else if roll =? 4
  then (modifiers st ++
        [mkModifier "Lucky Item (usb): +1 to pitches" buff 1 "lucky" 99])%list
  else modifiers st.
Proof.
  unfold applyLuckyItem, findEvent, LUCKY_ITEMS. cbv zeta.
  cbn [find mkEvent ev_roll modifiers with_modifiers].
  split_roll roll; try reflexivity.
  destruct (Z.eqb_spec roll 3); [lia |].
  destruct (Z.eqb_spec roll 4); [lia | reflexivity].
Qed.

(** X11: what the first trip and the lucky item add to the pitch
    modifier, in every territory and round: flying adds 2 (train and
    drive add 0), the journey roll 3 adds 1, the drive rolls 5 and 6 add
    1 and 2, the lucky-item rolls 3 and 4 add 1, and every other roll
    adds nothing.  The travel cost (800, 200 or 50) is charged in full
    for every element and CON modifier. *)
Theorem X11_phase_buffs_reach_the_pitch :
  forall (st : SalesGameState) (t : Territory) (n roll : Z)
         (choice : TravelChoice),
    let base := getPitchModifier (character st) t (modifiers st) n in
    let after (st' : SalesGameState) :=
      getPitchModifier (character st') t (modifiers st') n in
    after (applyTravelChoice st choice) =
      base + pitchBonus (TRAVEL_OPTIONS choice) /\
    money (applyTravelChoice st choice) =
      money st - cost (TRAVEL_OPTIONS choice) /\
    after (applyJourneyEvent st roll) = base + (if roll =? 3 then 1 else 0) /\
    after (applyDriveTrouble st roll) =
      base + (if roll =? 5 then 1 else if roll =? 6 then 2 else 0) /\
    after (applyLuckyItem st roll) =
      base + (if (roll =? 3) || (roll =? 4) then 1 else 0).
Proof.
  intros st t n roll choice base after. unfold after.
  split; [| split; [| split; [| split]]].
  - destruct choice; unfold applyTravelChoice; cbv zeta;
      cbn [modifiers character with_choices with_modifiers with_travel
           with_money TRAVEL_OPTIONS pitchBonus].
    + rewrite getPitchModifier_app. reflexivity.
    + unfold base. lia.
    + unfold base. lia.
  - reflexivity.
  - rewrite applyJourneyEvent_modifiers.
    change (character (applyJourneyEvent st roll)) with (character st).
    destruct (roll =? 3).
    + rewrite getPitchModifier_app. reflexivity.
    + unfold base. lia.
  - rewrite applyDriveTrouble_modifiers.
    change (character (applyDriveTrouble st roll)) with (character st).
    destruct (roll =? 5); [rewrite getPitchModifier_app; reflexivity |].
    destruct (roll =? 6); [rewrite getPitchModifier_app; reflexivity |].
    unfold base. lia.
  - rewrite applyLuckyItem_modifiers.
    change (character (applyLuckyItem st roll)) with (character st).
    destruct (roll =? 3); [rewrite getPitchModifier_app; reflexivity |].
    destruct (roll =? 4); [rewrite getPitchModifier_app; reflexivity |].
    unfold base. cbn [orb]. lia.
Qed.

Lemma addDealBuffs_app ms ms' z :
  addDealBuffs (ms ++ ms') z = addDealBuffs ms' (addDealBuffs ms z).
Proof. unfold addDealBuffs. apply fold_left_app. Qed.

Lemma calculatePitchValue_app c total ms m s :
  isDealBuff m = false ->
  calculatePitchValue c total (ms ++ [m]) s = calculatePitchValue c total ms s.
Proof.
  intros Hm. unfold calculatePitchValue. cbv zeta.
  rewrite addDealBuffs_app. unfold addDealBuffs at 1. cbn [fold_left].
  rewrite Hm. reflexivity.
Qed.

(** A pitch depends on the state only through the character and the
    modifiers. *)
Lemma resolvePitch_ext st st' c pr br n :
  character st' = character st ->
  getPitchModifier (character st) (territory c) (modifiers st') n =
  getPitchModifier (character st) (territory c) (modifiers st) n ->
  (forall total,
     calculatePitchValue c total (modifiers st') (statMod (character st) str) =
     calculatePitchValue c total (modifiers st) (statMod (character st) str)) ->
  resolvePitch st' c pr br n = resolvePitch st c pr br n.
Proof.
  intros Hc Hp Hv. unfold resolvePitch. cbv zeta.
  rewrite Hc, Hp, Hv. reflexivity.
Qed.

(** X12: a whale-prep investment is charged in full (400, 600, 800 or 0)
    and appends its modifier, but none of the four investments changes
    the pitch modifier or the value of a pitch: every pitch resolves
    exactly as it would without the investment.  (The gift's "+1 to all
    checks" and the research's "+2 to Listen actions" are not pitch or
    deal buffs.) *)
Theorem X12_whale_investment_never_reaches_the_pitch :
  forall (st : SalesGameState) (i : WhaleInvestment) (c : Client)
         (pitchRoll bodyRoll n : Z),
    let st' := applyWhaleInvestment st i in
    money st' = money st - wi_cost (WHALE_INVESTMENTS i) /\
    whaleInvestment st' = Some i /\
    getPitchModifier (character st') (territory c) (modifiers st') n =
    getPitchModifier (character st) (territory c) (modifiers st) n /\
    resolvePitch st' c pitchRoll bodyRoll n =
    resolvePitch st c pitchRoll bodyRoll n.
Proof.
  intros st i c pitchRoll bodyRoll n st'.
  assert (Hm : exists m, (modifiers st' = modifiers st \/
                          modifiers st' = (modifiers st ++ [m])%list) /\
                         isPitchBuff m = false /\ isDealBuff m = false).
  { destruct i;
      [ exists (mkModifier "Research: +2 to Listen actions" buff 2 "research" 99)
      | exists (mkModifier "Gift: +1 to all checks" buff 1 "gift" 99)
      | exists (mkModifier "Dinner: -2 whale resistance" buff 2 "dinner" 99)
      | exists (mkModifier "Dinner: -2 whale resistance" buff 2 "dinner" 99) ];
      (split; [| split; reflexivity]);
      first [ right; reflexivity | left; reflexivity ]. }
  destruct Hm as (m & Hms & Hp & Hd).
  assert (Hpm : getPitchModifier (character st) (territory c) (modifiers st') n =
                getPitchModifier (character st) (territory c) (modifiers st) n).
  { destruct Hms as [-> | ->]; [reflexivity |].
    rewrite getPitchModifier_app. unfold addPitchBuffs. cbn [fold_left].
    rewrite Hp. reflexivity. }
  split; [destruct i; reflexivity |]. split; [reflexivity |].
  split; [exact Hpm |].
  apply resolvePitch_ext; [reflexivity | exact Hpm |].
  intros total. destruct Hms as [-> | ->]; [reflexivity |].
  apply calculatePitchValue_app, Hd.
Qed.

(* ================================================================== *)
(** * Spirit modifiers and the listen buff in a pitch *)
(* ================================================================== *)

Lemma toLowerCase_app a b :
  toLowerCase (a ++ b) = (toLowerCase a ++ toLowerCase b)%string.
Proof.
  induction a as [| ch a IH]; [reflexivity |].
  cbn [String.append toLowerCase]. rewrite IH. reflexivity.
Qed.

Lemma includes_app_r a b sub :
  includes b sub = true -> includes (a ++ b) sub = true.
Proof.
  intros Hb. induction a as [| ch a IH]; [exact Hb |].
  cbn [String.append includes].
  destruct (String.prefix sub (String ch (a ++ b))); [reflexivity | exact IH].
Qed.

Lemma dealBuffTotal_app ms m :
  dealBuffTotal (ms ++ [m]) =
  dealBuffTotal ms + (if isDealBuff m then value m else 0).
Proof.
  unfold dealBuffTotal. rewrite filter_app, map_app, fold_right_app.
  cbn [filter]. destruct (isDealBuff m); cbn [map fold_right].
  - induction (map value (filter isDealBuff ms)) as [| z l IH];
      cbn [fold_right]; lia.
  - lia.
Qed.

Lemma calculatePitchValue_total c total ms s :
  calculatePitchValue c total ms s =
  Z.max (pitchCore c total + s * 100 + dealBuffTotal ms) 100.
Proof.
  unfold calculatePitchValue, pitchCore. cbv zeta.
  rewrite addDealBuffs_total. reflexivity.
Qed.

Section SpiritInPitch.
Variable toLocaleString : Z -> string.

Lemma tiger_is_deal_buff v :
  isDealBuff
    (mkModifier ("Tiger Strike: +$" ++ toLocaleString v ++ " on next deal")
       buff v "spirit" 99) = true.
Proof.
  unfold isDealBuff. cbn [type mkModifier source description].
  cbn [ModifierType_eqb andb]. apply orb_true_iff. right.
  rewrite !toLowerCase_app. apply includes_app_r, includes_app_r.
  vm_compute. reflexivity.
Qed.

(** X13: the Bear, Eagle, Octopus and Spider abilities cost and pay
    nothing and change no pitch: after the ability every pitch resolves
    exactly as before, so "Eagle Eye: Auto-succeed next check" does not
    make the next pitch succeed. *)
Theorem X13_tactical_spirits_change_no_pitch :
  forall (st : SalesGameState),
    spiritAbilityUsed st = false ->
    In (spiritAnimal (traits (character st))) [Bear; Eagle; Octopus; Spider] ->
    exists r,
      useSpiritAbility toLocaleString st = Returned r /\
      money (ar_state r) = money st /\
      ar_moneyGained r = None /\
      forall (c : Client) (pitchRoll bodyRoll n : Z),
        resolvePitch (ar_state r) c pitchRoll bodyRoll n =
        resolvePitch st c pitchRoll bodyRoll n.
Proof.
  intros st Hu Hs.
  eexists. split; [apply useSpiritAbility_fresh, Hu |]. cbv zeta.
  assert (Hm : exists m,
             spiritSwitch toLocaleString st (with_spiritAbilityUsed st true) =
             (with_modifiers (with_spiritAbilityUsed st true)
                (modifiers st ++ [m])%list, 0) /\
             isPitchBuff m = false /\
             (isDealBuff m = false \/ value m = 0)).
  { unfold spiritSwitch. cbv zeta.
    cbn in Hs.
    destruct Hs as [<- | [<- | [<- | [<- | []]]]];
      eexists; (split; [reflexivity |]); split;
      first [ reflexivity | left; reflexivity | right; reflexivity ]. }
  destruct Hm as (m & -> & Hp & Hd).
  cbn [fst snd ar_state ar_moneyGained money with_choices with_money
       with_modifiers with_spiritAbilityUsed].
  split; [lia |]. split; [reflexivity |].
  intros c pitchRoll bodyRoll n.
  apply resolvePitch_ext.
  - reflexivity.
  - cbn [modifiers with_choices with_money with_modifiers].
    rewrite getPitchModifier_app. unfold addPitchBuffs. cbn [fold_left].
    rewrite Hp. reflexivity.
  - intros total.
    cbn [modifiers with_choices with_money with_modifiers].
    rewrite !calculatePitchValue_total, dealBuffTotal_app.
    destruct Hd as [-> | Hv]; [| rewrite Hv; destruct (isDealBuff m)];
      rewrite ?Z.add_0_r; reflexivity.
Qed.

(** X14: the Tiger and Deer modifiers are deal buffs.  After the Tiger
    ability the unclamped value of every successful pitch is
    [max(0, 3000 + WIS_mod*500)] higher, for as long as the modifier
    lasts (99 phases); after the Deer ability it is 50 higher.  The
    ability itself pays no money. *)
Theorem X14_tiger_and_deer_raise_every_pitch :
  forall (st : SalesGameState),
    spiritAbilityUsed st = false ->
    forall bonus : Z,
      (spiritAnimal (traits (character st)) = Tiger /\
       bonus = Z.max 0 (3000 + statMod (character st) wis * 500)) \/
      (spiritAnimal (traits (character st)) = Deer /\ bonus = 50) ->
      exists r,
        useSpiritAbility toLocaleString st = Returned r /\
        money (ar_state r) = money st /\
        dealBuffTotal (modifiers (ar_state r)) =
          dealBuffTotal (modifiers st) + bonus /\
        forall (c : Client) (total strMod : Z),
          calculatePitchValue c total (modifiers (ar_state r)) strMod =
          Z.max (pitchCore c total + strMod * 100
                 + dealBuffTotal (modifiers st) + bonus) 100 /\
          calculatePitchValue c total (modifiers st) strMod
          <= calculatePitchValue c total (modifiers (ar_state r)) strMod.
Proof.
  intros st Hu bonus Hs.
  eexists. split; [apply useSpiritAbility_fresh, Hu |]. cbv zeta.
  assert (Hm : exists m,
             spiritSwitch toLocaleString st (with_spiritAbilityUsed st true) =
             (with_modifiers (with_spiritAbilityUsed st true)
                (modifiers st ++ [m])%list, 0) /\
             isDealBuff m = true /\ value m = bonus).
  { unfold spiritSwitch. cbv zeta.
    destruct Hs as [[-> ->] | [-> ->]]; eexists;
      (split; [reflexivity |]); split;
      first [ apply tiger_is_deal_buff | reflexivity ]. }
  destruct Hm as (m & -> & Hd & Hv).
  cbn [fst snd ar_state money modifiers with_choices with_money
       with_modifiers with_spiritAbilityUsed].
  assert (Hb : 0 <= bonus)
    by (destruct Hs as [[_ ->] | [_ ->]]; lia).
  assert (Ht : dealBuffTotal (modifiers st ++ [m]) =
               dealBuffTotal (modifiers st) + bonus)
    by (rewrite dealBuffTotal_app, Hd, Hv; reflexivity).
  split; [lia |]. split; [exact Ht |].
  intros c total strMod.
  rewrite !calculatePitchValue_total, Ht. split; [f_equal; lia | lia].
Qed.

End SpiritInPitch.

Lemma X13_witness :
  exists r,
    useSpiritAbility Sample.usLocale
      (createSalesGameState 0 (Sample.hero 0 0 0 0 0 0 Fire Eagle)) =
    Returned r /\
    resolvePitch (ar_state r) Sample.startupBot 11 3 1 =
    resolvePitch (createSalesGameState 0 (Sample.hero 0 0 0 0 0 0 Fire Eagle))
      Sample.startupBot 11 3 1.
Proof.
  destruct (X13_tactical_spirits_change_no_pitch Sample.usLocale
              (createSalesGameState 0 (Sample.hero 0 0 0 0 0 0 Fire Eagle))
              eq_refl ltac:(right; left; reflexivity))
    as (r & Hr & _ & _ & H).
  exists r. split; [exact Hr | apply H].
Defined.

Lemma X14_witness :
  exists r,
    useSpiritAbility Sample.usLocale
      (createSalesGameState 0 (Sample.hero 0 0 0 0 1 0 Fire Tiger)) =
    Returned r /\
    dealBuffTotal (modifiers (ar_state r)) = 3500.
Proof.
  destruct (X14_tiger_and_deer_raise_every_pitch Sample.usLocale
              (createSalesGameState 0 (Sample.hero 0 0 0 0 1 0 Fire Tiger))
              eq_refl 3500 ltac:(left; split; reflexivity))
    as (r & Hr & _ & H & _).
  exists r. split; [exact Hr | exact H].
Defined.

(** X15: a listen always hands back the same buff, "+2 to next pitch"
    from source [listen] with 1 phase remaining.  Appended to the ledger
    [k] times it raises the pitch modifier by [2*k] in every later round
    of the phase (nothing but the phase tick removes a modifier), and the
    next phase tick drops all of them. *)
Theorem X15_listen_buff :
  forall (st : SalesGameState) (c : Client) (bodyRoll n : Z)
         (ms : list ActiveModifier) (k : nat) (ch : StoredCharacter)
         (t : Territory) (n' : Z),
    let L := lr_modifier (resolveListen st c bodyRoll n) in
    L = mkModifier "Listen Bonus: +2 to next pitch" buff 2 "listen" 1 /\
    getPitchModifier ch t (ms ++ repeat L k) n' =
      getPitchModifier ch t ms n' + 2 * Z.of_nat k /\
    tickModifiers (ms ++ repeat L k) = tickModifiers ms.
Proof.
  intros st c bodyRoll n ms k ch t n' L.
  change L with (mkModifier "Listen Bonus: +2 to next pitch" buff 2 "listen" 1).
  clear L. split; [reflexivity |]. split.
  - rewrite getPitchModifier_app.
    generalize (getPitchModifier ch t ms n'). 
    induction k as [| k IH]; intros z.
    + cbn. lia.
    + cbn [repeat]. unfold addPitchBuffs in *. cbn [fold_left].
      change (isPitchBuff
                (mkModifier "Listen Bonus: +2 to next pitch" buff 2 "listen" 1))
        with true. cbv iota.
      rewrite IH. cbn [value mkModifier]. lia.
  - unfold tickModifiers. rewrite map_app, filter_app.
    induction k as [| k IH]; [cbn; apply app_nil_r |].
    cbn [repeat map filter].
    change (0 <? phasesRemaining
              (tickOne
                 (mkModifier "Listen Bonus: +2 to next pitch" buff 2 "listen" 1)))
      with false. cbv iota. exact IH.
Qed.

(* ================================================================== *)
(** * Walking the phases *)
(* ================================================================== *)

Lemma advancePhase_step now st p :
  PHASE_FLOW (currentPhase st) = Some p ->
  exists st',
    advancePhase now st = Returned st' /\
    currentPhase st' = p /\
    money st' =
      money st + (if Element_eqb (element (traits (character st))) Wood
                  then 100 else 0) /\
    modifiers st' = tickModifiers (modifiers st) /\
    character st' = character st /\
    tier st' = tier st /\ endedAt st' = endedAt st.
Proof.
  intros Hp. unfold advancePhase. rewrite Hp.
  eexists. split; [reflexivity |].
  cbn [currentPhase money modifiers character tier endedAt with_money
       with_modifiers with_currentPhase].
  repeat split. destruct (Element_eqb _ _); lia.
Qed.

Lemma PHASE_FLOW_index p :
  (phaseIndex p < 8)%nat ->
  exists q, PHASE_FLOW p = Some q /\ phaseIndex q = S (phaseIndex p).
Proof.
  destruct p; cbn; intros H; try (eexists; split; reflexivity); lia.
Qed.

(** X16: the phases are walked in order.  From a state in the phase of
    index [i] (assignment is 0, quarter_end is 8), [n <= 8 - i] calls of
    [advancePhase] all return and reach the phase of index [i + n]; the
    modifiers have been ticked [n] times, money has grown by [100*n] for
    a Wood character and not at all otherwise, and the game is not marked
    as ended.  A call in [quarter_end] only marks the game as ended. *)
Theorem X16_phase_walk :
  forall (now : Z) (n : nat) (st : SalesGameState),
    (phaseIndex (currentPhase st) + n <= 8)%nat ->
    exists st',
      advanceTimes n now st = Returned st' /\
      phaseIndex (currentPhase st') = (phaseIndex (currentPhase st) + n)%nat /\
      money st' =
        money st
        + Z.of_nat n * (if Element_eqb (element (traits (character st))) Wood
                        then 100 else 0) /\
      modifiers st' = Nat.iter n tickModifiers (modifiers st) /\
      isGameOver st' = isGameOver st /\
      (currentPhase st' = quarter_end ->
       advancePhase now st' = Returned (with_endedAt st' now) /\
       isGameOver (with_endedAt st' now) = true /\
       currentPhase (with_endedAt st' now) = quarter_end).
Proof.
  intros now n. induction n as [| n IH]; intros st Hn.
  - exists st. split; [reflexivity |].
    cbn [Nat.iter nat_rect]. rewrite Nat.add_0_r.
    split; [reflexivity |]. split; [lia |]. split; [reflexivity |].
    split; [reflexivity |].
    intros Hq. split; [| split].
    + unfold advancePhase. rewrite Hq. reflexivity.
    + unfold isGameOver. cbn [endedAt with_endedAt isSome].
      apply orb_true_r.
    + exact Hq.
  - destruct (PHASE_FLOW_index (currentPhase st) ltac:(lia)) as (q & Hq & Hi).
    destruct (advancePhase_step now st q Hq)
      as (st1 & H1 & Hp1 & Hm1 & Hms1 & Hc1 & Ht1 & He1).
    destruct (IH st1 ltac:(rewrite Hp1, Hi; lia))
      as (st' & Hr & Hp & Hm & Hms & Hg & Hend).
    exists st'. cbn [advanceTimes]. rewrite H1.
    split; [exact Hr |]. split; [rewrite Hp, Hp1, Hi; lia |].
    split; [rewrite Hm, Hm1, Hc1; destruct (Element_eqb _ _); lia |].
    split; [rewrite Hms, Hms1; symmetry; apply Nat.iter_succ_r |].
    split; [| exact Hend].
    rewrite Hg. unfold isGameOver. rewrite Ht1, He1. reflexivity.
Qed.

Lemma X16_witness :
  exists st',
    advanceTimes 8 0 Sample.plain = Returned st' /\
    phaseIndex (currentPhase st') = 8%nat.
Proof.
  destruct (X16_phase_walk 0 8 Sample.plain ltac:(vm_compute; lia))
    as (st' & Hr & Hp & _).
  exists st'. split; [exact Hr | exact Hp].
Defined.

(* ================================================================== *)
(** * Reading the room *)
(* ================================================================== *)

(** X17: the shifted body-language roll always lies in [1, 6], is
    nondecreasing in the raw roll, ignores WIS in round 1, and equals the
    raw roll (for a raw roll in 1..6) when the DEX and WIS modifiers are 0
    or 1.  With a DEX modifier of at least 2 and no negative WIS, a raw
    roll of 1 or more is never read as Arms-Crossed. *)
Theorem X17_body_language_shift :
  forall (raw dexMod wisMod n : Z),
    let s := shiftBodyLanguageRoll raw dexMod wisMod n in
    1 <= s <= 6 /\
    (forall raw', raw <= raw' ->
       s <= shiftBodyLanguageRoll raw' dexMod wisMod n) /\
    (n < 2 -> forall wisMod',
       shiftBodyLanguageRoll raw dexMod wisMod' n = s) /\
    (1 <= raw <= 6 -> 0 <= dexMod <= 1 -> 0 <= wisMod <= 1 -> s = raw) /\
    (1 <= raw -> 2 <= dexMod -> 0 <= wisMod ->
     interpretBodyLanguage s <> arms_crossed).
Proof.
  intros raw dexMod wisMod n s. unfold s, shiftBodyLanguageRoll. cbv zeta.
  pose proof (Z.div_mod dexMod 2 ltac:(lia)) as Hd.
  pose proof (Z.mod_pos_bound dexMod 2 ltac:(lia)) as Hdm.
  pose proof (Z.div_mod wisMod 2 ltac:(lia)) as Hw.
  pose proof (Z.mod_pos_bound wisMod 2 ltac:(lia)) as Hwm.
  split; [destruct (2 <=? n); lia |].
  split; [intros raw' Hr; destruct (2 <=? n); lia |].
  split.
  { intros Hn wisMod'. destruct (Z.leb_spec 2 n); [lia | reflexivity]. }
  split.
  { intros Hr Hdx Hwx. destruct (2 <=? n); lia. }
  intros Hr Hdx Hwx. unfold interpretBodyLanguage.
  match goal with
  | |- context [if ?x =? 1 then _ else _] =>
      destruct (Z.eqb_spec x 1) as [E | E]
  end.
  - exfalso. destruct (2 <=? n); lia.
  - repeat match goal with
           | |- context [if ?b then _ else _] => destruct b
           end; discriminate.
Qed.

Lemma X17_witness :
  shiftBodyLanguageRoll 1 4 0 1 = 3 /\
  interpretBodyLanguage (shiftBodyLanguageRoll 1 4 0 1) <> arms_crossed.
Proof.
  split; [reflexivity |].
  destruct (X17_body_language_shift 1 4 0 1) as (_ & _ & _ & _ & H).
  apply H; vm_compute; discriminate.
Defined.

(* ================================================================== *)
(** * Storable tiers and the achievement proof *)
(* ================================================================== *)

Lemma calculateTier_tier now st :
  tier (calculateTier now st) =
  Some (tierByRatio (money st) (startingMoney st) (legendaryUnlocked st)).
Proof. reflexivity. Qed.

(** X18: with a positive starting money, a scored game is storable
    (Promotion or Legendary) exactly when its money is at least twice the
    starting money.  After the VP choice the Legendary tier is reached
    exactly when the choice was stretch or all-in and money is at least
    three times the starting money: the safe choice caps the tier at
    Promotion whatever the money. *)
Theorem X18_storable_and_vp_cap :
  forall (now : Z) (st : SalesGameState) (choice : VPChoice) (m : Z),
    0 < startingMoney st ->
    (isStorableTier (tier (calculateTier now st)) = true
     <-> 2 * startingMoney st <= money st) /\
    legendaryUnlocked (applyVPChoice st choice) =
      negb (VPChoice_eqb choice safe) /\
    (tier (calculateTier now (with_money (applyVPChoice st choice) m))
     = Some legendary
     <-> choice <> safe /\ 3 * startingMoney st <= m).
Proof.
  intros now st choice m Hs.
  split; [| split].
  - rewrite calculateTier_tier, tierByRatio_cases by assumption.
    destruct (Z.leb_spec (money st) 0);
      destruct (Z.ltb_spec (money st) (startingMoney st));
      destruct (Z.ltb_spec (money st) (2 * startingMoney st));
      destruct ((money st <? 3 * startingMoney st)
                || negb (legendaryUnlocked st));
      cbn [isStorableTier]; split; intros; try discriminate;
      try reflexivity; lia.
  - destruct choice; reflexivity.
  - rewrite calculateTier_tier.
    change (startingMoney (with_money (applyVPChoice st choice) m))
      with (startingMoney st).
    change (money (with_money (applyVPChoice st choice) m)) with m.
    change (legendaryUnlocked (with_money (applyVPChoice st choice) m))
      with (negb (legendaryGated (SALES_CONFIG.vpChoices choice))).
    rewrite tierByRatio_cases by assumption.
    destruct (Z.leb_spec m 0); destruct (Z.ltb_spec m (startingMoney st));
      destruct (Z.ltb_spec m (2 * startingMoney st));
      destruct (Z.ltb_spec m (3 * startingMoney st));
      destruct choice; cbn [SALES_CONFIG.vpChoices legendaryGated negb orb];
      (split;
       [ intros Hx; first [discriminate Hx | split; [discriminate | lia]]
       | intros [Hy1 Hy2];
         first [reflexivity | exfalso; lia | exfalso; apply Hy1; reflexivity] ]).
Qed.

Lemma X18_witness :
  isStorableTier (tier (calculateTier 0 (with_money Sample.plain 20000))) = true /\
  tier (calculateTier 0
          (with_money (applyVPChoice Sample.plain safe) 90000))
  <> Some legendary.
Proof.
  destruct (X18_storable_and_vp_cap 0 (with_money Sample.plain 20000) safe 0
              ltac:(vm_compute; reflexivity)) as (H & _).
  destruct (X18_storable_and_vp_cap 0 Sample.plain safe 90000
              ltac:(vm_compute; reflexivity)) as (_ & _ & H').
  split.
  - apply H. vm_compute. discriminate.
  - intros E. apply H' in E. destruct E as [E _]. apply E. reflexivity.
Defined.

(** X19: no achievement proof is generated for a game that has not been
    scored.  For a scored game with positive starting money a proof is
    generated exactly when money is at least twice the starting money and
    a roll labelled [territory] was recorded; it then carries the final
    and starting money, the tier, the choices, the first recorded
    territory roll and that roll's block height plus 4. *)
Theorem X19_achievement_proof :
  forall (now now' : Z) (st : SalesGameState) (bd : BlockData),
    0 < startingMoney st ->
    let scored := calculateTier now st in
    (tier st = None -> generateAchievementProof now' st bd = None) /\
    (generateAchievementProof now' scored bd <> None <->
     2 * startingMoney st <= money st /\
     exists r, In r (rolls st) /\ label r = "territory") /\
    (forall p, generateAchievementProof now' scored bd = Some p ->
       finalMoney p = money st /\
       proof_startingMoney p = startingMoney st /\
       Some (proof_tier p) = tier scored /\
       proof_choices p = choices st /\
       blockData p = bd /\
       find (fun r => String.eqb (label r) "territory") (rolls st)
         = Some (territoryRoll p) /\
       completedAtBlock p = blockHeight (territoryRoll p) + 4 /\
       timestamp p = now').
Proof.
  intros now now' st bd Hs scored.
  assert (Hst : isStorableTier (tier scored) = true
                <-> 2 * startingMoney st <= money st).
  { unfold scored.
    rewrite calculateTier_tier, tierByRatio_cases by assumption.
    destruct (Z.leb_spec (money st) 0);
      destruct (Z.ltb_spec (money st) (startingMoney st));
      destruct (Z.ltb_spec (money st) (2 * startingMoney st));
      destruct ((money st <? 3 * startingMoney st)
                || negb (legendaryUnlocked st));
      cbn [isStorableTier]; split; intros; try discriminate;
      try reflexivity; lia. }
  split; [| split].
  - intros Ht. unfold generateAchievementProof. rewrite Ht. reflexivity.
  - unfold generateAchievementProof.
    change (rolls scored) with (rolls st).
    destruct (tier scored) as [t |] eqn:Et; [| discriminate].
    destruct (isStorableTier (Some t)) eqn:Es; cbn [negb].
    + destruct (find _ (rolls st)) as [r |] eqn:Ef.
      * split; [| intros _; discriminate].
        intros _. split; [apply Hst; reflexivity |].
        apply find_some in Ef. destruct Ef as [Hin Hl].
        apply String.eqb_eq in Hl. exists r. auto.
      * split; [intros H; exfalso; apply H; reflexivity |].
        intros (_ & r & Hin & Hl). exfalso.
        pose proof (find_none _ _ Ef r Hin) as Hn. cbv beta in Hn.
        rewrite Hl in Hn. discriminate.
    + split; [intros H; exfalso; apply H; reflexivity |].
      intros (H2 & _). apply Hst in H2. congruence.
  - intros p Hp. unfold generateAchievementProof in Hp.
    change (rolls scored) with (rolls st) in Hp.
    destruct (tier scored) as [t |]; [| discriminate].
    destruct (isStorableTier (Some t)); cbn [negb] in Hp; [| discriminate].
    destruct (find _ (rolls st)) as [r |]; [| discriminate].
    injection Hp as <-. repeat split.
Qed.

Lemma X19_witness :
  generateAchievementProof 5
    (calculateTier 4
       (recordRoll (with_money Sample.plain 20000)
          {| label := "territory"; blockHeight := 700; dieSize := 6;
             result := 3 |}))
    (Build_BlockData "a" "b" "c" "d" "e" "f" "g" "h") <> None.
Proof.
  destruct (X19_achievement_proof 4 5
              (recordRoll (with_money Sample.plain 20000)
                 {| label := "territory"; blockHeight := 700; dieSize := 6;
                    result := 3 |})
              (Build_BlockData "a" "b" "c" "d" "e" "f" "g" "h")
              ltac:(vm_compute; reflexivity)) as (_ & H & _).
  apply H. split.
  - vm_compute. discriminate.
  - eexists. split; [left; reflexivity | reflexivity].
Defined.

(* ================================================================== *)
(** * The dice hash *)
(* ================================================================== *)








(* ================================================================== *)
(** * Territory and clients *)
(* ================================================================== *)

Lemma rem3_cases r :
  1 <= r ->
  Z.rem (r - 1) 3 = 0 \/ Z.rem (r - 1) 3 = 1 \/ Z.rem (r - 1) 3 = 2.
Proof.
  intros Hr. pose proof (Z.rem_bound_pos (r - 1) 3 ltac:(lia) ltac:(lia)). lia.
Qed.

Lemma createFirstClient_some t r :
  1 <= r ->
  exists tpl, In tpl (FIRST_CLIENTS t) /\
              createFirstClient t r = Some (clientOfTemplate tpl).
Proof.
  intros Hr. unfold createFirstClient. cbv zeta.
  assert (Hl : Z.of_nat (List.length (FIRST_CLIENTS t)) = 3)
    by (destruct t; reflexivity).
  rewrite Hl.
  destruct (rem3_cases r Hr) as [-> | [-> | ->]]; destruct t;
    cbn [templateAt Z.ltb Z.compare Z.to_nat Pos.to_nat Pos.iter_op Nat.add
         nth_error FIRST_CLIENTS];
    eexists; (split; [| reflexivity]); cbn; tauto.
Qed.

Lemma createWhaleClient_some t r :
  1 <= r ->
  exists tpl, In tpl (WHALE_CLIENTS t) /\
              createWhaleClient t r = Some (clientOfTemplate tpl).
Proof.
  intros Hr. unfold createWhaleClient. cbv zeta.
  assert (Hl : Z.of_nat (List.length (WHALE_CLIENTS t)) = 3)
    by (destruct t; reflexivity).
  rewrite Hl.
  destruct (rem3_cases r Hr) as [-> | [-> | ->]]; destruct t;
    cbn [templateAt Z.ltb Z.compare Z.to_nat Pos.to_nat Pos.iter_op Nat.add
         nth_error WHALE_CLIENTS];
    eexists; (split; [| reflexivity]); cbn; tauto.
Qed.

Lemma first_templates t tpl :
  In tpl (FIRST_CLIENTS t) ->
  t_territory tpl = t /\ t_maxPatience tpl = t_patience tpl /\
  4 <= t_patience tpl <= 7 /\ 10 <= t_resistance tpl <= 14 /\
  2200 <= t_budget tpl <= 3500.
Proof.
  destruct t; cbn; intros H;
    repeat (destruct H as [<- | H]; [cbn; repeat split; lia |]);
    contradiction.
Qed.

Lemma whale_templates t tpl :
  In tpl (WHALE_CLIENTS t) ->
  t_territory tpl = t /\ t_maxPatience tpl = t_patience tpl /\
  5 <= t_patience tpl <= 8 /\ 13 <= t_resistance tpl <= 16 /\
  5500 <= t_budget tpl <= 8000.
Proof.
  destruct t; cbn; intros H;
    repeat (destruct H as [<- | H]; [cbn; repeat split; lia |]);
    contradiction.
Qed.

(** X21: a client cannot be set up before the territory is assigned:
    [initFirstClient] and [initWhaleClient] raise on a state without
    territory.  [assignTerritory] always sets one (rolls up to 2 tech, 3
    and 4 retail, 5 and up finance), and then every client roll [>= 1]
    yields a first client of that territory with no deal value, active,
    at full patience (4 to 7), resistance 10 to 14, an empty round list
    and unchanged money.  Client rolls that differ by 3 pick the same
    template. *)
Theorem X21_first_client_setup :
  forall (st : SalesGameState) (roll clientRoll : Z),
    let t := if roll <=? 2 then tech else if roll <=? 4 then retail
             else finance in
    (st_territory st = None ->
     initFirstClient st clientRoll =
       Thrown "Territory must be assigned before first client" /\
     initWhaleClient st clientRoll =
       Thrown "Territory must be assigned before whale client") /\
    st_territory (assignTerritory st roll) = Some t /\
    (1 <= clientRoll ->
     createFirstClient t (clientRoll + 3) = createFirstClient t clientRoll /\
     exists st1 c1,
       initFirstClient (assignTerritory st roll) clientRoll
         = Returned (Some st1) /\
       firstClient st1 = Some c1 /\ firstClientRounds st1 = Some [] /\
       money st1 = money st /\
       territory c1 = t /\ dealValue c1 = 0 /\ active c1 = true /\
       patience c1 = maxPatience c1 /\ 4 <= patience c1 <= 7 /\
       10 <= resistance c1 <= 14 /\
       getNegotiationOutcome c1 = ongoing).
Proof.
  intros st roll clientRoll t.
  split; [| split].
  - intros Hn. unfold initFirstClient, initWhaleClient. rewrite Hn.
    split; reflexivity.
  - reflexivity.
  - intros Hr. split.
    + unfold createFirstClient. cbv zeta.
      replace (clientRoll + 3 - 1) with (clientRoll - 1 + 1 * 3) by lia.
      assert (Hl : Z.of_nat (List.length (FIRST_CLIENTS t)) = 3)
        by (destruct t; reflexivity).
      rewrite Hl.
      rewrite !Z.rem_mod_nonneg by lia.
      rewrite Z.mod_add by lia. reflexivity.
    + destruct (createFirstClient_some t clientRoll Hr) as (tpl & Hin & Hc).
      destruct (first_templates t tpl Hin) as (Ht & Hmp & Hp & Hres & _).
      unfold initFirstClient.
      change (st_territory (assignTerritory st roll)) with (Some t).
      cbv iota beta. rewrite Hc. cbv zeta.
      eexists. eexists. split; [reflexivity |].
      unfold getNegotiationOutcome, with_budget, clientOfTemplate.
      cbn [firstClient firstClientRounds money with_firstClient with_choices
           with_territory assignTerritory territory dealValue active patience
           maxPatience resistance negb].
      repeat split;
        cbn [territory dealValue active patience maxPatience resistance negb];
        try assumption; try lia; try congruence.
Qed.

Lemma X21_witness :
  exists st1 c1,
    initFirstClient (assignTerritory Sample.plain 1) 1 = Returned (Some st1) /\
    firstClient st1 = Some c1 /\ territory c1 = tech.
Proof.
  destruct (X21_first_client_setup Sample.plain 1 1) as (_ & _ & H).
  destruct (H ltac:(lia)) as (_ & st1 & c1 & Hi & Hf & _ & _ & Ht & _).
  exists st1, c1. split; [exact Hi |]. split; [exact Hf | exact Ht].
Defined.

(** X22: with a territory assigned, every client roll [>= 1] yields a
    whale client with no deal value and active.  A dinner lowers the
    template's resistance by exactly 2 (the floor of 8 never binds: the
    result lies in 11..14), a gift adds 2 to patience and to maximum
    patience, and research or no investment leave the template as it is;
    in every case patience equals maximum patience, between 5 and 10, and
    resistance is between 11 and 16. *)
Theorem X22_whale_client_setup :
  forall (st : SalesGameState) (t : Territory) (clientRoll : Z),
    st_territory st = Some t ->
    1 <= clientRoll ->
    exists tpl st2 c2,
      In tpl (WHALE_CLIENTS t) /\
      initWhaleClient st clientRoll = Returned (Some st2) /\
      whaleClient st2 = Some c2 /\ whaleRounds st2 = Some [] /\
      money st2 = money st /\
      territory c2 = t /\ dealValue c2 = 0 /\ active c2 = true /\
      resistance c2 =
        (match whaleInvestment st with
         | Some dinner => t_resistance tpl - 2
         | _ => t_resistance tpl
         end) /\
      patience c2 =
        (match whaleInvestment st with
         | Some gift => t_patience tpl + 2
         | _ => t_patience tpl
         end) /\
      maxPatience c2 = patience c2 /\
      5 <= patience c2 <= 10 /\ 11 <= resistance c2 <= 16.
Proof.
  intros st t clientRoll Ht Hr.
  destruct (createWhaleClient_some t clientRoll Hr) as (tpl & Hin & Hc).
  destruct (whale_templates t tpl Hin) as (Htt & Hmp & Hp & Hres & _).
  exists tpl. unfold initWhaleClient. rewrite Ht, Hc. cbv zeta.
  eexists. eexists. split; [exact Hin |]. split; [reflexivity |].
  cbn [whaleClient whaleRounds money with_whaleClient].
  split; [reflexivity |]. split; [reflexivity |]. split; [reflexivity |].
  destruct (whaleInvestment st) as [[| | |] |];
    unfold with_maxPatience, with_patience, with_resistance, with_budget,
      clientOfTemplate;
    repeat split;
    cbn [territory dealValue active patience maxPatience resistance];
    try assumption; try lia.
Qed.

Lemma X22_witness :
  exists tpl st2 c2,
    In tpl (WHALE_CLIENTS tech) /\
    initWhaleClient
      (applyWhaleInvestment (assignTerritory Sample.plain 1) dinner) 1
    = Returned (Some st2) /\
    whaleClient st2 = Some c2 /\
    resistance c2 = t_resistance tpl - 2.
Proof.
  destruct (X22_whale_client_setup
              (applyWhaleInvestment (assignTerritory Sample.plain 1) dinner)
              tech 1 eq_refl ltac:(lia))
    as (tpl & st2 & c2 & Hin & Hi & Hw & _ & _ & _ & _ & _ & Hres & _).
  exists tpl, st2, c2. repeat split; assumption.
Defined.

(* ================================================================== *)
(** * Budget scaling *)
(* ================================================================== *)

Lemma scaled_first_checked :
  forallb (fun k => forallb (fun t => forallb (scaledBudgetOk 1100 9625 k)
                                        (FIRST_CLIENTS t)) territories)
    (range 0 49) = true.
Proof. vm_compute. reflexivity. Qed.

Lemma scaled_whale_checked :
  forallb (fun k => forallb (fun t => forallb (scaledBudgetOk 2750 22000 k)
                                        (WHALE_CLIENTS t)) territories)
    (range 0 49) = true.
Proof. vm_compute. reflexivity. Qed.

Lemma territories_all t : In t territories.
Proof. destruct t; cbn; tauto. Qed.

Lemma scaledBudgetOk_bounds lo hi k tpl :
  scaledBudgetOk lo hi k tpl = true ->
  let sm := 3000 + 500 * k in
  let b := JS.floor (fmul (ofZ (t_budget tpl)) (scaleOf sm)) in
  let e := t_budget tpl * Z.max 5000 sm / 10000 in
  e - 1 <= b <= e /\ lo <= b <= hi.
Proof.
  unfold scaledBudgetOk. cbv zeta. intros H.
  apply andb_true_iff in H. destruct H as [H H4].
  apply andb_true_iff in H. destruct H as [H H3].
  apply andb_true_iff in H. destruct H as [H1 H2].
  apply Z.leb_le in H1. apply Z.leb_le in H2.
  apply Z.leb_le in H3. apply Z.leb_le in H4. lia.
Qed.

(** X23: the budget scale of a new game is
    [max(0.5, startingMoney/10000)] in binary64.  For a character with
    rolled CHA, INT and WIS modifiers (each in [-5, 5]) and any state
    carrying that scale, a first client's scaled budget lies in
    [1100, 9625] and a whale's in [2750, 22000]; each is the exact
    [floor(budget * max(5000, startingMoney) / 10000)] or one less. *)
Theorem X23_scaled_budgets :
  forall (now : Z) (c : StoredCharacter) (st : SalesGameState)
         (t : Territory) (clientRoll : Z),
    -5 <= statMod c cha <= 5 -> -5 <= statMod c int <= 5 ->
    -5 <= statMod c wis <= 5 ->
    budgetScale st = budgetScale (createSalesGameState now c) ->
    st_territory st = Some t ->
    1 <= clientRoll ->
    let sm := calculateStartingMoney c in
    exists tpl1 tpl2 st1 st2 c1 c2,
      In tpl1 (FIRST_CLIENTS t) /\ In tpl2 (WHALE_CLIENTS t) /\
      initFirstClient st clientRoll = Returned (Some st1) /\
      initWhaleClient st clientRoll = Returned (Some st2) /\
      firstClient st1 = Some c1 /\ whaleClient st2 = Some c2 /\
      1100 <= budget c1 <= 9625 /\ 2750 <= budget c2 <= 22000 /\
      t_budget tpl1 * Z.max 5000 sm / 10000 - 1 <= budget c1
        <= t_budget tpl1 * Z.max 5000 sm / 10000 /\
      t_budget tpl2 * Z.max 5000 sm / 10000 - 1 <= budget c2
        <= t_budget tpl2 * Z.max 5000 sm / 10000.
Proof.
  intros now c st t clientRoll Hc Hi Hw Hscale Ht Hr sm.
  destruct (startingMoney_steps c Hc Hi Hw) as (k & Hk & Hsm).
  assert (Hs : budgetScale st = scaleOf (3000 + 500 * k)).
  { rewrite Hscale. unfold createSalesGameState. cbv zeta.
    cbn [budgetScale]. rewrite Hsm. reflexivity. }
  destruct (createFirstClient_some t clientRoll Hr) as (tpl1 & Hin1 & Hc1).
  destruct (createWhaleClient_some t clientRoll Hr) as (tpl2 & Hin2 & Hc2).
  pose proof (checked_range _ 0 49 scaled_first_checked k Hk) as H1.
  cbv beta in H1. rewrite forallb_forall in H1.
  specialize (H1 t (territories_all t)). rewrite forallb_forall in H1.
  specialize (H1 tpl1 Hin1). apply scaledBudgetOk_bounds in H1.
  pose proof (checked_range _ 0 49 scaled_whale_checked k Hk) as H2.
  cbv beta in H2. rewrite forallb_forall in H2.
  specialize (H2 t (territories_all t)). rewrite forallb_forall in H2.
  specialize (H2 tpl2 Hin2). apply scaledBudgetOk_bounds in H2.
  cbv zeta in H1, H2. rewrite <- Hs in H1, H2.
  fold sm in Hsm. rewrite <- Hsm in H1, H2.
  exists tpl1, tpl2.
  unfold initFirstClient, initWhaleClient. rewrite Ht, Hc1, Hc2. cbv zeta.
  eexists. eexists. eexists. eexists.
  split; [exact Hin1 |]. split; [exact Hin2 |].
  split; [reflexivity |]. split; [reflexivity |].
  cbn [firstClient whaleClient with_firstClient with_whaleClient].
  split; [reflexivity |]. split; [reflexivity |].
  assert (Hb2 : forall (x : Client) (v : Z),
            budget
              (match whaleInvestment st with
               | Some gift =>
                   with_maxPatience
                     (with_patience
                        (match whaleInvestment st with
                         | Some dinner =>
                             with_resistance (with_budget x v)
                               (Z.max 8 (resistance (with_budget x v) - 2))
                         | _ => with_budget x v
                         end)
                        (patience
                           (match whaleInvestment st with
                            | Some dinner =>
                                with_resistance (with_budget x v)
                                  (Z.max 8 (resistance (with_budget x v) - 2))
                            | _ => with_budget x v
                            end) + 2))
                     (maxPatience
                        (match whaleInvestment st with
                         | Some dinner =>
                             with_resistance (with_budget x v)
                               (Z.max 8 (resistance (with_budget x v) - 2))
                         | _ => with_budget x v
                         end) + 2)
               | _ =>
                   match whaleInvestment st with
                   | Some dinner =>
                       with_resistance (with_budget x v)
                         (Z.max 8 (resistance (with_budget x v) - 2))
                   | _ => with_budget x v
                   end
               end) = v).
  { intros x v. destruct (whaleInvestment st) as [[| | |] |]; reflexivity. }
  rewrite Hb2.
  cbn [budget with_budget clientOfTemplate].
  lia.
Qed.

Lemma X23_witness :
  exists tpl1 tpl2 st1 st2 c1 c2,
    In tpl1 (FIRST_CLIENTS tech) /\ In tpl2 (WHALE_CLIENTS tech) /\
    initFirstClient (assignTerritory Sample.plain 1) 1 = Returned (Some st1) /\
    initWhaleClient (assignTerritory Sample.plain 1) 1 = Returned (Some st2) /\
    firstClient st1 = Some c1 /\ whaleClient st2 = Some c2 /\
    1100 <= budget c1 <= 9625 /\ 2750 <= budget c2 <= 22000.
Proof.
  destruct (X23_scaled_budgets 0 (Sample.hero 0 0 0 0 0 0 Fire Wolf)
              (assignTerritory Sample.plain 1) tech 1
              ltac:(vm_compute; split; discriminate)
              ltac:(vm_compute; split; discriminate)
              ltac:(vm_compute; split; discriminate)
              eq_refl eq_refl ltac:(lia))
    as (tpl1 & tpl2 & st1 & st2 & c1 & c2 & H1 & H2 & H3 & H4 & H5 & H6 & H7
        & H8 & _).
  exists tpl1, tpl2, st1, st2, c1, c2. repeat split; assumption || apply H7 || apply H8.
Defined.

(* ================================================================== *)
(** * Closing the deals *)
(* ================================================================== *)

Lemma whaleMultiplier_nonneg v :
  nonnegFloat (whaleMultiplier (SALES_CONFIG.vpChoices v)) = true /\
  match whaleMultiplier (SALES_CONFIG.vpChoices v) with
  | S754_infinity _ => False
  | _ => True
  end.
Proof. destruct v; vm_compute; split; (reflexivity || exact I). Qed.

Lemma whaleValue_zero v :
  JS.floor (fmul (ofZ 0) (whaleMultiplier (SALES_CONFIG.vpChoices v))) = 0.
Proof. destruct v; vm_compute; reflexivity. Qed.

(** X24: the deals cannot be closed before they exist:
    [completeFirstClient] raises without a first client and
    [completeWhale] raises without a whale client or without a VP choice.
    With both present and a whale deal value [>= 0], [completeWhale]
    returns; it never lowers money under the safe and stretch choices,
    and under all-in it lowers money by at most
    [max(0, 3000 - CON_mod*100)].  With a whale deal value of 0 money is
    unchanged under safe and stretch and falls by exactly
    [max(0, 3000 - CON_mod*100)] under all-in. *)
Theorem X24_closing_the_deals :
  forall (st : SalesGameState),
    (firstClient st = None ->
     completeFirstClient st = Thrown "No first client to complete") /\
    (whaleClient st = None \/ vpChoice st = None ->
     completeWhale st = Thrown "Whale client and VP choice required") /\
    (forall (w : Client) (v : VPChoice),
       whaleClient st = Some w -> vpChoice st = Some v ->
       0 <= dealValue w ->
       let penalty := Z.max 0 (3000 - statMod (character st) con * 100) in
       exists st',
         completeWhale st = Returned st' /\
         (v <> allin -> money st <= money st') /\
         money st - penalty <= money st' /\
         (dealValue w = 0 ->
          money st' = money st - (if VPChoice_eqb v allin then penalty else 0))).
Proof.
  intros st. split; [| split].
  - intros H. unfold completeFirstClient. rewrite H. reflexivity.
  - intros [H | H]; unfold completeWhale; rewrite H;
      [| destruct (whaleClient st)]; reflexivity.
  - intros w v Hw Hv Hd penalty.
    unfold completeWhale. rewrite Hw, Hv. cbv zeta.
    eexists. split; [reflexivity |].
    cbn [money with_money].
    destruct (whaleMultiplier_nonneg v) as [Hn Hf].
    pose proof (floor_fmul_nonneg (dealValue w) _ Hd Hn Hf) as Hwv.
    set (wv := JS.floor (fmul (ofZ (dealValue w))
                           (whaleMultiplier (SALES_CONFIG.vpChoices v)))) in *.
    assert (Hpen : failurePenalty (SALES_CONFIG.vpChoices allin) = 3000)
      by reflexivity.
    unfold getConAdjustment.
    split; [| split].
    + intros Hna.
      assert (E : VPChoice_eqb v allin = false)
        by (destruct v; first [reflexivity | exfalso; apply Hna; reflexivity]).
      rewrite E. cbn [andb].
      destruct (Element_eqb _ Fire && _); destruct (Element_eqb _ Metal && _);
        lia.
    + destruct v; cbn [VPChoice_eqb andb SALES_CONFIG.vpChoices failurePenalty];
        try (destruct (Element_eqb _ Fire && _);
             destruct (Element_eqb _ Metal && _); lia).
      destruct (wv =? 0); cbn [Z.ltb Z.compare];
        destruct (Element_eqb _ Fire && _);
        destruct (Element_eqb _ Metal && _); lia.
    + intros H0. unfold wv. rewrite H0, whaleValue_zero.
      cbn [Z.ltb Z.compare Z.eqb andb]. rewrite !andb_false_r.
      destruct v; cbn [VPChoice_eqb andb SALES_CONFIG.vpChoices failurePenalty
                       Z.ltb Z.compare]; lia.
Qed.

Lemma X24_witness :
  exists st',
    completeWhale
      (with_whaleClient
         (applyVPChoice
            (createSalesGameState 0 (Sample.hero 0 0 2 0 0 0 Fire Wolf)) allin)
         Sample.startupBot []) = Returned st' /\
    money st' = 10000 - 2800.
Proof.
  destruct (X24_closing_the_deals
              (with_whaleClient
                 (applyVPChoice
                    (createSalesGameState 0 (Sample.hero 0 0 2 0 0 0 Fire Wolf))
                    allin)
                 Sample.startupBot [])) as (_ & _ & H).
  destruct (H Sample.startupBot allin eq_refl eq_refl
              ltac:(vm_compute; discriminate)) as (st' & Hr & _ & _ & H0).
  exists st'. split; [exact Hr | exact (H0 eq_refl)].
Defined.

(* ================================================================== *)
(** * What no operation changes *)
(* ================================================================== *)

(** X25: the character, the starting money and the budget scale are
    fixed when the game is created: no engine operation changes them,
    whether it returns directly or through a call that may raise. *)
Theorem X25_game_constants :
  forall (toLocaleString : Z -> string) (now : Z) (st : SalesGameState),
    (forall st', advancePhase now st = Returned st' -> sameGame st st') /\
    (forall r, sameGame st (assignTerritory st r)) /\
    (forall c, sameGame st (applyTravelChoice st c)) /\
    (forall r, sameGame st (applyJourneyEvent st r)) /\
    (forall r, sameGame st (applyDriveTrouble st r)) /\
    (forall r st', initFirstClient st r = Returned (Some st') ->
                   sameGame st st') /\
    (forall st', completeFirstClient st = Returned st' -> sameGame st st') /\
    (forall c r, sameGame st (applyCrossroadsChoice st c r)) /\
    (forall r, sameGame st (applyQuarterEvent st r)) /\
    (forall c, sameGame st (applyVPChoice st c)) /\
    (forall i, sameGame st (applyWhaleInvestment st i)) /\
    (forall r, sameGame st (applyLuckyItem st r)) /\
    (forall r st', initWhaleClient st r = Returned (Some st') ->
                   sameGame st st') /\
    (forall st', completeWhale st = Returned st' -> sameGame st st') /\
    sameGame st (calculateTier now st) /\
    (forall r, useSpiritAbility toLocaleString st = Returned r ->
               sameGame st (ar_state r)) /\
    (forall r, sameGame st (recordRoll st r)) /\
    (forall a d, sameGame st (addMoney st a d)) /\
    (forall a, sameGame st (removeMoney st a)) /\
    (forall m, sameGame st (addModifier st m)).
Proof.
  intros tls now st.
  assert (Hrefl : forall s, sameGame s s) by (intros s; repeat split).
  repeat match goal with |- _ /\ _ => split end;
    try (intros; repeat split; fail).
  - intros st' H. unfold advancePhase in H.
    destruct (PHASE_FLOW (currentPhase st)); injection H as <-; repeat split.
  - intros r st' H. unfold initFirstClient in H.
    destruct (st_territory st); [| discriminate].
    destruct (createFirstClient _ r); [| discriminate].
    injection H as <-. repeat split.
  - intros st' H. unfold completeFirstClient in H.
    destruct (firstClient st); [| discriminate].
    injection H as <-. repeat split.
  - intros r st' H. unfold initWhaleClient in H.
    destruct (st_territory st); [| discriminate].
    destruct (createWhaleClient _ r); [| discriminate].
    injection H as <-. repeat split.
  - intros st' H. unfold completeWhale in H.
    destruct (whaleClient st); [| discriminate].
    destruct (vpChoice st); [| discriminate].
    injection H as <-. repeat split.
  - intros r H. unfold useSpiritAbility in H.
    destruct (spiritAbilityUsed st); [discriminate |].
    unfold spiritSwitch in H. cbv zeta in H.
    destruct (spiritAnimal (traits (character st)));
      injection H as <-; repeat split.
Qed.

Lemma X25_witness :
  exists st', advancePhase 0 Sample.plain = Returned st' /\
              sameGame Sample.plain st'.
Proof.
  destruct (X25_game_constants Sample.usLocale 0 Sample.plain) as (H & _).
  eexists. split; [reflexivity |]. apply H. reflexivity.
Defined.
